(** * dotCARV domain client: instruction codec, account decoder, PDA use

    A shallow embedding of [idl.ts] ([getDomainPDA]), of the class
    [DomainService] of [src/lib/domain-service.ts] and of [parseTokenAccount] /
    [isValidPublicKey] of the class [NFTService], together with the parts of
    the JavaScript runtime and of [@solana/web3.js] these functions call.

    Conventions.
    - A byte is a [Z] in [0, 255]; a byte sequence is a [list Z].
    - A JavaScript string is the list of its UTF-16 code units ([Z] in
      [0, 65535]); [js "abc"] turns an ASCII literal into such a list.
    - A JavaScript [number] that holds a time or a token amount is a rational
      ([Q]).  A quotient or sum that the code stores in a record is rounded
      to the nearest double ([round_to_double]); a quotient that is only
      compared ([expires < Date.now() / 1000], [balance < 0.01],
      [uiAmount < 1]) is compared exactly, which decides as the doubles do.
      Conversions from [BigInt] round to 53 bits as [Number(...)] does.
    - Code that may throw returns a [Result]; code that talks to the RPC node or
      reads the clock runs in the monad [M] over a [World]. *)

From Stdlib Require Import ZArith QArith Bool Ascii String DecimalString List Lia.
Import ListNotations.
Open Scope Z_scope.

(** ** Exceptions *)

Inductive Error : Type :=
| RangeError (msg : string)
| TypeError (msg : string)
| GenericError (msg : string).

Inductive Result (A : Type) : Type :=
| Ok (a : A)
| Throw (e : Error).
Arguments Ok {A} a.
Arguments Throw {A} e.

Definition rbind {A B} (r : Result A) (k : A -> Result B) : Result B :=
  match r with
  | Ok a => k a
  | Throw e => Throw e
  end.

Declare Scope result_scope.
Delimit Scope result_scope with result.
Notation "x <- r ;; k" := (rbind r (fun x => k))
  (at level 61, r at next level, right associativity) : result_scope.

(** ** Byte sequences and little-endian integers *)

Definition Bytes := list Z.

Definition is_byte (b : Z) : bool := (0 <=? b) && (b <? 256).

(** [n] as [k] little-endian bytes (the low [8k] bits of [n]). *)
Fixpoint le_bytes (k : nat) (n : Z) : Bytes :=
  match k with
  | O => []
  | S k' => n mod 256 :: le_bytes k' (n / 256)
  end.

(** The unsigned value of a little-endian byte sequence. *)
Fixpoint le_value (bs : Bytes) : Z :=
  match bs with
  | [] => 0
  | b :: rest => b + 256 * le_value rest
  end.

(** Two's complement reading of an unsigned [w]-bit value. *)
Definition to_signed (w : Z) (u : Z) : Z :=
  if u <? 2 ^ (w - 1) then u else u - 2 ^ w.

(** [JS slice(start, end)] on a sequence, for non negative [start], [end]:
    both are clamped to the length; an empty result when [end <= start]. *)
Definition slice_list (bs : Bytes) (s e : Z) : Bytes :=
  firstn (Z.to_nat (e - s)) (skipn (Z.to_nat s) bs).

(** Hexadecimal notation of byte strings, as the protocol tables write them. *)
Definition hex_digit (c : ascii) : Z :=
  let n := Z.of_N (N_of_ascii c) in
  if (48 <=? n) && (n <=? 57) then n - 48
  else if (97 <=? n) && (n <=? 102) then n - 87
  else if (65 <=? n) && (n <=? 70) then n - 55
  else 0.

Fixpoint bytes_of_hex (s : string) : Bytes :=
  match s with
  | String hi (String lo rest) => (16 * hex_digit hi + hex_digit lo) :: bytes_of_hex rest
  | _ => []
  end.

(** ** JavaScript strings *)

Definition JSString := list Z.

Definition js (s : string) : JSString :=
  map (fun c => Z.of_N (N_of_ascii c)) (list_ascii_of_string s).

Definition is_code_unit (c : Z) : bool := (0 <=? c) && (c <? 65536).
Definition is_high_surrogate (c : Z) : bool := (55296 <=? c) && (c <=? 56319).
Definition is_low_surrogate (c : Z) : bool := (56320 <=? c) && (c <=? 57343).

(** UTF-8 bytes of one code point. *)
Definition utf8_of_code_point (cp : Z) : Bytes :=
  if cp <? 128 then [cp]
  else if cp <? 2048 then [192 + cp / 64; 128 + cp mod 64]
  else if cp <? 65536 then
    [224 + cp / 4096; 128 + (cp / 64) mod 64; 128 + cp mod 64]
  else
    [240 + cp / 262144; 128 + (cp / 4096) mod 64;
     128 + (cp / 64) mod 64; 128 + cp mod 64].

(** U+FFFD, what an unpaired surrogate is encoded as. *)
Definition replacement_bytes : Bytes := [239; 191; 189].

(** [Buffer.from(s, 'utf8')]: a surrogate pair gives one four-byte sequence,
    an unpaired surrogate gives EF BF BD, no normalisation of any kind. *)
Fixpoint utf8 (s : JSString) : Bytes :=
  match s with
  | [] => []
  | c :: rest =>
    if is_high_surrogate c then
      match rest with
      | d :: rest' =>
        if is_low_surrogate d
        then utf8_of_code_point (65536 + (c - 55296) * 1024 + (d - 56320)) ++ utf8 rest'
        else replacement_bytes ++ utf8 rest
      | [] => replacement_bytes
      end
    else if is_low_surrogate c then replacement_bytes ++ utf8 rest
    else utf8_of_code_point c ++ utf8 rest
  end.

(** [new TextDecoder().decode(bytes)]: the WHATWG UTF-8 decoder in its default,
    non fatal mode.  A malformed sequence yields U+FFFD and the offending byte
    is processed again as a lead byte; one leading U+FEFF is dropped. *)
Inductive DecoderState : Type :=
| Start
| Continuation (code_point : Z) (needed : nat) (lower upper : Z).

Definition decode_lead (b : Z) : list Z * DecoderState :=
  if (0 <=? b) && (b <=? 127) then ([b], Start)
  else if (194 <=? b) && (b <=? 223) then ([], Continuation (b - 192) 1 128 191)
  else if (224 <=? b) && (b <=? 239) then
    ([], Continuation (b - 224) 2 (if b =? 224 then 160 else 128)
                                  (if b =? 237 then 159 else 191))
  else if (240 <=? b) && (b <=? 244) then
    ([], Continuation (b - 240) 3 (if b =? 240 then 144 else 128)
                                  (if b =? 244 then 143 else 191))
  else ([65533], Start).

Definition decode_step (st : DecoderState) (b : Z) : list Z * DecoderState :=
  match st with
  | Start => decode_lead b
  | Continuation cp n lo hi =>
    if (lo <=? b) && (b <=? hi) then
      let cp' := cp * 64 + (b - 128) in
      match n with
      | S (S n') => ([], Continuation cp' (S n') 128 191)
      | _ => ([cp'], Start)
      end
    else
      let (out, st') := decode_lead b in (65533 :: out, st')
  end.

Fixpoint decode_from (st : DecoderState) (bs : Bytes) : list Z :=
  match bs with
  | [] => match st with Start => [] | Continuation _ _ _ _ => [65533] end
  | b :: rest => let (out, st') := decode_step st b in out ++ decode_from st' rest
  end.

Definition utf16_of_code_point (cp : Z) : JSString :=
  if cp <? 65536 then [cp]
  else [55296 + (cp - 65536) / 1024; 56320 + (cp - 65536) mod 1024].

Definition strip_bom (cps : list Z) : list Z :=
  match cps with
  | 65279 :: rest => rest
  | _ => cps
  end.

Definition TextDecoder_decode (bs : Bytes) : JSString :=
  flat_map utf16_of_code_point (strip_bom (decode_from Start bs)).

(** ** Numbers *)

(** [Number(v)] for a BigInt [v]: the nearest double, ties to even.  Every
    double of magnitude at least [2^53] is an integer, so the result is a [Z]. *)
Definition Number_of_BigInt (v : Z) : Z :=
  let a := Z.abs v in
  if a <? 2 ^ 53 then v
  else
    let e := Z.log2 a - 52 in
    let q := a / 2 ^ e in
    let r := a mod 2 ^ e in
    let half := 2 ^ (e - 1) in
    let q' := if (half <? r) || ((r =? half) && Z.odd q) then q + 1 else q in
    Z.sgn v * (q' * 2 ^ e).

Definition Qltb (x y : Q) : bool := negb (Qle_bool y x).

(** The double nearest to a rational, ties to even: what [/] and [+] return
    for the exact quotient or sum of their operands.  The result is in lowest
    terms.  Below [2^-1022] the spacing is that of the subnormal numbers; a
    magnitude of [2^1024] or more would be [Infinity], which no time and no
    token amount of this program reaches. *)
Definition round_to_double (q : Q) : Q :=
  let n := Qnum q in
  let d := Zpos (Qden q) in
  if n =? 0 then 0%Q
  else
    let a := Z.abs n in
    let k := Z.log2 a - Z.log2 d in
    (* the binary exponent of a / d is k or k - 1 *)
    let l := if d * 2 ^ Z.max 0 k <=? a * 2 ^ Z.max 0 (- k) then k else k - 1 in
    let e := Z.max (l - 52) (- 1074) in
    let num := a * 2 ^ Z.max 0 (- e) in
    let den := d * 2 ^ Z.max 0 e in
    let m := num / den in
    let r := num mod den in
    let m' := if (den <? 2 * r) || ((2 * r =? den) && Z.odd m) then m + 1 else m in
    Qred (Qmake (Z.sgn n * m' * 2 ^ Z.max 0 e) (Z.to_pos (2 ^ Z.max 0 (- e)))).

(** [Math.pow(10, d)].  ECMAScript leaves [Math.pow] "implementation-
    approximated"; the engine's routine returns the exact integer for integer
    arguments whenever that integer is a double, so the powers up to
    [10^22] are exact.  Outside this range the result is a positive double
    that the engine chooses. *)
Class Engine : Type := mkEngine {
  Math_pow10_inexact : Z -> Q;
  Math_pow10_positive : forall d, (0 < Math_pow10_inexact d)%Q
}.

Definition Math_pow10 {engine : Engine} (d : Z) : Q :=
  if (0 <=? d) && (d <=? 22) then inject_Z (10 ^ d) else Math_pow10_inexact d.

(** The decimal notation of an integer in a message. *)
Definition decimal (n : Z) : string := NilZero.string_of_int (Z.to_int n).

(** ** Typed arrays, Buffer and DataView *)

(** A [Uint8Array] (or Node [Buffer]) is a window on an [ArrayBuffer]: the
    store is [before ++ contents ++ after] and the array shows [contents].
    A Node [Buffer] cut from the allocation pool has non empty [before] and
    [after]; a freshly allocated array has both empty. *)
Record Uint8Array : Type := mkView {
  before : Bytes;
  contents : Bytes;
  after : Bytes
}.

(** [data.buffer], [data.byteOffset] and [data.length]. *)
Definition buffer (d : Uint8Array) : Bytes := before d ++ contents d ++ after d.
Definition byteOffset (d : Uint8Array) : Z := Z.of_nat (List.length (before d)).
Definition data_length (d : Uint8Array) : Z := Z.of_nat (List.length (contents d)).

Definition Uint8Array_of (bs : Bytes) : Uint8Array := mkView [] bs [].

(** [data.slice(s, e)] with [0 <= s], [0 <= e]: a window on the same store
    ([Buffer.prototype.slice]); a plain [Uint8Array] copies instead, with the
    same contents. *)
Definition slice (d : Uint8Array) (s e : Z) : Uint8Array :=
  let c := contents d in
  mkView (before d ++ firstn (Z.to_nat s) c)
         (slice_list c s e)
         (skipn (Z.to_nat (Z.max s e)) c ++ after d).

(** [data[i]]: [undefined] outside the window. *)
Definition index (d : Uint8Array) (i : Z) : option Z :=
  if 0 <=? i then nth_error (contents d) (Z.to_nat i) else None.

(** [new DataView(store, off, len)] checks the window against the whole
    [ArrayBuffer]: a start outside the store and a length that runs past its
    end are two [RangeError]s with the messages of the engine; the getters
    then read little-endian at relative offset 0. *)
Definition DataView_bytes (store : Bytes) (off len : Z) : Result Bytes :=
  if (off <? 0) || (Z.of_nat (List.length store) <? off)
  then Throw (RangeError ("Start offset " ++ decimal off
                          ++ " is outside the bounds of the buffer"))
  else if Z.of_nat (List.length store) <? off + len
  then Throw (RangeError ("Invalid DataView length " ++ decimal len))
  else Ok (slice_list store off (off + len)).

Definition getUint32 (store : Bytes) (off : Z) : Result Z :=
  (bs <- DataView_bytes store off 4 ;; Ok (le_value bs))%result.

Definition getBigInt64 (store : Bytes) (off : Z) : Result Z :=
  (bs <- DataView_bytes store off 8 ;; Ok (to_signed 64 (le_value bs)))%result.

(** [Buffer.alloc(4)] followed by [writeUInt32LE(n, 0)]: a value outside
    [0, 2^32 - 1] is refused with a [RangeError]. *)
Definition writeUInt32LE (n : Z) : Result Bytes :=
  if (0 <=? n) && (n <? 2 ^ 32) then Ok (le_bytes 4 n)
  else Throw (RangeError "ERR_OUT_OF_RANGE").

(** ** Base58 and public keys ([bs58], [@solana/web3.js]) *)

Module Base58.

Definition alphabet : JSString :=
  js "123456789ABCDEFGHJKLMNPQRSTUVWXYZabcdefghijkmnopqrstuvwxyz".

Fixpoint be_value_from (acc : Z) (base : Z) (ds : list Z) : Z :=
  match ds with
  | [] => acc
  | d :: rest => be_value_from (acc * base + d) base rest
  end.

(** Big-endian digits of [n] in [base], most significant first, none for 0. *)
Fixpoint digits (fuel : nat) (base n : Z) (acc : list Z) : list Z :=
  match fuel with
  | O => acc
  | S fuel' =>
    if n <=? 0 then acc else digits fuel' base (n / base) (n mod base :: acc)
  end.

Fixpoint leading (z : Z) (xs : list Z) : nat :=
  match xs with
  | x :: rest => if x =? z then S (leading z rest) else O
  | [] => O
  end.

Definition encode (bs : Bytes) : JSString :=
  let zeros := leading 0 bs in
  let n := be_value_from 0 256 bs in
  repeat 49 zeros ++
  map (fun d => nth (Z.to_nat d) alphabet 0)
      (digits (2 * List.length bs) 58 n []).

Fixpoint find_index (c : Z) (xs : list Z) (i : Z) : option Z :=
  match xs with
  | [] => None
  | x :: rest => if x =? c then Some i else find_index c rest (i + 1)
  end.

Fixpoint char_values (s : JSString) : option (list Z) :=
  match s with
  | [] => Some []
  | c :: rest =>
    match find_index c alphabet 0, char_values rest with
    | Some d, Some ds => Some (d :: ds)
    | _, _ => None
    end
  end.

(** [bs58.decode]: throws on a character outside the alphabet. *)
Definition decode (s : JSString) : Result Bytes :=
  match char_values s with
  | None => Throw (GenericError "Non-base58 character")
  | Some ds =>
    let zeros := leading 0 ds in
    Ok (repeat 0 zeros ++
        digits (List.length ds) 256 (be_value_from 0 58 ds) [])
  end.

End Base58.

(** A [PublicKey] wraps the 256-bit number [_bn]. *)
Record PublicKey : Type := mkPublicKey { bn : Z }.

Definition be_bytes (k : nat) (n : Z) : Bytes := rev (le_bytes k n).

(** [new PublicKey(bytes)]: the big-endian number, refused above 32 bytes. *)
Definition PublicKey_of_bytes (bs : Bytes) : Result PublicKey :=
  let n := Base58.be_value_from 0 256 bs in
  if n <? 2 ^ 256 then Ok (mkPublicKey n)
  else Throw (GenericError "Invalid public key input").

(** [new PublicKey(str)]: base58, exactly 32 bytes. *)
Definition PublicKey_of_string (s : JSString) : Result PublicKey :=
  (bs <- Base58.decode s ;;
   if Z.of_nat (List.length bs) =? 32
   then Ok (mkPublicKey (Base58.be_value_from 0 256 bs))
   else Throw (GenericError "Invalid public key input"))%result.

Definition toBuffer (k : PublicKey) : Bytes := be_bytes 32 (bn k).
Definition toBase58 (k : PublicKey) : JSString := Base58.encode (toBuffer k).
Definition PublicKey_equals (a b : PublicKey) : bool := bn a =? bn b.

(** [SystemProgram.programId], the all-zero key [1111...1]. *)
Definition SystemProgram_programId : PublicKey := mkPublicKey 0.

Record AccountMeta : Type := mkMeta {
  pubkey : PublicKey;
  isSigner : bool;
  isWritable : bool
}.

Record TransactionInstruction : Type := mkInstruction {
  keys : list AccountMeta;
  programId : PublicKey;
  data : Bytes
}.

Record Transaction : Type := mkTransaction {
  feePayer : option PublicKey;
  instructions : list TransactionInstruction;
  recentBlockhash : option JSString
}.

Record AccountInfo : Type := mkAccount {
  account_data : Uint8Array;
  account_owner : PublicKey;
  lamports : Z;
  executable : bool
}.

(** ** The outside world: RPC node and clock *)

(** What the RPC node answers.  Every operation below calls each method at
    most once, so one answer per method (and per address) describes a run. *)
Record Connection : Type := mkConnection {
  getSlot : Result Z;
  getAccountInfo : PublicKey -> Result (option AccountInfo);
  getLatestBlockhash : Result JSString
}.

(** [clock n] is what the [n]-th call of [Date.now()] returns (milliseconds);
    [reads] counts the calls made so far and [fetched] logs, oldest first, the
    addresses handed to [getAccountInfo]. *)
Record World : Type := mkWorld {
  connection : Connection;
  clock : nat -> Z;
  reads : nat;
  fetched : list PublicKey
}.

(** State that survives a [throw], plus exceptions. *)
Definition M (A : Type) : Type := World -> Result A * World.

Definition ret {A} (a : A) : M A := fun w => (Ok a, w).

Definition bind {A B} (m : M A) (k : A -> M B) : M B :=
  fun w => match m w with
           | (Ok a, w') => k a w'
           | (Throw e, w') => (Throw e, w')
           end.

Definition throw {A} (e : Error) : M A := fun w => (Throw e, w).

Definition lift {A} (r : Result A) : M A := fun w => (r, w).

(** [try { m } catch (e) { h e }] *)
Definition try_catch {A} (m : M A) (h : Error -> M A) : M A :=
  fun w => match m w with
           | (Ok a, w') => (Ok a, w')
           | (Throw e, w') => h e w'
           end.

Declare Scope monad_scope.
Delimit Scope monad_scope with monad.
Notation "x <- m ;; k" := (bind m (fun x => k))
  (at level 61, m at next level, right associativity) : monad_scope.

Definition Date_now : M Z :=
  fun w => (Ok (clock w (reads w)),
            mkWorld (connection w) (clock w) (S (reads w)) (fetched w)).

Definition rpc_getSlot : M Z :=
  fun w => (getSlot (connection w), w).

Definition rpc_getAccountInfo (address : PublicKey) : M (option AccountInfo) :=
  fun w => (getAccountInfo (connection w) address,
            mkWorld (connection w) (clock w) (reads w) (fetched w ++ [address])).

Definition rpc_getLatestBlockhash : M JSString :=
  fun w => (getLatestBlockhash (connection w), w).

(** ** String helpers used by the service *)

Fixpoint list_eqb (a b : list Z) : bool :=
  match a, b with
  | [], [] => true
  | x :: a', y :: b' => (x =? y) && list_eqb a' b'
  | _, _ => false
  end.

Definition ends_with (suffix s : JSString) : bool :=
  (List.length suffix <=? List.length s)%nat &&
  list_eqb (skipn (List.length s - List.length suffix) s) suffix.

(** [name.replace(/\.carv$/, '')]: the pattern is anchored at the end of the
    string, so at most the last five code units go. *)
Definition strip_carv (name : JSString) : JSString :=
  if ends_with (js ".carv") name
  then firstn (List.length name - 5) name
  else name.

(** A value used as a condition: [undefined] and the empty string are falsy. *)
Definition truthy (s : option JSString) : bool :=
  match s with
  | Some (_ :: _) => true
  | _ => false
  end.

(** ** Records returned to callers *)

(** The object literal built by [getDomainInfo] and [parseDomainAccount];
    [d_owner] is [None] where the source stores [null], [d_parseError] is
    present only on the degraded record. *)
Record DomainInfo : Type := mkDomainInfo {
  d_owner : option PublicKey;
  d_name : JSString;
  d_registered : Q;
  d_expires : Q;
  d_active : bool;
  d_data : JSString;
  d_exists : bool;
  d_parseError : option string
}.

Definition error_message (e : Error) : string :=
  match e with
  | RangeError m | TypeError m | GenericError m => m
  end.

(** ** [idl.ts] and [domain-service.ts] *)

(** What the service takes from outside the repository:
    [PublicKey.findProgramAddressSync] of [@solana/web3.js] (SHA-256 and a
    curve test), a function of the seed list and the program identifier which
    may throw, and the configuration read at load time ([config.ts]). *)
Class Environment : Type := mkEnvironment {
  findProgramAddressSync : list Bytes -> PublicKey -> Result (PublicKey * Z);
  CARV_DOMAIN_PROGRAM_ID : PublicKey;
  treasuryWallet : JSString
}.

Section Service.

Context {env : Environment}.

Local Open Scope monad_scope.

(** [idl.ts], [getDomainPDA]. *)
Definition getDomainPDA (name : JSString) : Result (PublicKey * Z) :=
  let nameBytes := utf8 name in
  findProgramAddressSync [utf8 (js "domain"); nameBytes] CARV_DOMAIN_PROGRAM_ID.

Definition checkDomainAvailability (name : JSString) : M bool :=
  try_catch
    (let normalizedName := strip_carv name in
     pda <- lift (getDomainPDA normalizedName) ;;
     let domainPDA := fst pda in
     _ <- try_catch rpc_getSlot
            (fun connError => throw (GenericError "Failed to connect to RPC")) ;;
     account <- rpc_getAccountInfo domainPDA ;;
     match account with
     | Some a =>
       let isOurProgram := PublicKey_equals (account_owner a) CARV_DOMAIN_PROGRAM_ID in
       if negb isOurProgram then ret false else ret false
     | None => ret true
     end)
    (fun error => ret false).

(** The field walk written twice in the source, in [getDomainInfo]
    (lines 439-472) and in [parseDomainAccount] (lines 495-528). *)
Definition decodeDomainFields (d : Uint8Array) : Result DomainInfo :=
  (let offset := 8 in
   let ownerBytes := slice d offset (offset + 32) in
   owner <- PublicKey_of_bytes (contents ownerBytes) ;;
   let offset := offset + 32 in
   nameLen <- getUint32 (buffer d) (byteOffset d + offset) ;;
   let offset := offset + 4 in
   let nameBytes := slice d offset (offset + nameLen) in
   let domainName := TextDecoder_decode (contents nameBytes) in
   let offset := offset + nameLen in
   registered <- getBigInt64 (buffer d) (byteOffset d + offset) ;;
   let offset := offset + 8 in
   expires <- getBigInt64 (buffer d) (byteOffset d + offset) ;;
   let offset := offset + 8 in
   let active := match index d offset with
                 | Some b => negb (b =? 0)
                 | None => true
                 end in
   let offset := offset + 1 in
   dataLen <- getUint32 (buffer d) (byteOffset d + offset) ;;
   let offset := offset + 4 in
   let dataBytes := slice d offset (offset + dataLen) in
   let metadata := TextDecoder_decode (contents dataBytes) in
   Ok (mkDomainInfo (Some owner) domainName
         (inject_Z (Number_of_BigInt registered))
         (inject_Z (Number_of_BigInt expires))
         active metadata true None))%result.

(** The record fabricated when the field walk throws. *)
Definition degradedInfo (name : JSString) (parseError : Error) : M (option DomainInfo) :=
  t1 <- Date_now ;;
  t2 <- Date_now ;;
  ret (Some (mkDomainInfo None name
               (round_to_double (inject_Z t1 / inject_Z 1000))
               (round_to_double
                  (round_to_double (inject_Z t2 / inject_Z 1000) + inject_Z 31536000))
               true [] true (Some (error_message parseError)))).

Definition getDomainInfo (name : JSString) : M (option DomainInfo) :=
  try_catch
    (pda <- lift (getDomainPDA name) ;;
     let domainPDA := fst pda in
     account <- rpc_getAccountInfo domainPDA ;;
     match account with
     | None => ret None
     | Some a =>
       let data := account_data a in
       try_catch
         (info <- lift (decodeDomainFields data) ;; ret (Some info))
         (fun parseError => degradedInfo name parseError)
     end)
    (fun error => ret None).

Definition parseDomainAccount (address : PublicKey) (d : Uint8Array)
  : option DomainInfo :=
  match decodeDomainFields d with
  | Ok info => Some info
  | Throw _ => None
  end.

Definition resolveDomain (domain : JSString) : M (option PublicKey) :=
  try_catch
    (let normalizedName := strip_carv domain in
     domainInfo <- getDomainInfo normalizedName ;;
     match domainInfo with
     | None => ret None
     | Some info =>
       if negb (d_exists info) then ret None
       else if negb (d_active info) then ret None
       else
         ms <- Date_now ;;
         let now := (inject_Z ms / inject_Z 1000)%Q in
         if Qltb (d_expires info) now then ret None
         else
           (* console.log(..., domainInfo.owner.toString()) *)
           match d_owner info with
           | None => throw (TypeError "Cannot read properties of null")
           | Some owner => ret (Some owner)
           end
     end)
    (fun error => ret None).

(** [treasuryWalletParam ? new PublicKey(treasuryWalletParam)
                         : new PublicKey(treasuryWallet)] *)
Definition treasuryKey (treasuryWalletParam : option JSString) : Result PublicKey :=
  if truthy treasuryWalletParam
  then PublicKey_of_string (match treasuryWalletParam with Some s => s | None => [] end)
  else PublicKey_of_string treasuryWallet.

Definition createRegisterTransaction (name : JSString) (owner : PublicKey)
           (treasuryWalletParam : option JSString) : M Transaction :=
  pda <- lift (getDomainPDA name) ;;
  let domainPDA := fst pda in
  treasury <- lift (treasuryKey treasuryWalletParam) ;;
  let discriminator := [211; 124; 67; 15; 211; 194; 178; 240] in
  let nameBytes := utf8 name in
  nameLen <- lift (writeUInt32LE (Z.of_nat (List.length nameBytes))) ;;
  let data := discriminator ++ nameLen ++ nameBytes in
  let registerInstruction :=
    mkInstruction
      [ mkMeta domainPDA false true;
        mkMeta owner true true;
        mkMeta treasury false true;
        mkMeta SystemProgram_programId false false ]
      CARV_DOMAIN_PROGRAM_ID data in
  blockhash <- rpc_getLatestBlockhash ;;
  ret (mkTransaction (Some owner) [registerInstruction] (Some blockhash)).

(** "Legacy method for backward compatibility" *)
Definition createRegisterInstruction (name : JSString) (owner : PublicKey)
           (treasuryWalletParam : option JSString) : Result TransactionInstruction :=
  (pda <- getDomainPDA name ;;
   let domainPDA := fst pda in
   treasury <- treasuryKey treasuryWalletParam ;;
   let nameBytes := utf8 name in
   nameLen <- writeUInt32LE (Z.of_nat (List.length nameBytes)) ;;
   let discriminator := [211; 124; 67; 15; 211; 194; 178; 240] in
   let data := discriminator ++ nameLen ++ nameBytes in
   Ok (mkInstruction
         [ mkMeta domainPDA false true;
           mkMeta owner true true;
           mkMeta treasury false true;
           mkMeta SystemProgram_programId false false ]
         CARV_DOMAIN_PROGRAM_ID data))%result.

Definition createRenewTransaction (name : JSString) (owner : PublicKey)
           (treasuryWalletParam : option JSString) : M Transaction :=
  pda <- lift (getDomainPDA name) ;;
  let domainPDA := fst pda in
  treasury <- lift (treasuryKey treasuryWalletParam) ;;
  let discriminator := [43; 239; 15; 46; 27; 7; 163; 73] in
  let renewInstruction :=
    mkInstruction
      [ mkMeta domainPDA false true;
        mkMeta owner true true;
        mkMeta treasury false true;
        mkMeta SystemProgram_programId false false ]
      CARV_DOMAIN_PROGRAM_ID discriminator in
  blockhash <- rpc_getLatestBlockhash ;;
  ret (mkTransaction (Some owner) [renewInstruction] (Some blockhash)).

Definition createRenewInstruction (name : JSString) (owner : PublicKey)
           (treasuryWalletParam : option JSString) : Result TransactionInstruction :=
  (pda <- getDomainPDA name ;;
   let domainPDA := fst pda in
   treasury <- treasuryKey treasuryWalletParam ;;
   let discriminator := [43; 239; 15; 46; 27; 7; 163; 73] in
   Ok (mkInstruction
         [ mkMeta domainPDA false true;
           mkMeta owner true true;
           mkMeta treasury false true;
           mkMeta SystemProgram_programId false false ]
         CARV_DOMAIN_PROGRAM_ID discriminator))%result.

Definition createTransferTransaction (name : JSString) (owner newOwner : PublicKey)
  : M Transaction :=
  pda <- lift (getDomainPDA name) ;;
  let domainPDA := fst pda in
  let discriminator := [163; 52; 200; 231; 140; 3; 69; 186] in
  let data := discriminator ++ toBuffer newOwner in
  let transferInstruction :=
    mkInstruction
      [ mkMeta domainPDA false true;
        mkMeta owner true false ]
      CARV_DOMAIN_PROGRAM_ID data in
  blockhash <- rpc_getLatestBlockhash ;;
  ret (mkTransaction (Some owner) [transferInstruction] (Some blockhash)).

Definition createTransferInstruction (name : JSString) (owner newOwner : PublicKey)
  : Result TransactionInstruction :=
  (pda <- getDomainPDA name ;;
   let domainPDA := fst pda in
   let discriminator := [163; 52; 200; 231; 140; 3; 69; 186] in
   let data := discriminator ++ toBuffer newOwner in
   Ok (mkInstruction
         [ mkMeta domainPDA false true;
           mkMeta owner true false ]
         CARV_DOMAIN_PROGRAM_ID data))%result.

Definition createSetDataTransaction (name : JSString) (owner : PublicKey)
           (text : JSString) : M Transaction :=
  pda <- lift (getDomainPDA name) ;;
  let domainPDA := fst pda in
  let discriminator := [223; 114; 91; 136; 197; 78; 153; 153] in
  let dataBytes := utf8 text in
  dataLen <- lift (writeUInt32LE (Z.of_nat (List.length dataBytes))) ;;
  let instructionData := discriminator ++ dataLen ++ dataBytes in
  let setDataInstruction :=
    mkInstruction
      [ mkMeta domainPDA false true;
        mkMeta owner true false ]
      CARV_DOMAIN_PROGRAM_ID instructionData in
  blockhash <- rpc_getLatestBlockhash ;;
  ret (mkTransaction (Some owner) [setDataInstruction] (Some blockhash)).

Definition createSetDataInstruction (name : JSString) (owner : PublicKey)
           (text : JSString) : Result TransactionInstruction :=
  (pda <- getDomainPDA name ;;
   let domainPDA := fst pda in
   let discriminator := [223; 114; 91; 136; 197; 78; 153; 153] in
   let dataBytes := utf8 text in
   dataLen <- writeUInt32LE (Z.of_nat (List.length dataBytes)) ;;
   let instructionData := discriminator ++ dataLen ++ dataBytes in
   Ok (mkInstruction
         [ mkMeta domainPDA false true;
           mkMeta owner true false ]
         CARV_DOMAIN_PROGRAM_ID instructionData))%result.

End Service.

(** ** [NFTService]: token account decoding *)

Definition rcatch {A} (r : Result A) (h : Error -> Result A) : Result A :=
  match r with
  | Ok a => Ok a
  | Throw e => h e
  end.

(** [v.toString()] for a BigInt. *)
Definition BigInt_toString (v : Z) : JSString :=
  js (NilZero.string_of_int (Z.to_int v)).

(** The character class [[1-9A-HJ-NP-Za-km-z]]. *)
Definition base58_class (c : Z) : bool :=
  ((49 <=? c) && (c <=? 57)) || ((65 <=? c) && (c <=? 72)) ||
  ((74 <=? c) && (c <=? 78)) || ((80 <=? c) && (c <=? 90)) ||
  ((97 <=? c) && (c <=? 107)) || ((109 <=? c) && (c <=? 122)).

Definition isValidPublicKey (address : JSString) : bool :=
  match address with
  | [] => false
  | _ =>
    if negb (Z.of_nat (List.length address) =? 44) then false
    else
      let onlyValidChars := forallb base58_class address in
      let uniqueChars := Z.of_nat (List.length (nodup Z.eq_dec address)) in
      if negb onlyValidChars || (uniqueChars <=? 1) then false
      else
        match PublicKey_of_string address with
        | Ok _ => true
        | Throw _ => false
        end
  end.

Record TokenAccountInfo : Type := mkTokenAccountInfo {
  mint : JSString;
  owner : JSString;
  amount : JSString;
  decimals : Z;
  uiAmount : Q
}.

(** The two identical blocks that read [mint] and [owner]: [Ok None] stands
    for the block's [return null]. *)
Definition readKeyField (d : Uint8Array) (s e : Z) : Result (option JSString) :=
  rcatch
    (let fieldBytes := slice d s e in
     let allZeros := forallb (fun byte => byte =? 0) (contents fieldBytes) in
     if allZeros then Ok None
     else
       (key <- PublicKey_of_bytes (contents fieldBytes) ;;
        let text := toBase58 key in
        if negb (isValidPublicKey text) then Ok None else Ok (Some text))%result)
    (fun error => Ok None).

Definition parseTokenAccount {engine : Engine} (d : Uint8Array)
  : Result (option TokenAccountInfo) :=
  rcatch
    (if data_length d <? 80 then Ok None
     else
       (m <- readKeyField d 0 32 ;;
        match m with
        | None => Ok None
        | Some mint =>
          o <- readKeyField d 32 64 ;;
          match o with
          | None => Ok None
          | Some owner =>
            a <- rcatch
                   (let amountBytes := slice d 64 72 in
                    v <- getBigInt64 (buffer amountBytes) (byteOffset amountBytes) ;;
                    Ok (Some v))
                   (fun error => Ok None) ;;
            match a with
            | None => Ok None
            | Some amount =>
              (* data.length >= 80 here, so data[72] is defined *)
              let decimals := match index d 72 with Some b => b | None => 0 end in
              Ok (Some (mkTokenAccountInfo mint owner (BigInt_toString amount) decimals
                          (round_to_double
                             (inject_Z (Number_of_BigInt amount) / Math_pow10 decimals))))
            end
          end
        end)%result)
    (fun error => Ok None).

(** ** The account layout and sample data *)

(** The bytes of a domain account as the on-chain program lays them out
    ("following the Rust struct layout"): discriminant, owner, length-prefixed
    name, two signed 64-bit times, the active byte, length-prefixed metadata. *)
Definition domainAccountBytes (discriminant ownerBytes nameBytes : Bytes)
           (registeredAt expiresAt activeByte : Z) (metadataBytes : Bytes) : Bytes :=
  discriminant ++ ownerBytes ++
  le_bytes 4 (Z.of_nat (List.length nameBytes)) ++ nameBytes ++
  le_bytes 8 (registeredAt mod 2 ^ 64) ++
  le_bytes 8 (expiresAt mod 2 ^ 64) ++
  [activeByte] ++
  le_bytes 4 (Z.of_nat (List.length metadataBytes)) ++ metadataBytes.

(** A JavaScript string without unpaired surrogates. *)
Fixpoint well_formed (s : JSString) : bool :=
  match s with
  | [] => true
  | c :: rest =>
    if is_high_surrogate c then
      match rest with
      | d :: rest' => is_low_surrogate d && well_formed rest'
      | [] => false
      end
    else is_code_unit c && negb (is_low_surrogate c) && well_formed rest
  end.

(** The code points of a string, a surrogate pair counting for one. *)
Fixpoint code_points (s : JSString) : list Z :=
  match s with
  | [] => []
  | c :: rest =>
    if is_high_surrogate c then
      match rest with
      | d :: rest' =>
        if is_low_surrogate d
        then (65536 + (c - 55296) * 1024 + (d - 56320)) :: code_points rest'
        else c :: code_points rest
      | [] => [c]
      end
    else c :: code_points rest
  end.

(** A Unicode scalar value: a code point that is not a surrogate. *)
Definition is_scalar (cp : Z) : bool :=
  ((0 <=? cp) && (cp <? 55296)) || ((57344 <=? cp) && (cp <? 1114112)).

(** Whether the string begins with U+FEFF, the byte order mark. *)
Definition starts_with_bom (s : JSString) : bool :=
  match s with
  | c :: _ => c =? 65279
  | [] => false
  end.

Module Sample.

(** A stand-in for the address derivation, for the examples only: it refuses
    a seed longer than 32 bytes, as the library does, and otherwise packs
    program identifier and seeds into a number. *)
Definition findProgramAddressSync (seeds : list Bytes) (program : PublicKey)
  : Result (PublicKey * Z) :=
  if existsb (fun s => 32 <? Z.of_nat (List.length s)) seeds
  then Throw (TypeError "Max seed length exceeded")
  else
    Ok (mkPublicKey
          (Base58.be_value_from (bn program) 257
             (concat (map (fun s => 256 :: s) seeds)) mod 2 ^ 256),
        255).

Definition program : PublicKey := mkPublicKey 7.

Definition env : Environment :=
  mkEnvironment findProgramAddressSync program
                (js "11111111111111111111111111111112").

(** An engine for the examples: beyond [10^22] it returns the power itself. *)
Definition engine : Engine :=
  mkEngine (fun d => inject_Z (Zpos (10 ^ Z.to_pos d))) (fun d => eq_refl).

Definition alice : PublicKey := mkPublicKey 1000.
Definition bob : PublicKey := mkPublicKey 2000.

Definition pda (name : JSString) : PublicKey :=
  match @getDomainPDA env name with
  | Ok p => fst p
  | Throw _ => mkPublicKey 0
  end.

(** An account for the name "test", owned by [alice], registered at
    1700000000 and expiring at 1731536000. *)
Definition testAccountBytes (activeByte : Z) : Bytes :=
  domainAccountBytes (repeat 9 8) (toBuffer alice) (utf8 (js "test"))
                     1700000000 1731536000 activeByte (utf8 (js "hello")).

Definition account_of (bs : Bytes) : AccountInfo :=
  mkAccount (Uint8Array_of bs) program 1000000 false.

(** A node that knows one account, stored at the address of "test". *)
Definition node (stored : option AccountInfo) : Connection :=
  mkConnection (Ok 1)
               (fun address =>
                  if PublicKey_equals address (pda (js "test"))
                  then Ok stored else Ok None)
               (Ok (js "blockhash")).

(** A node whose every call fails. *)
Definition deadNode : Connection :=
  mkConnection (Throw (GenericError "fetch failed"))
               (fun _ => Throw (GenericError "fetch failed"))
               (Throw (GenericError "fetch failed")).

(** A world whose clock stands still at [ms] milliseconds. *)
Definition world (c : Connection) (ms : Z) : World :=
  mkWorld c (fun _ => ms) 0 [].

(** A key whose base58 text has 44 characters, and a token account holding
    250 units with two decimals of the mint [carol] for the owner [carol]. *)
Definition carol : PublicKey := mkPublicKey (2 ^ 255 + 12345).

Definition tokenAccountBytes : Bytes :=
  toBuffer carol ++ toBuffer carol ++ le_bytes 8 250 ++ [2] ++ repeat 0 7.

End Sample.

(** ** Further operations: listing the domains of an owner *)

(** [idl.ts]: the size reserved for a domain account, "from the Rust code". *)
Definition DOMAIN_ACCOUNT_SIZE : Z := 8 + 32 + 36 + 8 + 8 + 1 + 132.

(** One [{ memcmp: { offset, bytes } }] filter of [getProgramAccounts]. *)
Record MemcmpFilter : Type := mkMemcmp {
  memcmp_offset : Z;
  memcmp_bytes : JSString
}.

(** One element of the answer of [getProgramAccounts]:
    [{ pubkey, account }]. *)
Record KeyedAccount : Type := mkKeyed {
  keyed_pubkey : PublicKey;
  keyed_account : AccountInfo
}.

(** What [connection.getProgramAccounts(programId, { filters })] answers. *)
Definition GetProgramAccounts : Type :=
  PublicKey -> list MemcmpFilter -> Result (list KeyedAccount).

(** The object [{ address: account.pubkey.toString(), ...domainInfo }]. *)
Record OwnedDomain : Type := mkOwned {
  address : JSString;
  domain : DomainInfo
}.

Section Listing.

Context {env : Environment}.

(** The body of the [for] loop of [getDomainsByOwner], with its own
    [try]/[catch]: [domains] is the array being filled. *)
Definition listOne (owner : PublicKey) (domains : list OwnedDomain)
           (account : KeyedAccount) : list OwnedDomain :=
  match parseDomainAccount (keyed_pubkey account)
                           (account_data (keyed_account account)) with
  | Some domainInfo =>
    match d_owner domainInfo with
    | Some o =>
      if PublicKey_equals o owner
      then domains ++ [mkOwned (toBase58 (keyed_pubkey account)) domainInfo]
      else domains
    | None => domains (* domainInfo.owner.equals throws, caught by the loop *)
    end
  | None => domains
  end.

(** What one account contributes to the list. *)
Definition listed (owner : PublicKey) (account : KeyedAccount) : list OwnedDomain :=
  listOne owner [] account.

Definition getDomainsByOwner (getProgramAccounts : GetProgramAccounts)
           (owner : PublicKey) : list OwnedDomain :=
  match getProgramAccounts CARV_DOMAIN_PROGRAM_ID [mkMemcmp 8 (toBase58 owner)] with
  | Ok accounts => fold_left (listOne owner) accounts []
  | Throw _ => []
  end.

End Listing.

(** The record a well laid-out account decodes to. *)
Definition decodedAccount (ownerBytes nameBytes : Bytes) (registeredAt expiresAt activeByte : Z)
           (metadataBytes : Bytes) : DomainInfo :=
  mkDomainInfo (Some (mkPublicKey (Base58.be_value_from 0 256 ownerBytes)))
               (TextDecoder_decode nameBytes)
               (inject_Z (Number_of_BigInt registeredAt))
               (inject_Z (Number_of_BigInt expiresAt))
               (negb (activeByte =? 0)) (TextDecoder_decode metadataBytes) true None.

(** ** Further operations of [NFTService] *)

(** [s.slice(-k)]: the last [k] code units, all of [s] when it is shorter. *)
Definition slice_from_end (s : JSString) (k : nat) : JSString :=
  skipn (List.length s - k) s.

(** White space and line terminators that [parseInt] skips. *)
Definition is_white_space (c : Z) : bool :=
  ((9 <=? c) && (c <=? 13)) || (c =? 32) || (c =? 160) || (c =? 5760) ||
  ((8192 <=? c) && (c <=? 8202)) || (c =? 8232) || (c =? 8233) || (c =? 8239) ||
  (c =? 8287) || (c =? 12288) || (c =? 65279).

Definition hex_value (c : Z) : option Z :=
  if (48 <=? c) && (c <=? 57) then Some (c - 48)
  else if (97 <=? c) && (c <=? 102) then Some (c - 87)
  else if (65 <=? c) && (c <=? 70) then Some (c - 55)
  else None.

Fixpoint skip_white_space (s : JSString) : JSString :=
  match s with
  | c :: rest => if is_white_space c then skip_white_space rest else s
  | [] => []
  end.

(** The value of the longest prefix of hexadecimal digits, none when the
    first code unit is no digit. *)
Fixpoint hex_prefix (acc : option Z) (s : JSString) : option Z :=
  match s with
  | c :: rest =>
    match hex_value c with
    | Some v => hex_prefix (Some (match acc with Some a => 16 * a + v | None => v end)) rest
    | None => acc
    end
  | [] => acc
  end.

(** [parseInt(s, 16)], [None] standing for [NaN]: leading white space, a
    sign, a "0x" or "0X" prefix, then as many hexadecimal digits as there
    are.  (Exact for values below 2^53.) *)
Definition parseInt16 (s : JSString) : option Z :=
  let s := skip_white_space s in
  let sign := match s with
              | c :: _ => if c =? 45 then -1 else 1
              | [] => 1
              end in
  let s := match s with
           | c :: rest => if (c =? 45) || (c =? 43) then rest else s
           | [] => s
           end in
  let s := match s with
           | c :: x :: rest =>
             if (c =? 48) && ((x =? 120) || (x =? 88)) then rest else s
           | _ => s
           end in
  match hex_prefix None s with
  | Some v => Some (sign * v)
  | None => None
  end.

(** [generateFallbackName]: [None] is the [undefined] that indexing the
    array of names with [NaN] or a negative number gives. *)
Definition generateFallbackName (mintAddress : JSString) : option JSString :=
  let addressHash := slice_from_end mintAddress 8 in
  let nameOptions :=
      [ js "CARV NFT #" ++ addressHash;
        js "SVM Token " ++ addressHash;
        js "CARV Collectible " ++ addressHash;
        js "Digital Asset " ++ addressHash;
        js "CARV Item " ++ addressHash ] in
  match parseInt16 (slice_from_end mintAddress 2) with
  | Some hashValue =>
    let i := Z.rem hashValue (Z.of_nat (List.length nameOptions)) in
    if 0 <=? i then nth_error nameOptions (Z.to_nat i) else None
  | None => None
  end.

Definition isCommonToken (mintAddress : JSString) : bool :=
  let commonTokens :=
      [ js "So11111111111111111111111111111111111111112";
        js "EPjFWdd5AufqSSqeM2qN1xzybapC8G4wEGGkZwyTDt1v";
        js "Es9vMFrzaCERmJfrF4H2FYD4KCoNkY11McCe8BenwNYB" ] in
  existsb (list_eqb mintAddress) commonTokens.

(** The second argument of [getTokenAccountsByOwner]: [{ mint }],
    [{ programId }] or both. *)
Record TokenAccountsFilter : Type := mkTokenFilter {
  filter_mint : option PublicKey;
  filter_programId : option PublicKey
}.

(** What the node of [NFTService] answers, call by call. *)
Record NftNode : Type := mkNftNode {
  nft_getBalance : PublicKey -> Result Z;
  nft_getTokenAccountsByOwner :
    PublicKey -> TokenAccountsFilter -> Result (list KeyedAccount);
  nft_getAccountInfo : PublicKey -> Result (option AccountInfo);
  nft_getLatestBlockhash : Result JSString;
  nft_sendRawTransaction : Bytes -> Result JSString;
  nft_confirmTransaction : JSString -> Result unit
}.

(** What the wallet hands back from [signTransaction]: an object whose
    [serialize()] gives the wire bytes or throws. *)
Record SignedTransaction : Type := mkSigned {
  serialize : Result Bytes
}.

Definition WalletProvider : Type := Transaction -> Result SignedTransaction.

Section NFT.

Context {env : Environment}.

Local Open Scope result_scope.

(** [getWalletBalance]: lamports divided by 1e9, 0 when the call fails.  The
    quotient is kept exact: the service only compares it with 0.01, and the
    double decides that comparison as the exact quotient does. *)
Definition getWalletBalance (node : NftNode) (ownerAddress : PublicKey) : Q :=
  match nft_getBalance node ownerAddress with
  | Ok balance => (inject_Z balance / inject_Z 1000000000)%Q
  | Throw _ => 0%Q
  end.

(** One turn of the [for] loop of [getMetadataAddress]. *)
Definition metadataAddressUnder (programIdStr : JSString) (mint : PublicKey)
  : Result PublicKey :=
  METADATA_PROGRAM_ID <- PublicKey_of_string programIdStr ;;
  pda <- findProgramAddressSync
           [utf8 (js "metadata"); toBuffer METADATA_PROGRAM_ID; toBuffer mint]
           METADATA_PROGRAM_ID ;;
  Ok (fst pda).

Fixpoint firstMetadataAddress (programIds : list JSString) (mint : PublicKey)
         (otherwise : Result PublicKey) : Result PublicKey :=
  match programIds with
  | programIdStr :: rest =>
    rcatch (metadataAddressUnder programIdStr mint)
           (fun error => firstMetadataAddress rest mint otherwise)
  | [] => otherwise
  end.

Definition getMetadataAddress (mint : PublicKey) : Result PublicKey :=
  let metadataProgramIds :=
      [ js "metaqbxxUerdq28cj1RbAWkYQm3ybzjb6a8btJMxPzVi";
        js "mSoLzYCxSopKhhBmkYxDScN2U3iYj4qP2T4N8M3oL4c" ] in
  firstMetadataAddress metadataProgramIds mint
    (rcatch
       (let seeds := [utf8 (js "metadata"); toBuffer mint; [1]] in
        program <- PublicKey_of_string (js "metaqbxxUerdq28cj1RbAWkYQm3ybzjb6a8btJMxPzVi") ;;
        pda <- findProgramAddressSync seeds program ;;
        Ok (fst pda))
       (fun fallbackError =>
          PublicKey_of_bytes (slice_list (utf8 (js "metadata") ++ toBuffer mint) 0 44))).

Definition verifyNFT (node : NftNode) (mintAddress : JSString) : bool :=
  match
    (if negb (isValidPublicKey mintAddress) then Ok false
     else
       mintPublicKey <- PublicKey_of_string mintAddress ;;
       rcatch
         (metadataAddress <- getMetadataAddress mintPublicKey ;;
          metadataAccount <- nft_getAccountInfo node metadataAddress ;;
          Ok (match metadataAccount with Some _ => true | None => false end))
         (fun metadataError =>
            rcatch
              (programId <- PublicKey_of_string
                              (js "TokenkegQfeZyiNwAJbNbGKPFXCWuBvf9Ss623VQ5DA") ;;
               tokenAccounts <- nft_getTokenAccountsByOwner node mintPublicKey
                                  (mkTokenFilter (Some mintPublicKey) (Some programId)) ;;
               Ok (0 <? Z.of_nat (List.length tokenAccounts)))
              (fun tokenError => Ok false)))
  with
  | Ok answer => answer
  | Throw _ => false
  end.

Definition getAssociatedTokenAccountAddress (owner mint : PublicKey) : Result PublicKey :=
  TOKEN_PROGRAM_ID <- PublicKey_of_string (js "TokenkegQfeZyiNwAJbNbGKPFXCWuBvf9Ss623VQ5DA") ;;
  ASSOCIATED_TOKEN_PROGRAM_ID <-
    PublicKey_of_string (js "ATokenGPvbdGVxr1b2hvZbsiqW5xWH25efTNsLJA8knL") ;;
  pda <- findProgramAddressSync
           [toBuffer owner; toBuffer TOKEN_PROGRAM_ID; toBuffer mint]
           ASSOCIATED_TOKEN_PROGRAM_ID ;;
  Ok (fst pda).

(** [transferNFT].  Its [catch] logs and throws the error again, so the
    errors of the steps come out as they are; the text of the two balance
    messages, which embeds formatted numbers, is cut short. *)
Definition transferNFT (node : NftNode) (walletProvider : WalletProvider)
           (mintAddress : JSString) (fromOwner toOwner : PublicKey) : Result JSString :=
  let balance := getWalletBalance node fromOwner in
  if Qltb balance (1 # 100) then Throw (GenericError "Insufficient balance")
  else
    mint <- PublicKey_of_string mintAddress ;;
    let recipient := toOwner in
    TOKEN_PROGRAM_ID <- PublicKey_of_string (js "TokenkegQfeZyiNwAJbNbGKPFXCWuBvf9Ss623VQ5DA") ;;
    ASSOCIATED_TOKEN_PROGRAM_ID <-
      PublicKey_of_string (js "ATokenGPvbdGVxr1b2hvZbsiqW5xWH25efTNsLJA8knL") ;;
    let findATA (walletAddr tokenMint : PublicKey) : Result PublicKey :=
        pda <- findProgramAddressSync
                 [toBuffer walletAddr; toBuffer TOKEN_PROGRAM_ID; toBuffer tokenMint]
                 ASSOCIATED_TOKEN_PROGRAM_ID ;;
        Ok (fst pda) in
    senderATA <- findATA fromOwner mint ;;
    recipientATA <- findATA recipient mint ;;
    senderTokenAccount <- nft_getTokenAccountsByOwner node fromOwner
                            (mkTokenFilter (Some mint) None) ;;
    match senderTokenAccount with
    | [] => Throw (GenericError "You don't own any tokens from mint")
    | tokenAccountInfo :: _ =>
      let accountData := account_data (keyed_account tokenAccountInfo) in
      amount <- getBigInt64 (buffer accountData) (byteOffset accountData + 64) ;;
      let decimals := index accountData 72 in
      (* Number(amount) / Math.pow(10, undefined) is NaN, and NaN < 1 is false;
         with a byte 72 the quotient is below 1 exactly when Number(amount) is
         below the power, for the doubles as for the exact numbers *)
      let tooLittle :=
          match decimals with
          | Some dec => Qltb (inject_Z (Number_of_BigInt amount) / inject_Z (10 ^ dec)) 1
          | None => false
          end in
      if tooLittle then Throw (GenericError "You don't have enough tokens to transfer")
      else
        recipientATAInfo <- nft_getAccountInfo node recipientATA ;;
        let createATAIx :=
            mkInstruction
              [ mkMeta fromOwner true true;
                mkMeta recipientATA false true;
                mkMeta recipient false false;
                mkMeta mint false false;
                mkMeta SystemProgram_programId false false;
                mkMeta TOKEN_PROGRAM_ID false false ]
              ASSOCIATED_TOKEN_PROGRAM_ID [] in
        let transferData := [3] ++ le_bytes 8 1 in
        let transferIx :=
            mkInstruction
              [ mkMeta (keyed_pubkey tokenAccountInfo) false true;
                mkMeta recipientATA false true;
                mkMeta fromOwner true false ]
              TOKEN_PROGRAM_ID transferData in
        let added := match recipientATAInfo with
                     | None => [createATAIx; transferIx]
                     | Some _ => [transferIx]
                     end in
        blockhash <- nft_getLatestBlockhash node ;;
        let transaction := mkTransaction (Some fromOwner) added (Some blockhash) in
        signed <- walletProvider transaction ;;
        raw <- serialize signed ;;
        signature <- nft_sendRawTransaction node raw ;;
        _ <- nft_confirmTransaction node signature ;;
        Ok signature
    end.

End NFT.

(** ** Listing the NFTs of a wallet *)

(** An entry of the list of [getUserNFTs].  The loop itself sets [mint] and
    [verified]; the descriptive fields (name, symbol, uri, image,
    description, collection) are made from [getNFTMetadata], the fallback
    name and [getEnhancedImageUrl], and are kept here as one value of a type
    left open. *)
Record NFTData (Details : Type) : Type := mkNFT {
  nft_mint : JSString;
  nft_details : Details;
  nft_verified : bool
}.
Arguments mkNFT {Details} _ _ _.
Arguments nft_mint {Details} _.
Arguments nft_details {Details} _.
Arguments nft_verified {Details} _.

(** The two variables of the loop: the list [nfts] and the set
    [processedMints]. *)
Record Listing (Details : Type) : Type := mkListing {
  nfts : list (NFTData Details);
  processedMints : list JSString
}.
Arguments mkListing {Details} _ _.
Arguments nfts {Details} _.
Arguments processedMints {Details} _.

Section UserNFTs.

Context {env : Environment} {engine : Engine}.

Variable Details : Type.

(** The descriptive fields for one mint: the metadata lookup with its
    fallback and the fields made from it; [Throw] when making them throws,
    which the [try] around the loop body catches.  A mint is described at
    most once in a run, so a run fixes this function. *)
Variable describe : JSString -> Result Details.

(** The part of the loop body that decides on a mint seen for the first
    time: one unit, no decimals, no common token, verified unless the
    unverified ones are asked for. *)
Definition nftCandidate (node : NftNode) (includeUnverified : bool)
           (tokenInfo : TokenAccountInfo) : option (NFTData Details) :=
  let mintAddress := mint tokenInfo in
  if Qeq_bool (uiAmount tokenInfo) 1 && (decimals tokenInfo =? 0) then
    if isCommonToken mintAddress then None
    else
      let isVerifiedNFT := verifyNFT node mintAddress in
      if negb isVerifiedNFT && negb includeUnverified then None
      else
        match describe mintAddress with
        | Ok details => Some (mkNFT mintAddress details isVerifiedNFT)
        | Throw _ => None
        end
  else None.

(** The loop body, for one token account. *)
Definition processTokenAccount (node : NftNode) (includeUnverified : bool)
           (st : Listing Details) (account : KeyedAccount) : Listing Details :=
  let accountData := account_data (keyed_account account) in
  if data_length accountData <? 80 then st
  else
    match parseTokenAccount accountData with
    | Ok (Some tokenInfo) =>
      let mintAddress := mint tokenInfo in
      if existsb (list_eqb mintAddress) (processedMints st) then st
      else if negb (isValidPublicKey mintAddress) then st
      else
        let seen := mintAddress :: processedMints st in
        match nftCandidate node includeUnverified tokenInfo with
        | Some nft => mkListing (nfts st ++ [nft]) seen
        | None => mkListing (nfts st) seen
        end
    | _ => st
    end.

Definition getUserNFTs (node : NftNode) (ownerAddress : PublicKey)
           (includeUnverified : bool) : list (NFTData Details) :=
  match
    (programId <- PublicKey_of_string
                    (js "TokenkegQfeZyiNwAJbNbGKPFXCWuBvf9Ss623VQ5DA") ;;
     nft_getTokenAccountsByOwner node ownerAddress
                                 (mkTokenFilter None (Some programId)))%result
  with
  | Ok accounts =>
    nfts (fold_left (processTokenAccount node includeUnverified) accounts
                    (mkListing [] []))
  | Throw _ => []
  end.

Definition getAllUserNFTs (node : NftNode) (ownerAddress : PublicKey)
  : list (NFTData Details) :=
  getUserNFTs node ownerAddress true.

End UserNFTs.

Module MoreSamples.

(** The sample account of "test" as it sits on chain: its fields followed by
    zeros up to the reserved size. *)
Definition paddedAccountBytes : Bytes :=
  Sample.testAccountBytes 1
  ++ repeat 0 (Z.to_nat DOMAIN_ACCOUNT_SIZE - List.length (Sample.testAccountBytes 1)).

(** An account of "shop" owned by [Sample.bob]. *)
Definition bobAccountBytes : Bytes :=
  domainAccountBytes (repeat 9 8) (toBuffer Sample.bob) (utf8 (js "shop"))
                     1700000000 1731536000 1 [].

(** A node that ignores the filter: it returns an account of [Sample.alice],
    three junk bytes and an account of [Sample.bob], whoever is asked for. *)
Definition permissiveNode : GetProgramAccounts :=
  fun _ _ =>
    Ok [ mkKeyed (mkPublicKey 11) (Sample.account_of paddedAccountBytes);
         mkKeyed (mkPublicKey 12) (Sample.account_of [1; 2; 3]);
         mkKeyed (mkPublicKey 13) (Sample.account_of bobAccountBytes) ].

(** A node for [NFTService]: every wallet has the given balance and one
    token account, [Sample.tokenAccountBytes] at key 77; no other account
    exists; whatever is sent is accepted. *)
Definition nftNode (balance : Z) : NftNode :=
  mkNftNode (fun _ => Ok balance)
            (fun _ _ =>
               Ok [mkKeyed (mkPublicKey 77) (Sample.account_of Sample.tokenAccountBytes)])
            (fun _ => Ok None)
            (Ok (js "blockhash"))
            (fun raw => Ok (js "signature"))
            (fun _ => Ok tt).

(** A token account of the mint [Sample.carol] without decimals, holding
    [units], and a node that lists the given token accounts and knows no
    other account. *)
Definition nftAccountBytes (units : Z) : Bytes :=
  toBuffer Sample.carol ++ toBuffer Sample.carol ++ le_bytes 8 units ++ repeat 0 8.

(** A token account of mint and owner [Sample.carol] with the given amount
    and decimals. *)
Definition tokenAccountWith (units decimals : Z) : Bytes :=
  toBuffer Sample.carol ++ toBuffer Sample.carol ++ le_bytes 8 units ++
  [decimals] ++ repeat 0 7.

(** A token account of the mint [Sample.carol] that [parseTokenAccount]
    refuses: the text of its owner [Sample.alice] is shorter than 44
    characters. *)
Definition refusedAccountBytes : Bytes :=
  toBuffer Sample.carol ++ toBuffer Sample.alice ++ le_bytes 8 0 ++ repeat 0 8.

Definition collectorNode (accounts : list KeyedAccount) : NftNode :=
  mkNftNode (fun _ => Ok 0)
            (fun _ _ => Ok accounts)
            (fun _ => Ok None)
            (Ok (js "blockhash"))
            (fun raw => Ok (js "signature"))
            (fun _ => Ok tt).

(** A node for a sender whose only token account has the given data. *)
Definition holderNode (balance : Z) (accountData : Uint8Array) : NftNode :=
  mkNftNode (fun _ => Ok balance)
            (fun _ _ =>
               Ok [mkKeyed (mkPublicKey 77)
                           (mkAccount accountData Sample.program 1000000 false)])
            (fun _ => Ok None)
            (Ok (js "blockhash"))
            (fun raw => Ok (js "signature"))
            (fun _ => Ok tt).

(** A wallet that signs everything. *)
Definition wallet : WalletProvider := fun transaction => Ok (mkSigned (Ok [1; 2; 3])).

End MoreSamples.

(** * Properties *)

(** ** Little-endian integers *)

Lemma le_bytes_length (k : nat) (n : Z) : List.length (le_bytes k n) = k.
Proof.
  revert n; induction k as [|k IH]; intros n; simpl; [reflexivity|].
  now rewrite IH.
Qed.

Lemma le_value_le_bytes (k : nat) :
  forall n, 0 <= n < 256 ^ Z.of_nat k -> le_value (le_bytes k n) = n.
Proof.
  induction k as [|k IH]; intros n Hn.
  - simpl in *. lia.
  - cbn [le_bytes le_value].
    rewrite IH.
    + pose proof (Z.div_mod n 256). lia.
    + rewrite Nat2Z.inj_succ, Z.pow_succ_r in Hn by lia.
      split; [apply Z.div_pos; lia | apply Z.div_lt_upper_bound; lia].
Qed.

Lemma le_value_bound (bs : Bytes) :
  forallb is_byte bs = true ->
  0 <= le_value bs < 256 ^ Z.of_nat (List.length bs).
Proof.
  induction bs as [|b bs IH]; intros H.
  - simpl. lia.
  - cbn [forallb] in H. apply andb_true_iff in H as [Hb Hbs].
    specialize (IH Hbs).
    unfold is_byte in Hb. apply andb_true_iff in Hb as [H0 H1].
    apply Z.leb_le in H0. apply Z.ltb_lt in H1.
    cbn [le_value List.length]. rewrite Nat2Z.inj_succ, Z.pow_succ_r by lia.
    lia.
Qed.

Lemma le_bytes_le_value (bs : Bytes) :
  forallb is_byte bs = true ->
  le_bytes (List.length bs) (le_value bs) = bs.
Proof.
  induction bs as [|b bs IH]; intros H; [reflexivity|].
  cbn [forallb] in H. apply andb_true_iff in H as [Hb Hbs].
  unfold is_byte in Hb. apply andb_true_iff in Hb as [H0 H1].
  apply Z.leb_le in H0. apply Z.ltb_lt in H1.
  cbn [le_value List.length le_bytes].
  replace ((b + 256 * le_value bs) mod 256) with b
    by (Z.to_euclidean_division_equations; lia).
  replace ((b + 256 * le_value bs) / 256) with (le_value bs)
    by (Z.to_euclidean_division_equations; lia).
  now rewrite IH.
Qed.

Lemma to_signed_of_mod (v : Z) :
  - 2 ^ 63 <= v < 2 ^ 63 -> to_signed 64 (v mod 2 ^ 64) = v.
Proof.
  intros Hv. unfold to_signed.
  change (64 - 1) with 63.
  assert (E : 2 ^ 64 = 2 * 2 ^ 63) by reflexivity.
  destruct (Z_lt_le_dec v 0) as [Hneg|Hpos].
  - assert (Hm : v mod 2 ^ 64 = v + 2 ^ 64).
    { symmetry. apply Z.mod_unique with (q := -1); lia. }
    rewrite Hm.
    destruct (Z.ltb_spec (v + 2 ^ 64) (2 ^ 63)); lia.
  - rewrite Z.mod_small by lia.
    destruct (Z.ltb_spec v (2 ^ 63)); lia.
Qed.

(** ** Big-endian bytes of a public key *)

Lemma be_value_from_app (base acc : Z) (xs ys : list Z) :
  Base58.be_value_from acc base (xs ++ ys)
  = Base58.be_value_from (Base58.be_value_from acc base xs) base ys.
Proof.
  revert acc; induction xs as [|x xs IH]; intros acc; simpl; [reflexivity|].
  apply IH.
Qed.

Lemma be_value_from_rev (bs : Bytes) :
  Base58.be_value_from 0 256 (rev bs) = le_value bs.
Proof.
  induction bs as [|b bs IH]; [reflexivity|].
  cbn [rev le_value]. rewrite be_value_from_app, IH.
  cbn [Base58.be_value_from]. lia.
Qed.

Lemma be_value_from_le_value (bs : Bytes) :
  Base58.be_value_from 0 256 bs = le_value (rev bs).
Proof. now rewrite <- be_value_from_rev, rev_involutive. Qed.

Lemma toBuffer_length (k : PublicKey) : List.length (toBuffer k) = 32%nat.
Proof. unfold toBuffer, be_bytes. now rewrite length_rev, le_bytes_length. Qed.

(** A key made from 32 bytes gives these bytes back. *)
Lemma toBuffer_of_bytes (bs : Bytes) :
  List.length bs = 32%nat -> forallb is_byte bs = true ->
  PublicKey_of_bytes bs = Ok (mkPublicKey (Base58.be_value_from 0 256 bs)) /\
  toBuffer (mkPublicKey (Base58.be_value_from 0 256 bs)) = bs.
Proof.
  intros Hlen Hb.
  assert (Hr : forallb is_byte (rev bs) = true).
  { rewrite forallb_forall in *. intros x Hx. apply Hb. now apply in_rev. }
  pose proof (le_value_bound (rev bs) Hr) as Hbound.
  rewrite length_rev, Hlen in Hbound.
  split.
  - unfold PublicKey_of_bytes. rewrite be_value_from_le_value.
    change (256 ^ Z.of_nat 32) with (2 ^ 256) in Hbound.
    destruct (Z.ltb_spec (le_value (rev bs)) (2 ^ 256)); [reflexivity | lia].
  - unfold toBuffer, be_bytes. cbn [bn]. rewrite be_value_from_le_value.
    rewrite <- Hlen, <- (length_rev bs), le_bytes_le_value by exact Hr.
    apply rev_involutive.
Qed.

(** ** UTF-8 length *)

Lemma pair_induction (P : list Z -> Prop) :
  P [] -> (forall c, P [c]) ->
  (forall c d s, P s -> P (d :: s) -> P (c :: d :: s)) ->
  forall s, P s.
Proof.
  intros H0 H1 H2 s.
  assert (H : P s /\ forall c, P (c :: s)).
  { induction s as [|d s [IHs IHc]]; split; auto. }
  exact (proj1 H).
Qed.

Lemma utf8_of_code_point_length (cp : Z) :
  (1 <= List.length (utf8_of_code_point cp) <= 4)%nat.
Proof.
  unfold utf8_of_code_point.
  destruct (cp <? 128); [simpl; lia|].
  destruct (cp <? 2048); [simpl; lia|].
  destruct (cp <? 65536); simpl; lia.
Qed.

Lemma utf8_unit_length (c : Z) :
  is_code_unit c = true ->
  (List.length (if is_low_surrogate c then replacement_bytes
                else utf8_of_code_point c) <= 3)%nat.
Proof.
  intros Hc. destruct (is_low_surrogate c); [simpl; lia|].
  unfold is_code_unit in Hc. apply andb_true_iff in Hc as [_ Hc].
  unfold utf8_of_code_point. rewrite Hc.
  destruct (c <? 128); [simpl; lia|].
  destruct (c <? 2048); simpl; lia.
Qed.

(** Three bytes per code unit at most: a string of fewer than [2^30] code
    units (no JavaScript engine allows more) encodes to fewer than [2^32]
    bytes, so its length always fits the 4-byte prefix. *)
Lemma utf8_length_bound (s : JSString) :
  forallb is_code_unit s = true ->
  (List.length (utf8 s) <= 3 * List.length s)%nat.
Proof.
  induction s as [| |c d s IHs IHd] using pair_induction.
  - simpl; lia.
  - intros H. cbn [forallb] in H. apply andb_true_iff in H as [Hc _].
    cbn [utf8]. destruct (is_high_surrogate c); [simpl; lia|].
    pose proof (utf8_unit_length c Hc) as Hu.
    destruct (is_low_surrogate c); rewrite app_nil_r; cbn [List.length]; lia.
  - intros H. cbn [forallb] in H.
    apply andb_true_iff in H as [Hc H]. pose proof H as Hds.
    apply andb_true_iff in H as [Hd Hs].
    specialize (IHs Hs). specialize (IHd Hds).
    cbn [utf8] in *. cbn [List.length] in *.
    destruct (is_high_surrogate c).
    + destruct (is_low_surrogate d).
      * rewrite length_app. pose proof (utf8_of_code_point_length
          (65536 + (c - 55296) * 1024 + (d - 56320))). lia.
      * rewrite length_app. simpl List.length at 1. lia.
    + pose proof (utf8_unit_length c Hc) as Hu.
      destruct (is_low_surrogate c); rewrite length_app; lia.
Qed.

(** ** UTF-8: decoding what was encoded *)

(** Settles the comparisons met while running the decoder on given bytes. *)
Ltac settle_tests :=
  repeat match goal with
         | |- context [?a <=? ?b] => destruct (Z.leb_spec a b); try lia
         | |- context [?a <? ?b] => destruct (Z.ltb_spec a b); try lia
         | |- context [?a =? ?b] => destruct (Z.eqb_spec a b); try lia
         end;
  cbn [andb orb negb].

Lemma is_scalar_range (cp : Z) :
  is_scalar cp = true -> 0 <= cp < 55296 \/ 57344 <= cp < 1114112.
Proof. unfold is_scalar. settle_tests; intros; try discriminate; lia. Qed.

Lemma decode_one_byte (cp : Z) (rest : Bytes) :
  0 <= cp < 128 ->
  decode_from Start (cp :: rest) = cp :: decode_from Start rest.
Proof.
  intros H. cbn [decode_from decode_step]. unfold decode_lead.
  settle_tests. reflexivity.
Qed.

Lemma decode_two_bytes (cp : Z) (rest : Bytes) :
  128 <= cp < 2048 ->
  decode_from Start (192 + cp / 64 :: 128 + cp mod 64 :: rest)
  = cp :: decode_from Start rest.
Proof.
  intros H.
  pose proof (Z.div_mod cp 64 ltac:(lia)) as E.
  pose proof (Z.mod_pos_bound cp 64 ltac:(lia)) as B.
  set (q := cp / 64) in *. set (r := cp mod 64) in *.
  cbn [decode_from decode_step]. unfold decode_lead.
  settle_tests. cbn [decode_step app]. settle_tests.
  cbn [app]. f_equal. lia.
Qed.

Lemma decode_three_bytes (cp : Z) (rest : Bytes) :
  2048 <= cp < 55296 \/ 57344 <= cp < 65536 ->
  decode_from Start
    (224 + cp / 4096 :: 128 + (cp / 64) mod 64 :: 128 + cp mod 64 :: rest)
  = cp :: decode_from Start rest.
Proof.
  intros H.
  pose proof (Z.div_mod cp 64 ltac:(lia)) as E1.
  pose proof (Z.mod_pos_bound cp 64 ltac:(lia)) as B1.
  pose proof (Z.div_mod (cp / 64) 64 ltac:(lia)) as E2.
  pose proof (Z.mod_pos_bound (cp / 64) 64 ltac:(lia)) as B2.
  assert (E3 : cp / 4096 = cp / 64 / 64) by (rewrite Z.div_div by lia; reflexivity).
  rewrite E3.
  set (q1 := cp / 64) in *. set (r1 := cp mod 64) in *.
  set (q2 := q1 / 64) in *. set (r2 := q1 mod 64) in *.
  cbn [decode_from decode_step]. unfold decode_lead.
  settle_tests; cbn [decode_step app]; settle_tests;
    cbn [decode_step app]; settle_tests; cbn [app]; f_equal; lia.
Qed.

Lemma decode_four_bytes (cp : Z) (rest : Bytes) :
  65536 <= cp < 1114112 ->
  decode_from Start
    (240 + cp / 262144 :: 128 + (cp / 4096) mod 64 :: 128 + (cp / 64) mod 64
         :: 128 + cp mod 64 :: rest)
  = cp :: decode_from Start rest.
Proof.
  intros H.
  pose proof (Z.div_mod cp 64 ltac:(lia)) as E1.
  pose proof (Z.mod_pos_bound cp 64 ltac:(lia)) as B1.
  pose proof (Z.div_mod (cp / 64) 64 ltac:(lia)) as E2.
  pose proof (Z.mod_pos_bound (cp / 64) 64 ltac:(lia)) as B2.
  pose proof (Z.div_mod (cp / 64 / 64) 64 ltac:(lia)) as E3.
  pose proof (Z.mod_pos_bound (cp / 64 / 64) 64 ltac:(lia)) as B3.
  assert (F1 : cp / 4096 = cp / 64 / 64) by (rewrite Z.div_div by lia; reflexivity).
  assert (F2 : cp / 262144 = cp / 64 / 64 / 64)
    by (rewrite !Z.div_div by lia; reflexivity).
  rewrite F1, F2.
  set (q1 := cp / 64) in *. set (r1 := cp mod 64) in *.
  set (q2 := q1 / 64) in *. set (r2 := q1 mod 64) in *.
  set (q3 := q2 / 64) in *. set (r3 := q2 mod 64) in *.
  cbn [decode_from decode_step]. unfold decode_lead.
  settle_tests; cbn [decode_step app]; settle_tests;
    cbn [decode_step app]; settle_tests; cbn [decode_step app]; settle_tests;
    cbn [app]; f_equal; lia.
Qed.

Lemma decode_code_point (cp : Z) (rest : Bytes) :
  is_scalar cp = true ->
  decode_from Start (utf8_of_code_point cp ++ rest) = cp :: decode_from Start rest.
Proof.
  intros H. apply is_scalar_range in H. unfold utf8_of_code_point.
  destruct (Z.ltb_spec cp 128); [apply decode_one_byte; lia|].
  destruct (Z.ltb_spec cp 2048); [apply decode_two_bytes; lia|].
  destruct (Z.ltb_spec cp 65536); [apply decode_three_bytes; lia|].
  apply decode_four_bytes; lia.
Qed.

Lemma surrogate_pair_scalar (c d : Z) :
  is_high_surrogate c = true -> is_low_surrogate d = true ->
  let cp := 65536 + (c - 55296) * 1024 + (d - 56320) in
  is_scalar cp = true /\ 65536 <= cp /\ utf16_of_code_point cp = [c; d].
Proof.
  intros Hc Hd cp.
  unfold is_high_surrogate in Hc. unfold is_low_surrogate in Hd.
  apply andb_true_iff in Hc as [Hc1 Hc2]. apply andb_true_iff in Hd as [Hd1 Hd2].
  apply Z.leb_le in Hc1, Hc2, Hd1, Hd2.
  unfold is_scalar, utf16_of_code_point.
  assert (Hcp : 65536 <= cp < 1114112) by (subst cp; lia).
  split; [|split; [lia|]].
  - settle_tests; reflexivity.
  - destruct (Z.ltb_spec cp 65536); [lia|].
    replace (cp - 65536) with ((c - 55296) * 1024 + (d - 56320)) by (subst cp; lia).
    f_equal; [|f_equal]; Z.to_euclidean_division_equations; lia.
Qed.

Lemma bmp_unit_scalar (c : Z) :
  is_high_surrogate c = false ->
  is_code_unit c && negb (is_low_surrogate c) = true ->
  is_scalar c = true /\ c < 65536.
Proof.
  unfold is_high_surrogate, is_low_surrogate, is_code_unit, is_scalar.
  settle_tests; intros; try discriminate; split; try reflexivity; lia.
Qed.

Lemma utf8_unit (c : Z) (rest : JSString) :
  is_high_surrogate c = false -> is_low_surrogate c = false ->
  utf8 (c :: rest) = utf8_of_code_point c ++ utf8 rest /\
  code_points (c :: rest) = c :: code_points rest.
Proof. intros Hh Hl. cbn [utf8 code_points]. rewrite Hh, Hl. auto. Qed.

Lemma utf8_pair (c d : Z) (rest : JSString) :
  is_high_surrogate c = true -> is_low_surrogate d = true ->
  let cp := 65536 + (c - 55296) * 1024 + (d - 56320) in
  utf8 (c :: d :: rest) = utf8_of_code_point cp ++ utf8 rest /\
  code_points (c :: d :: rest) = cp :: code_points rest.
Proof. intros Hh Hl. cbn [utf8 code_points]. rewrite Hh, Hl. auto. Qed.

(** What [well_formed] says of the first one or two code units. *)
Lemma well_formed_head (c : Z) (rest : JSString) :
  well_formed (c :: rest) = true ->
  (is_high_surrogate c = false /\ is_low_surrogate c = false /\
   is_scalar c = true /\ c < 65536 /\ well_formed rest = true) \/
  (exists d rest', rest = d :: rest' /\ is_high_surrogate c = true /\
                   is_low_surrogate d = true /\ well_formed rest' = true).
Proof.
  cbn [well_formed]. destruct (is_high_surrogate c) eqn:Hh.
  - destruct rest as [|d rest']; [discriminate|].
    intros H. apply andb_true_iff in H as [Hl Hw]. right. exists d, rest'. auto.
  - intros H. apply andb_true_iff in H as [Hc Hw].
    destruct (bmp_unit_scalar c Hh Hc) as [Hs Hlt].
    apply andb_true_iff in Hc as [_ Hl]. apply negb_true_iff in Hl.
    left. auto.
Qed.

(** The decoder undoes the encoder on strings without unpaired surrogates. *)
Lemma decode_utf8 (s : JSString) :
  well_formed s = true -> decode_from Start (utf8 s) = code_points s.
Proof.
  induction s as [| |c d s IHs IHd] using pair_induction.
  - reflexivity.
  - intros H.
    destruct (well_formed_head c [] H)
      as [(Hh & Hl & Hs & _ & _)|(d & r & E & _)]; [|discriminate].
    destruct (utf8_unit c [] Hh Hl) as [-> ->].
    rewrite (decode_code_point c _ Hs). reflexivity.
  - intros H.
    destruct (well_formed_head c (d :: s) H)
      as [(Hh & Hl & Hs & _ & Hw)|(d' & r & E & Hh & Hl & Hw)].
    + destruct (utf8_unit c (d :: s) Hh Hl) as [-> ->].
      rewrite (decode_code_point c _ Hs), (IHd Hw). reflexivity.
    + injection E as <- <-.
      destruct (utf8_pair c d s Hh Hl) as [-> ->].
      destruct (surrogate_pair_scalar c d Hh Hl) as (Hs & _ & _).
      rewrite (decode_code_point _ _ Hs), (IHs Hw). reflexivity.
Qed.

Lemma utf16_code_points (s : JSString) :
  well_formed s = true -> flat_map utf16_of_code_point (code_points s) = s.
Proof.
  induction s as [| |c d s IHs IHd] using pair_induction.
  - reflexivity.
  - intros H.
    destruct (well_formed_head c [] H)
      as [(Hh & Hl & _ & Hlt & _)|(d & r & E & _)]; [|discriminate].
    destruct (utf8_unit c [] Hh Hl) as [_ ->].
    cbn [flat_map code_points]. unfold utf16_of_code_point.
    destruct (Z.ltb_spec c 65536); [reflexivity | lia].
  - intros H.
    destruct (well_formed_head c (d :: s) H)
      as [(Hh & Hl & _ & Hlt & Hw)|(d' & r & E & Hh & Hl & Hw)].
    + destruct (utf8_unit c (d :: s) Hh Hl) as [_ ->].
      cbn [flat_map]. rewrite (IHd Hw). unfold utf16_of_code_point.
      destruct (Z.ltb_spec c 65536); [reflexivity | lia].
    + injection E as <- <-.
      destruct (utf8_pair c d s Hh Hl) as [_ ->].
      destruct (surrogate_pair_scalar c d Hh Hl) as (_ & _ & Hu).
      cbn [flat_map]. rewrite Hu, (IHs Hw). reflexivity.
Qed.

Lemma strip_bom_code_points (s : JSString) :
  well_formed s = true -> starts_with_bom s = false ->
  strip_bom (code_points s) = code_points s.
Proof.
  destruct s as [|c rest]; [reflexivity|].
  cbn [well_formed code_points starts_with_bom]. intros Hw Hb.
  apply Z.eqb_neq in Hb.
  destruct (is_high_surrogate c) eqn:Hh.
  - destruct rest as [|d rest']; [discriminate|].
    apply andb_true_iff in Hw as [Hl _]. rewrite Hl.
    destruct (surrogate_pair_scalar c d Hh Hl) as (_ & Hge & _).
    unfold strip_bom.
    destruct (65536 + (c - 55296) * 1024 + (d - 56320)) as [|p|p] eqn:E;
      try reflexivity.
    repeat (destruct p as [p|p|]; try reflexivity); lia.
  - unfold strip_bom. destruct c as [|p|p]; try reflexivity.
    repeat (destruct p as [p|p|]; try reflexivity); lia.
Qed.

(** [TextDecoder] gives back a string that was encoded by [utf8], provided
    the string has no unpaired surrogate and does not begin with U+FEFF. *)
Lemma TextDecoder_decode_utf8 (s : JSString) :
  well_formed s = true -> starts_with_bom s = false ->
  TextDecoder_decode (utf8 s) = s.
Proof.
  intros Hw Hb. unfold TextDecoder_decode.
  rewrite (decode_utf8 s Hw), (strip_bom_code_points s Hw Hb).
  exact (utf16_code_points s Hw).
Qed.

(** Distinct well-formed strings have distinct UTF-8 encodings. *)
Lemma utf8_injective (a b : JSString) :
  well_formed a = true -> well_formed b = true -> utf8 a = utf8 b -> a = b.
Proof.
  intros Ha Hb H.
  rewrite <- (utf16_code_points a Ha), <- (utf16_code_points b Hb).
  rewrite <- (decode_utf8 a Ha), <- (decode_utf8 b Hb). now rewrite H.
Qed.

(** ** Instruction codec and account lists *)

Lemma writeUInt32LE_ok (n : Z) :
  0 <= n < 2 ^ 32 ->
  writeUInt32LE n = Ok (le_bytes 4 n) /\ le_value (le_bytes 4 n) = n.
Proof.
  intros Hn. split.
  - unfold writeUInt32LE.
    destruct (Z.leb_spec 0 n); [|lia].
    destruct (Z.ltb_spec n (2 ^ 32)); [reflexivity | lia].
  - apply le_value_le_bytes. change (256 ^ Z.of_nat 4) with (2 ^ 32). exact Hn.
Qed.

(** Unfolds one run of a service operation in the monad [M]. *)
Ltac run_M :=
  unfold bind, lift, ret, throw, try_catch, rpc_getLatestBlockhash,
    rpc_getSlot, rpc_getAccountInfo, rbind; cbn beta iota.

Section CodecFacts.

Context {env : Environment}.

(** What each builder returns when the derivation, the treasury key and the
    blockhash fetch succeed and the text fits the length prefix. *)
Lemma createRegisterTransaction_run
      (name : JSString) (owner : PublicKey) (treasuryWalletParam : option JSString)
      (w : World) (domainPDA : PublicKey) (bump : Z) (treasury : PublicKey)
      (blockhash : JSString) :
  getDomainPDA name = Ok (domainPDA, bump) ->
  treasuryKey treasuryWalletParam = Ok treasury ->
  getLatestBlockhash (connection w) = Ok blockhash ->
  Z.of_nat (List.length (utf8 name)) < 2 ^ 32 ->
  createRegisterTransaction name owner treasuryWalletParam w
  = (Ok (mkTransaction (Some owner)
           [mkInstruction
              [ mkMeta domainPDA false true;
                mkMeta owner true true;
                mkMeta treasury false true;
                mkMeta SystemProgram_programId false false ]
              CARV_DOMAIN_PROGRAM_ID
              ([211; 124; 67; 15; 211; 194; 178; 240]
                 ++ le_bytes 4 (Z.of_nat (List.length (utf8 name))) ++ utf8 name)]
           (Some blockhash)), w).
Proof.
  intros Hpda Htr Hbh Hlen.
  destruct (writeUInt32LE_ok (Z.of_nat (List.length (utf8 name)))) as [Hw _]; [lia|].
  unfold createRegisterTransaction. run_M.
  rewrite Hpda, Htr, Hw, Hbh. reflexivity.
Qed.

Lemma createRenewTransaction_run
      (name : JSString) (owner : PublicKey) (treasuryWalletParam : option JSString)
      (w : World) (domainPDA : PublicKey) (bump : Z) (treasury : PublicKey)
      (blockhash : JSString) :
  getDomainPDA name = Ok (domainPDA, bump) ->
  treasuryKey treasuryWalletParam = Ok treasury ->
  getLatestBlockhash (connection w) = Ok blockhash ->
  createRenewTransaction name owner treasuryWalletParam w
  = (Ok (mkTransaction (Some owner)
           [mkInstruction
              [ mkMeta domainPDA false true;
                mkMeta owner true true;
                mkMeta treasury false true;
                mkMeta SystemProgram_programId false false ]
              CARV_DOMAIN_PROGRAM_ID
              [43; 239; 15; 46; 27; 7; 163; 73]]
           (Some blockhash)), w).
Proof.
  intros Hpda Htr Hbh.
  unfold createRenewTransaction. run_M.
  rewrite Hpda, Htr, Hbh. reflexivity.
Qed.

Lemma createTransferTransaction_run
      (name : JSString) (owner newOwner : PublicKey)
      (w : World) (domainPDA : PublicKey) (bump : Z) (blockhash : JSString) :
  getDomainPDA name = Ok (domainPDA, bump) ->
  getLatestBlockhash (connection w) = Ok blockhash ->
  createTransferTransaction name owner newOwner w
  = (Ok (mkTransaction (Some owner)
           [mkInstruction
              [ mkMeta domainPDA false true;
                mkMeta owner true false ]
              CARV_DOMAIN_PROGRAM_ID
              ([163; 52; 200; 231; 140; 3; 69; 186] ++ toBuffer newOwner)]
           (Some blockhash)), w).
Proof.
  intros Hpda Hbh.
  unfold createTransferTransaction. run_M.
  rewrite Hpda, Hbh. reflexivity.
Qed.

Lemma createSetDataTransaction_run
      (name : JSString) (owner : PublicKey) (text : JSString)
      (w : World) (domainPDA : PublicKey) (bump : Z) (blockhash : JSString) :
  getDomainPDA name = Ok (domainPDA, bump) ->
  getLatestBlockhash (connection w) = Ok blockhash ->
  Z.of_nat (List.length (utf8 text)) < 2 ^ 32 ->
  createSetDataTransaction name owner text w
  = (Ok (mkTransaction (Some owner)
           [mkInstruction
              [ mkMeta domainPDA false true;
                mkMeta owner true false ]
              CARV_DOMAIN_PROGRAM_ID
              ([223; 114; 91; 136; 197; 78; 153; 153]
                 ++ le_bytes 4 (Z.of_nat (List.length (utf8 text))) ++ utf8 text)]
           (Some blockhash)), w).
Proof.
  intros Hpda Hbh Hlen.
  destruct (writeUInt32LE_ok (Z.of_nat (List.length (utf8 text)))) as [Hw _]; [lia|].
  unfold createSetDataTransaction. run_M.
  rewrite Hpda, Hw, Hbh. reflexivity.
Qed.

(** C1. [getDomainPDA] hands the derivation exactly two seeds, the six
    bytes of "domain" and the UTF-8 bytes of the name as they are, under the
    configured program identifier; its result depends on the name only
    through these bytes, so equal names give equal (address, bump) pairs.
    Nothing is normalised: names that differ (in case, in white space, in
    anything) and have no unpaired surrogate give different second seeds. *)
Theorem getDomainPDA_seeds (name : JSString) :
  getDomainPDA name
  = findProgramAddressSync [bytes_of_hex "646f6d61696e"; utf8 name]
                           CARV_DOMAIN_PROGRAM_ID
  /\ (forall name', utf8 name' = utf8 name -> getDomainPDA name' = getDomainPDA name)
  /\ (forall name', well_formed name = true -> well_formed name' = true ->
                    name' <> name -> utf8 name' <> utf8 name).
Proof.
  split; [reflexivity|]. split.
  - intros name' H. unfold getDomainPDA. now rewrite H.
  - intros name' Hw Hw' Hneq H. apply Hneq. now apply utf8_injective.
Qed.

(** C2, as the code has it.  Whenever the address derivation succeeds, the
    set_data instruction data, in the stand-alone instruction and in the
    transaction alike, is the discriminator df725b88c54e9999, then the byte
    length of the UTF-8 metadata as four little-endian bytes, then these
    bytes. *)
Theorem set_data_instruction_data
        (name : JSString) (owner : PublicKey) (text : JSString)
        (w : World) (pda : PublicKey * Z) (blockhash : JSString) :
  getDomainPDA name = Ok pda ->
  getLatestBlockhash (connection w) = Ok blockhash ->
  Z.of_nat (List.length (utf8 text)) < 2 ^ 32 ->
  let len := Z.of_nat (List.length (utf8 text)) in
  let payload := bytes_of_hex "df725b88c54e9999" ++ le_bytes 4 len ++ utf8 text in
  le_value (le_bytes 4 len) = len /\
  (exists ix, createSetDataInstruction name owner text = Ok ix /\ data ix = payload) /\
  (exists tx, createSetDataTransaction name owner text w = (Ok tx, w) /\
              map data (instructions tx) = [payload]).
Proof.
  intros Hpda Hbh Hlen len payload.
  destruct pda as [domainPDA bump].
  destruct (writeUInt32LE_ok len) as [Hw Hv]; [subst len; lia|].
  split; [exact Hv|]. split.
  - eexists. split.
    + unfold createSetDataInstruction. rewrite Hpda. unfold rbind.
      fold len. rewrite Hw. reflexivity.
    + reflexivity.
  - eexists. split.
    + exact (createSetDataTransaction_run name owner text w domainPDA bump
               blockhash Hpda Hbh Hlen).
    + reflexivity.
Qed.

(** C3. When the address derivation, the treasury key and the blockhash
    fetch succeed: register data is d37c430fd3c2b2f0, the UTF-8 length of
    the name on four little-endian bytes and the name bytes; renew data is
    2bef0f2e1b07a349 alone; transfer data is a334c8e78c0345ba followed by
    the 32 bytes of the new owner. *)
Theorem register_renew_transfer_data
        (name : JSString) (owner : PublicKey) (newOwnerBytes : Bytes)
        (treasuryWalletParam : option JSString)
        (w : World) (pda : PublicKey * Z) (treasury : PublicKey)
        (blockhash : JSString) :
  getDomainPDA name = Ok pda ->
  treasuryKey treasuryWalletParam = Ok treasury ->
  getLatestBlockhash (connection w) = Ok blockhash ->
  Z.of_nat (List.length (utf8 name)) < 2 ^ 32 ->
  List.length newOwnerBytes = 32%nat ->
  forallb is_byte newOwnerBytes = true ->
  let len := Z.of_nat (List.length (utf8 name)) in
  le_value (le_bytes 4 len) = len /\
  (exists tx, createRegisterTransaction name owner treasuryWalletParam w = (Ok tx, w) /\
              map data (instructions tx)
              = [bytes_of_hex "d37c430fd3c2b2f0" ++ le_bytes 4 len ++ utf8 name]) /\
  (exists tx, createRenewTransaction name owner treasuryWalletParam w = (Ok tx, w) /\
              map data (instructions tx) = [bytes_of_hex "2bef0f2e1b07a349"]) /\
  (exists newOwner tx,
      PublicKey_of_bytes newOwnerBytes = Ok newOwner /\
      createTransferTransaction name owner newOwner w = (Ok tx, w) /\
      map data (instructions tx)
      = [bytes_of_hex "a334c8e78c0345ba" ++ newOwnerBytes]).
Proof.
  intros Hpda Htr Hbh Hlen Hno Hnb len.
  destruct pda as [domainPDA bump].
  split; [apply le_value_le_bytes; change (256 ^ Z.of_nat 4) with (2 ^ 32);
          subst len; lia|].
  split; [|split].
  - eexists. split.
    + exact (createRegisterTransaction_run name owner treasuryWalletParam w
               domainPDA bump treasury blockhash Hpda Htr Hbh Hlen).
    + reflexivity.
  - eexists. split.
    + exact (createRenewTransaction_run name owner treasuryWalletParam w
               domainPDA bump treasury blockhash Hpda Htr Hbh).
    + reflexivity.
  - destruct (toBuffer_of_bytes newOwnerBytes Hno Hnb) as [Hk Hb].
    eexists. eexists. split; [exact Hk|]. split.
    + exact (createTransferTransaction_run name owner _ w domainPDA bump
               blockhash Hpda Hbh).
    + cbn [instructions map data]. rewrite Hb. reflexivity.
Qed.

(** C8. The account list of every built transaction: register and renew
    carry [domainPDA (writable), owner (signer, writable), treasury
    (writable), systemProgram (read-only)]; transfer and set_data carry
    [domainPDA (writable), owner (signer)]. *)
Theorem transaction_account_lists
        (name : JSString) (owner newOwner : PublicKey) (text : JSString)
        (treasuryWalletParam : option JSString)
        (w : World) (domainPDA : PublicKey) (bump : Z) (treasury : PublicKey)
        (blockhash : JSString) :
  getDomainPDA name = Ok (domainPDA, bump) ->
  treasuryKey treasuryWalletParam = Ok treasury ->
  getLatestBlockhash (connection w) = Ok blockhash ->
  Z.of_nat (List.length (utf8 name)) < 2 ^ 32 ->
  Z.of_nat (List.length (utf8 text)) < 2 ^ 32 ->
  let four :=
      [ mkMeta domainPDA false true;
        mkMeta owner true true;
        mkMeta treasury false true;
        mkMeta SystemProgram_programId false false ] in
  let two :=
      [ mkMeta domainPDA false true;
        mkMeta owner true false ] in
  (exists tx, createRegisterTransaction name owner treasuryWalletParam w = (Ok tx, w) /\
              map keys (instructions tx) = [four]) /\
  (exists tx, createRenewTransaction name owner treasuryWalletParam w = (Ok tx, w) /\
              map keys (instructions tx) = [four]) /\
  (exists tx, createTransferTransaction name owner newOwner w = (Ok tx, w) /\
              map keys (instructions tx) = [two]) /\
  (exists tx, createSetDataTransaction name owner text w = (Ok tx, w) /\
              map keys (instructions tx) = [two]).
Proof.
  intros Hpda Htr Hbh Hname Htext four two.
  repeat apply conj; eexists; split.
  - exact (createRegisterTransaction_run name owner treasuryWalletParam w
             domainPDA bump treasury blockhash Hpda Htr Hbh Hname).
  - reflexivity.
  - exact (createRenewTransaction_run name owner treasuryWalletParam w
             domainPDA bump treasury blockhash Hpda Htr Hbh).
  - reflexivity.
  - exact (createTransferTransaction_run name owner newOwner w domainPDA bump
             blockhash Hpda Hbh).
  - reflexivity.
  - exact (createSetDataTransaction_run name owner text w domainPDA bump
             blockhash Hpda Hbh Htext).
  - reflexivity.
Qed.

End CodecFacts.

(** *** Runs on the sample data *)

Lemma getDomainPDA_seeds_witness :
  @getDomainPDA Sample.env (js "test")
  = Sample.findProgramAddressSync [js "domain"; js "test"] Sample.program /\
  @getDomainPDA Sample.env (js "test") = @getDomainPDA Sample.env (js "test") /\
  utf8 (js "Test ") <> utf8 (js "test").
Proof.
  destruct (@getDomainPDA_seeds Sample.env (js "test")) as (H1 & H2 & H3).
  split; [exact H1|]. split.
  - apply H2. reflexivity.
  - apply H3; [reflexivity | reflexivity | discriminate].
Defined.

(** The sixth byte of the set_data discriminator is 4e in the code: the
    instruction data is not the one that starts with df725b88c59e9999. *)
Lemma set_data_discriminator_counterexample :
  exists ix,
    @createSetDataInstruction Sample.env (js "test") Sample.alice (js "hello") = Ok ix /\
    data ix <> bytes_of_hex "df725b88c59e9999"
               ++ le_bytes 4 (Z.of_nat (List.length (utf8 (js "hello"))))
               ++ utf8 (js "hello").
Proof.
  eexists. split; [reflexivity|]. vm_compute. discriminate.
Qed.

Lemma set_data_instruction_data_witness :
  exists ix,
    @createSetDataInstruction Sample.env (js "test") Sample.alice (js "hello") = Ok ix /\
    data ix = [223; 114; 91; 136; 197; 78; 153; 153; 5; 0; 0; 0;
               104; 101; 108; 108; 111].
Proof.
  apply (@set_data_instruction_data Sample.env (js "test") Sample.alice (js "hello")
           (Sample.world (Sample.node None) 0)
           (Sample.pda (js "test"), 255) (js "blockhash")).
  - reflexivity.
  - reflexivity.
  - vm_compute. reflexivity.
Defined.

Lemma register_renew_transfer_data_witness :
  exists tx,
    @createRegisterTransaction Sample.env (js "test") Sample.alice None
      (Sample.world (Sample.node None) 0) = (Ok tx, Sample.world (Sample.node None) 0) /\
    map data (instructions tx)
    = [[211; 124; 67; 15; 211; 194; 178; 240; 4; 0; 0; 0; 116; 101; 115; 116]].
Proof.
  apply (@register_renew_transfer_data Sample.env (js "test") Sample.alice
           (toBuffer Sample.bob) None
           (Sample.world (Sample.node None) 0)
           (Sample.pda (js "test"), 255) (mkPublicKey 1) (js "blockhash")).
  - reflexivity.
  - reflexivity.
  - reflexivity.
  - vm_compute. reflexivity.
  - reflexivity.
  - reflexivity.
Defined.

Lemma transaction_account_lists_witness :
  exists tx,
    @createTransferTransaction Sample.env (js "test") Sample.alice Sample.bob
      (Sample.world (Sample.node None) 0) = (Ok tx, Sample.world (Sample.node None) 0) /\
    map keys (instructions tx)
    = [[ mkMeta (Sample.pda (js "test")) false true;
         mkMeta Sample.alice true false ]].
Proof.
  apply (@transaction_account_lists Sample.env (js "test") Sample.alice Sample.bob
           (js "hello") None
           (Sample.world (Sample.node None) 0)
           (Sample.pda (js "test")) 255 (mkPublicKey 1) (js "blockhash")).
  - reflexivity.
  - reflexivity.
  - reflexivity.
  - vm_compute. reflexivity.
  - vm_compute. reflexivity.
Defined.

(** ** Name normalisation *)

Lemma list_eqb_eq (a b : list Z) : list_eqb a b = true <-> a = b.
Proof.
  revert b; induction a as [|x a IH]; intros [|y b]; simpl;
    try (split; [discriminate | discriminate]); [tauto|].
  rewrite andb_true_iff, Z.eqb_eq, IH.
  split; [intros [-> ->]; reflexivity | intros H; injection H; auto].
Qed.

Lemma ends_with_split (suffix s : JSString) :
  ends_with suffix s = true ->
  s = firstn (List.length s - List.length suffix) s ++ suffix.
Proof.
  unfold ends_with. rewrite andb_true_iff, list_eqb_eq. intros [_ H].
  rewrite <- H at 2. symmetry. apply firstn_skipn.
Qed.

Lemma ends_with_app (suffix base : JSString) :
  ends_with suffix (base ++ suffix) = true.
Proof.
  unfold ends_with. rewrite andb_true_iff, list_eqb_eq, length_app. split.
  - apply Nat.leb_le. lia.
  - replace (List.length base + List.length suffix - List.length suffix)%nat
      with (List.length base + 0)%nat by lia.
    rewrite skipn_app, Nat.add_0_r, skipn_all. simpl.
    replace (List.length base - List.length base)%nat with 0%nat by lia.
    reflexivity.
Qed.

(** Exactly one trailing ".carv" goes, whatever precedes it. *)
Lemma strip_carv_app (base : JSString) : strip_carv (base ++ js ".carv") = base.
Proof.
  unfold strip_carv. rewrite ends_with_app, length_app.
  change (List.length (js ".carv")) with 5%nat.
  replace (List.length base + 5 - 5)%nat with (List.length base + 0)%nat by lia.
  rewrite firstn_app_2. simpl. apply app_nil_r.
Qed.

Lemma strip_carv_suffix (name : JSString) :
  ends_with (js ".carv") name = true -> name = strip_carv name ++ js ".carv".
Proof.
  intros H. unfold strip_carv. rewrite H. exact (ends_with_split _ _ H).
Qed.

(** ** Directory client: availability, info, resolution *)

Section ServiceFacts.

Context {env : Environment}.

(** The world after one [getAccountInfo] at [address]. *)
Local Notation "w '+fetch' address" :=
  (mkWorld (connection w) (clock w) (reads w) (fetched w ++ [address]))
  (at level 40).

(** Every path through [getDomainInfo], with the world it leaves. *)
Lemma getDomainInfo_run (name : JSString) (w : World) :
  getDomainInfo name w =
  match getDomainPDA name with
  | Throw _ => (Ok None, w)
  | Ok (domainPDA, _) =>
    match getAccountInfo (connection w) domainPDA with
    | Throw _ => (Ok None, w +fetch domainPDA)
    | Ok None => (Ok None, w +fetch domainPDA)
    | Ok (Some a) =>
      match decodeDomainFields (account_data a) with
      | Ok info => (Ok (Some info), w +fetch domainPDA)
      | Throw e =>
        (Ok (Some (mkDomainInfo None name
                     (round_to_double (inject_Z (clock w (reads w)) / inject_Z 1000))
                     (round_to_double
                        (round_to_double
                           (inject_Z (clock w (S (reads w))) / inject_Z 1000)
                         + inject_Z 31536000))
                     true [] true (Some (error_message e)))),
         mkWorld (connection w) (clock w) (S (S (reads w)))
                 (fetched w ++ [domainPDA]))
      end
    end
  end.
Proof.
  unfold getDomainInfo, degradedInfo, Date_now. run_M.
  destruct (getDomainPDA name) as [[domainPDA bump]|e]; [|reflexivity].
  cbn [fst].
  destruct (getAccountInfo (connection w) domainPDA) as [[a|]|e]; try reflexivity.
  destruct (decodeDomainFields (account_data a)); reflexivity.
Qed.

Lemma getDomainInfo_total (name : JSString) (w : World) :
  exists r, fst (getDomainInfo name w) = Ok r.
Proof.
  rewrite getDomainInfo_run.
  destruct (getDomainPDA name) as [[domainPDA bump]|e]; [|eexists; reflexivity].
  destruct (getAccountInfo (connection w) domainPDA) as [[a|]|e];
    try (eexists; reflexivity).
  destruct (decodeDomainFields (account_data a)); eexists; reflexivity.
Qed.

(** C6. [checkDomainAvailability] never throws; it answers [true] exactly
    when the address was derived, the connection test passed and the fetch at
    the derived address returned no account.  So an account of any content and
    any owning program, a failed fetch and a failed connection test all give
    [false]. *)
Theorem checkDomainAvailability_outcomes (name : JSString) (w : World) :
  exists available,
    fst (checkDomainAvailability name w) = Ok available /\
    (available = true <->
     exists domainPDA bump slot,
       getDomainPDA (strip_carv name) = Ok (domainPDA, bump) /\
       getSlot (connection w) = Ok slot /\
       getAccountInfo (connection w) domainPDA = Ok None).
Proof.
  unfold checkDomainAvailability. run_M.
  destruct (getDomainPDA (strip_carv name)) as [[domainPDA bump]|e] eqn:Hpda.
  - cbn [fst]. destruct (getSlot (connection w)) as [slot|e] eqn:Hslot.
    + destruct (getAccountInfo (connection w) domainPDA) as [[a|]|e] eqn:Hacc.
      * exists false. split.
        -- destruct (negb (PublicKey_equals (account_owner a) CARV_DOMAIN_PROGRAM_ID));
             reflexivity.
        -- split; [discriminate|].
           intros (p & b & s & Hp & _ & Hn).
           injection Hp as <- <-. congruence.
      * exists true. split; [reflexivity|].
        split; [|reflexivity]. intros _. exists domainPDA, bump, slot. auto.
      * exists false. split; [reflexivity|].
        split; [discriminate|].
        intros (p & b & s & Hp & _ & Hn). injection Hp as <- <-. congruence.
    + exists false. split; [reflexivity|].
      split; [discriminate|]. intros (p & b & s & _ & Hs & _). discriminate.
  - exists false. split; [reflexivity|].
    split; [discriminate|]. intros (p & b & s & Hp & _). discriminate.
Qed.

(** C9, as the code has it.  [getDomainInfo] never throws.  It returns
    absent when the fetch at the derived address returns absent and also when
    the derivation or the fetch throws, and in no other case.  When the account
    exists and the field walk throws, it returns the degraded record: the
    requested name, no owner, a first clock reading divided by 1000 as
    registeredAt, a second clock reading divided by 1000 plus 31536000 as
    expiresAt (each quotient and the sum rounded to a double), active set,
    empty metadata, and the message of the error thrown attached.  When the
    walk succeeds it returns the decoded record. *)
Theorem getDomainInfo_outcomes (name : JSString) (w : World) :
  (exists r, fst (getDomainInfo name w) = Ok r) /\
  (fst (getDomainInfo name w) = Ok None <->
   (exists e, getDomainPDA name = Throw e) \/
   (exists domainPDA bump,
       getDomainPDA name = Ok (domainPDA, bump) /\
       (getAccountInfo (connection w) domainPDA = Ok None \/
        exists e, getAccountInfo (connection w) domainPDA = Throw e))) /\
  (forall domainPDA bump a,
      getDomainPDA name = Ok (domainPDA, bump) ->
      getAccountInfo (connection w) domainPDA = Ok (Some a) ->
      (forall e, decodeDomainFields (account_data a) = Throw e ->
                 fst (getDomainInfo name w)
                 = Ok (Some (mkDomainInfo None name
                               (round_to_double
                                  (inject_Z (clock w (reads w)) / inject_Z 1000))
                               (round_to_double
                                  (round_to_double
                                     (inject_Z (clock w (S (reads w))) / inject_Z 1000)
                                   + inject_Z 31536000))
                               true [] true (Some (error_message e))))) /\
      (forall info, decodeDomainFields (account_data a) = Ok info ->
                    fst (getDomainInfo name w) = Ok (Some info))).
Proof.
  split; [apply getDomainInfo_total|].
  rewrite getDomainInfo_run. split.
  - destruct (getDomainPDA name) as [[domainPDA bump]|e] eqn:Hpda.
    + destruct (getAccountInfo (connection w) domainPDA) as [[a|]|e] eqn:Hacc.
      * destruct (decodeDomainFields (account_data a)); cbn [fst].
        -- split; [discriminate|].
           intros [[e He]|(p & b & Hp & [Hn|[e He]])]; [discriminate| |];
             injection Hp as <- <-; congruence.
        -- split; [discriminate|].
           intros [[e' He]|(p & b & Hp & [Hn|[e' He]])]; [discriminate| |];
             injection Hp as <- <-; congruence.
      * split; [|reflexivity]. intros _. right. exists domainPDA, bump. auto.
      * split; [|reflexivity]. intros _. right. exists domainPDA, bump.
        split; [reflexivity|]. right. exists e. exact Hacc.
    + split; [|reflexivity]. intros _. left. exists e. reflexivity.
  - intros domainPDA bump a Hpda Hacc. rewrite Hpda, Hacc.
    split; intros x Hx; rewrite Hx; reflexivity.
Qed.

(** C5, as the code has it.  [resolveDomain] never throws.  It returns an
    owner exactly when [getDomainInfo] on the stripped name returns a record
    that exists, is active, carries an owner, and whose expiresAt is not
    before the current time: a record expiring exactly now still resolves.
    Everything else, the degraded record included, resolves to absent. *)
Theorem resolveDomain_outcomes (domain : JSString) (w : World) :
  let r := getDomainInfo (strip_carv domain) w in
  let now := (inject_Z (clock (snd r) (reads (snd r))) / inject_Z 1000)%Q in
  (exists o, fst (resolveDomain domain w) = Ok o) /\
  forall owner,
    fst (resolveDomain domain w) = Ok (Some owner) <->
    exists info,
      fst r = Ok (Some info) /\
      d_exists info = true /\
      d_active info = true /\
      (now <= d_expires info)%Q /\
      d_owner info = Some owner.
Proof.
  intros r now.
  destruct (getDomainInfo_total (strip_carv domain) w) as [res Hres].
  fold r in Hres.
  unfold resolveDomain. run_M. fold r.
  destruct r as [res' w1] eqn:Hr. cbn [fst snd] in *. subst res'.
  destruct res as [info|].
  2:{ split; [eexists; reflexivity|]. intros owner. split; [discriminate|].
      intros (info & Hi & _). discriminate. }
  destruct (d_exists info) eqn:Hex; cbn [negb].
  2:{ split; [eexists; reflexivity|]. intros owner. split; [discriminate|].
      intros (i & Hi & He & _). injection Hi as <-. congruence. }
  destruct (d_active info) eqn:Hact; cbn [negb].
  2:{ split; [eexists; reflexivity|]. intros owner. split; [discriminate|].
      intros (i & Hi & _ & Ha & _). injection Hi as <-. congruence. }
  unfold Date_now. cbn beta iota. fold now.
  unfold Qltb. destruct (Qle_bool now (d_expires info)) eqn:Hle; cbn [negb].
  2:{ split; [eexists; reflexivity|]. intros owner. split; [discriminate|].
      intros (i & Hi & _ & _ & Hn & _). injection Hi as <-.
      apply Qle_bool_iff in Hn. congruence. }
  apply Qle_bool_iff in Hle.
  destruct (d_owner info) as [o|] eqn:Ho.
  - split; [eexists; reflexivity|]. intros owner. cbn [fst]. split.
    + intros H. injection H as <-. exists info. auto.
    + intros (i & Hi & _ & _ & _ & Hown). injection Hi as <-. congruence.
  - split; [eexists; reflexivity|]. intros owner. cbn [fst]. split; [discriminate|].
    intros (i & Hi & _ & _ & _ & Hown). injection Hi as <-. congruence.
Qed.

Lemma checkDomainAvailability_fetch (name : JSString) (w : World)
      (domainPDA : PublicKey) (bump slot : Z) :
  getDomainPDA (strip_carv name) = Ok (domainPDA, bump) ->
  getSlot (connection w) = Ok slot ->
  fetched (snd (checkDomainAvailability name w)) = fetched w ++ [domainPDA].
Proof.
  intros Hpda Hslot. unfold checkDomainAvailability. run_M.
  rewrite Hpda, Hslot. cbn [fst].
  destruct (getAccountInfo (connection w) domainPDA) as [[a|]|e]; try reflexivity.
  destruct (negb (PublicKey_equals (account_owner a) CARV_DOMAIN_PROGRAM_ID));
    reflexivity.
Qed.

Lemma resolveDomain_fetch (domain : JSString) (w : World)
      (domainPDA : PublicKey) (bump : Z) :
  getDomainPDA (strip_carv domain) = Ok (domainPDA, bump) ->
  fetched (snd (resolveDomain domain w)) = fetched w ++ [domainPDA].
Proof.
  intros Hpda. unfold resolveDomain. run_M.
  rewrite getDomainInfo_run, Hpda.
  destruct (getAccountInfo (connection w) domainPDA) as [[a|]|e]; try reflexivity.
  destruct (decodeDomainFields (account_data a)) as [info|e].
  - destruct (d_exists info); cbn [negb]; [|reflexivity].
    destruct (d_active info); cbn [negb]; [|reflexivity].
    unfold Date_now. cbn beta iota.
    match goal with |- context [Qltb ?a ?b] => destruct (Qltb a b) end;
      [reflexivity|].
    destruct (d_owner info); reflexivity.
  - cbn [d_exists d_active negb]. unfold Date_now. cbn beta iota.
    match goal with |- context [Qltb ?a ?b] => destruct (Qltb a b) end;
      reflexivity.
Qed.

(** C10. For a name ending in ".carv", [checkDomainAvailability] and
    [resolveDomain] fetch the account at the address derived from the name
    without that suffix, while the register transaction (like renew, transfer
    and set_data) puts first the address derived from the name as given: where
    the two derivations differ, the check and the registration speak of
    different accounts. *)
Theorem availability_and_register_addresses
        (name : JSString) (owner newOwner : PublicKey) (text : JSString)
        (treasuryWalletParam : option JSString) (w : World)
        (stripped given : PublicKey) (bump1 bump2 slot : Z)
        (treasury : PublicKey) (blockhash : JSString) :
  ends_with (js ".carv") name = true ->
  getDomainPDA (strip_carv name) = Ok (stripped, bump1) ->
  getDomainPDA name = Ok (given, bump2) ->
  stripped <> given ->
  getSlot (connection w) = Ok slot ->
  treasuryKey treasuryWalletParam = Ok treasury ->
  getLatestBlockhash (connection w) = Ok blockhash ->
  Z.of_nat (List.length (utf8 name)) < 2 ^ 32 ->
  Z.of_nat (List.length (utf8 text)) < 2 ^ 32 ->
  let first_keys (tx : Transaction) :=
      map (fun ix => map pubkey (firstn 1 (keys ix))) (instructions tx) in
  name = strip_carv name ++ js ".carv" /\
  fetched (snd (checkDomainAvailability name w)) = fetched w ++ [stripped] /\
  fetched (snd (resolveDomain name w)) = fetched w ++ [stripped] /\
  (exists tx, createRegisterTransaction name owner treasuryWalletParam w = (Ok tx, w) /\
              first_keys tx = [[given]]) /\
  (exists tx, createRenewTransaction name owner treasuryWalletParam w = (Ok tx, w) /\
              first_keys tx = [[given]]) /\
  (exists tx, createTransferTransaction name owner newOwner w = (Ok tx, w) /\
              first_keys tx = [[given]]) /\
  (exists tx, createSetDataTransaction name owner text w = (Ok tx, w) /\
              first_keys tx = [[given]]) /\
  [[stripped]] <> [[given]].
Proof.
  intros Hends Hs Hg Hneq Hslot Htr Hbh Hname Htext first_keys.
  split; [exact (strip_carv_suffix name Hends)|].
  split; [exact (checkDomainAvailability_fetch name w stripped bump1 slot Hs Hslot)|].
  split; [exact (resolveDomain_fetch name w stripped bump1 Hs)|].
  repeat apply conj.
  - eexists. split.
    + exact (createRegisterTransaction_run name owner treasuryWalletParam w
               given bump2 treasury blockhash Hg Htr Hbh Hname).
    + reflexivity.
  - eexists. split.
    + exact (createRenewTransaction_run name owner treasuryWalletParam w
               given bump2 treasury blockhash Hg Htr Hbh).
    + reflexivity.
  - eexists. split.
    + exact (createTransferTransaction_run name owner newOwner w given bump2
               blockhash Hg Hbh).
    + reflexivity.
  - eexists. split.
    + exact (createSetDataTransaction_run name owner text w given bump2
               blockhash Hg Hbh Htext).
    + reflexivity.
  - intros H. injection H as H. contradiction.
Qed.

End ServiceFacts.

(** *** Runs on the sample data *)

(** Free name, taken name (three junk bytes suffice), dead node. *)
Example availability_runs :
  fst (@checkDomainAvailability Sample.env (js "test.carv")
         (Sample.world (Sample.node None) 0)) = Ok true /\
  fst (@checkDomainAvailability Sample.env (js "test.carv")
         (Sample.world (Sample.node (Some (Sample.account_of [1; 2; 3]))) 0)) = Ok false /\
  fst (@checkDomainAvailability Sample.env (js "test.carv")
         (Sample.world Sample.deadNode 0)) = Ok false.
Proof. repeat split; reflexivity. Qed.

(** The fetch throws, it does not return absent, and [getDomainInfo] still
    returns absent. *)
Lemma getDomainInfo_absent_counterexample :
  fst (@getDomainInfo Sample.env (js "test") (Sample.world Sample.deadNode 0)) = Ok None /\
  getAccountInfo (connection (Sample.world Sample.deadNode 0)) (Sample.pda (js "test"))
  <> Ok None.
Proof. split; [reflexivity | discriminate]. Qed.

(** Three junk bytes at the address, the clock at 1700000000123 ms: the
    times are the doubles 1700000000.123 and 1731536000.123, and the message
    is that of the first [DataView], which starts at byte 40 of a store of 3. *)
Lemma getDomainInfo_outcomes_witness :
  fst (@getDomainInfo Sample.env (js "test")
         (Sample.world (Sample.node (Some (Sample.account_of [1; 2; 3]))) 1700000000123))
  = Ok (Some (mkDomainInfo None (js "test")
                (7130316800515899 # 4194304)
                (7262588371459899 # 4194304)
                true [] true
                (Some "Start offset 40 is outside the bounds of the buffer"%string))).
Proof.
  rewrite (proj1 (proj2 (proj2
             (@getDomainInfo_outcomes Sample.env (js "test")
                (Sample.world (Sample.node (Some (Sample.account_of [1; 2; 3])))
                              1700000000123)))
             (Sample.pda (js "test")) 255 (Sample.account_of [1; 2; 3])
             eq_refl eq_refl)
           (RangeError "Start offset 40 is outside the bounds of the buffer")
           eq_refl).
  vm_compute. reflexivity.
Defined.

(** The record expires at 1731536000 and the clock reads 1731536000000 ms:
    expiresAt equals the current time, the record is active, and the owner is
    returned. *)
Lemma resolveDomain_expiry_counterexample :
  let w := Sample.world (Sample.node (Some (Sample.account_of (Sample.testAccountBytes 1))))
                        1731536000000 in
  exists info,
    fst (@getDomainInfo Sample.env (js "test") w) = Ok (Some info) /\
    d_active info = true /\
    (d_expires info == inject_Z 1731536000000 / inject_Z 1000)%Q /\
    fst (@resolveDomain Sample.env (js "test.carv") w) = Ok (Some Sample.alice).
Proof.
  eexists. split; [vm_compute; reflexivity|].
  split; [reflexivity|]. split; [reflexivity|]. vm_compute. reflexivity.
Qed.

Lemma resolveDomain_outcomes_witness :
  fst (@resolveDomain Sample.env (js "test.carv")
         (Sample.world (Sample.node (Some (Sample.account_of (Sample.testAccountBytes 1))))
                       1700000000000)) = Ok (Some Sample.alice).
Proof.
  apply (proj2 (@resolveDomain_outcomes Sample.env (js "test.carv")
                  (Sample.world
                     (Sample.node (Some (Sample.account_of (Sample.testAccountBytes 1))))
                     1700000000000))).
  eexists. split; [vm_compute; reflexivity|].
  repeat split; try reflexivity. vm_compute. discriminate.
Defined.

Lemma availability_and_register_addresses_witness :
  fetched (snd (@checkDomainAvailability Sample.env (js "test.carv")
                  (Sample.world (Sample.node None) 0)))
  = [] ++ [Sample.pda (js "test")] /\
  exists tx,
    @createRegisterTransaction Sample.env (js "test.carv") Sample.alice None
      (Sample.world (Sample.node None) 0) = (Ok tx, Sample.world (Sample.node None) 0) /\
    map (fun ix => map pubkey (firstn 1 (keys ix))) (instructions tx)
    = [[Sample.pda (js "test.carv")]].
Proof.
  pose proof (@availability_and_register_addresses Sample.env
                (js "test.carv") Sample.alice Sample.bob (js "hello") None
                (Sample.world (Sample.node None) 0)
                (Sample.pda (js "test")) (Sample.pda (js "test.carv")) 255 255 1
                (mkPublicKey 1) (js "blockhash")) as H.
  cbv zeta in H.
  destruct H as (_ & Hc & _ & Hr & _).
  - reflexivity.
  - reflexivity.
  - reflexivity.
  - intros E. vm_compute in E. discriminate.
  - reflexivity.
  - reflexivity.
  - reflexivity.
  - vm_compute. reflexivity.
  - vm_compute. reflexivity.
  - split; [exact Hc | exact Hr].
Defined.

(** ** Windows and DataView reads *)

Lemma slice_list_app_inside (pre c post : Bytes) (off len : Z) :
  0 <= off -> 0 <= len -> off + len <= Z.of_nat (List.length c) ->
  slice_list (pre ++ c ++ post)
             (Z.of_nat (List.length pre) + off)
             (Z.of_nat (List.length pre) + off + len)
  = slice_list c off (off + len).
Proof.
  intros Hoff Hlen Hfit. unfold slice_list.
  replace (Z.of_nat (List.length pre) + off + len - (Z.of_nat (List.length pre) + off))
    with len by lia.
  replace (off + len - off) with len by lia.
  replace (Z.to_nat (Z.of_nat (List.length pre) + off))
    with (List.length pre + Z.to_nat off)%nat by lia.
  rewrite skipn_app.
  replace (List.length pre + Z.to_nat off - List.length pre)%nat
    with (Z.to_nat off) by lia.
  rewrite skipn_all2 by lia. cbn [app].
  rewrite skipn_app.
  replace (Z.to_nat off - List.length c)%nat with 0%nat by lia.
  cbn [skipn]. rewrite firstn_app.
  replace (Z.to_nat len - List.length (skipn (Z.to_nat off) c))%nat with 0%nat
    by (rewrite length_skipn; lia).
  cbn [firstn]. apply app_nil_r.
Qed.

Lemma DataView_inside (d : Uint8Array) (off len : Z) :
  0 <= off -> 0 <= len -> off + len <= data_length d ->
  DataView_bytes (buffer d) (byteOffset d + off) len
  = Ok (slice_list (contents d) off (off + len)).
Proof.
  intros Hoff Hlen Hfit. unfold DataView_bytes, buffer, byteOffset, data_length in *.
  rewrite !length_app.
  destruct (Z.ltb_spec (Z.of_nat (List.length (before d)) + off) 0); [lia|].
  destruct (Z.ltb_spec
              (Z.of_nat (List.length (before d)
                         + (List.length (contents d) + List.length (after d))))
              (Z.of_nat (List.length (before d)) + off)); [lia|].
  destruct (Z.ltb_spec
              (Z.of_nat (List.length (before d)
                         + (List.length (contents d) + List.length (after d))))
              (Z.of_nat (List.length (before d)) + off + len)); [lia|].
  cbn [orb]. f_equal. now apply slice_list_app_inside.
Qed.

Lemma slice_buffer (d : Uint8Array) (s e : Z) :
  0 <= s <= e -> buffer (slice d s e) = buffer d.
Proof.
  intros Hse. unfold buffer, slice, slice_list. cbn [before contents after].
  rewrite Z.max_r by lia. rewrite <- !app_assoc. f_equal.
  rewrite !app_assoc. f_equal.
  rewrite <- (firstn_skipn (Z.to_nat s) (contents d)) at 4.
  rewrite <- app_assoc. f_equal.
  replace (Z.to_nat e) with (Z.to_nat (e - s) + Z.to_nat s)%nat by lia.
  rewrite <- skipn_skipn. apply firstn_skipn.
Qed.

Lemma slice_byteOffset (d : Uint8Array) (s e : Z) :
  0 <= s <= data_length d -> byteOffset (slice d s e) = byteOffset d + s.
Proof.
  intros Hs. unfold byteOffset, slice, data_length in *. cbn [before].
  rewrite length_app, length_firstn. lia.
Qed.

Lemma index_inside (d : Uint8Array) (i : Z) :
  0 <= i < data_length d -> exists b, index d i = Some b.
Proof.
  intros Hi. unfold index, data_length in *.
  destruct (Z.leb_spec 0 i); [|lia].
  destruct (nth_error (contents d) (Z.to_nat i)) eqn:E; [eauto|].
  apply nth_error_None in E. lia.
Qed.

(** ** Token accounts *)

Lemma readKeyField_outcomes (d : Uint8Array) (s e : Z) :
  (exists r, readKeyField d s e = Ok r) /\
  (forallb (fun byte => byte =? 0) (slice_list (contents d) s e) = true ->
   readKeyField d s e = Ok None) /\
  (forall text, readKeyField d s e = Ok (Some text) ->
     exists key, PublicKey_of_bytes (slice_list (contents d) s e) = Ok key /\
                 text = toBase58 key /\ isValidPublicKey text = true).
Proof.
  unfold readKeyField. cbn [slice contents].
  destruct (forallb (fun byte => byte =? 0) (slice_list (contents d) s e)).
  - split; [eexists; reflexivity|]. split; [reflexivity | discriminate].
  - destruct (PublicKey_of_bytes (slice_list (contents d) s e)) as [key|err];
      cbn [rbind rcatch].
    + destruct (isValidPublicKey (toBase58 key)) eqn:Hv; cbn [negb rcatch].
      * split; [eexists; reflexivity|]. split; [discriminate|].
        intros text H. injection H as <-. exists key. auto.
      * split; [eexists; reflexivity|]. split; discriminate.
    + split; [eexists; reflexivity|]. split; discriminate.
Qed.

Lemma amount_read (d : Uint8Array) :
  80 <= data_length d ->
  getBigInt64 (buffer (slice d 64 72)) (byteOffset (slice d 64 72))
  = Ok (to_signed 64 (le_value (slice_list (contents d) 64 72))).
Proof.
  intros Hlen. rewrite slice_buffer, slice_byteOffset by lia.
  unfold getBigInt64. rewrite DataView_inside by lia. reflexivity.
Qed.

(** What [parseTokenAccount] does on any buffer: it never throws, refuses
    short buffers and all-zero key fields, and a record it returns carries the
    fields read at their offsets. *)
Lemma parseTokenAccount_fields {engine : Engine} (d : Uint8Array) :
  (exists r, parseTokenAccount d = Ok r) /\
  (data_length d < 80 -> parseTokenAccount d = Ok None) /\
  (forallb (fun byte => byte =? 0) (slice_list (contents d) 0 32) = true ->
   parseTokenAccount d = Ok None) /\
  (forallb (fun byte => byte =? 0) (slice_list (contents d) 32 64) = true ->
   parseTokenAccount d = Ok None) /\
  (forall r, parseTokenAccount d = Ok (Some r) ->
     let value := to_signed 64 (le_value (slice_list (contents d) 64 72)) in
     80 <= data_length d /\
     (exists mintKey ownerKey,
         PublicKey_of_bytes (slice_list (contents d) 0 32) = Ok mintKey /\
         PublicKey_of_bytes (slice_list (contents d) 32 64) = Ok ownerKey /\
         mint r = toBase58 mintKey /\ owner r = toBase58 ownerKey) /\
     amount r = BigInt_toString value /\
     nth_error (contents d) 72 = Some (decimals r) /\
     uiAmount r
     = round_to_double (inject_Z (Number_of_BigInt value) / Math_pow10 (decimals r))).
Proof.
  unfold parseTokenAccount.
  destruct (Z.ltb_spec (data_length d) 80) as [Hshort|Hlong].
  { cbn [rcatch]. split; [eexists; reflexivity|].
    repeat (split; [reflexivity|]). discriminate. }
  destruct (readKeyField_outcomes d 0 32) as ([m Hm] & Hmz & Hmk).
  destruct (readKeyField_outcomes d 32 64) as ([o Ho] & Hoz & Hok).
  rewrite Hm. cbn [rbind].
  destruct m as [mintText|].
  2:{ cbn [rcatch]. split; [eexists; reflexivity|].
      repeat (split; [reflexivity|]). discriminate. }
  rewrite Ho. cbn [rbind].
  destruct o as [ownerText|].
  2:{ cbn [rcatch]. split; [eexists; reflexivity|].
      repeat (split; [reflexivity|]). discriminate. }
  rewrite (amount_read d Hlong). cbn [rbind rcatch].
  destruct (index_inside d 72) as [b Hb]; [lia|]. rewrite Hb.
  split; [eexists; reflexivity|].
  split; [lia|].
  split; [intros Hz; specialize (Hmz Hz); congruence|].
  split; [intros Hz; specialize (Hoz Hz); congruence|].
  intros r Hr. injection Hr as <-. cbn [mint owner amount decimals uiAmount].
  destruct (Hmk mintText Hm) as (mk & Hmk1 & Hmk2 & _).
  destruct (Hok ownerText Ho) as (ok & Hok1 & Hok2 & _).
  split; [exact Hlong|].
  split; [exists mk, ok; auto|].
  split; [reflexivity|].
  split; [|reflexivity].
  unfold index in Hb. destruct (0 <=? 72); [exact Hb | discriminate].
Qed.

(** ** Domain accounts: reading a laid-out buffer *)

Lemma read_field (pre f post : Bytes) (s e : Z) :
  s = Z.of_nat (List.length pre) ->
  e = s + Z.of_nat (List.length f) ->
  slice_list (pre ++ f ++ post) s e = f.
Proof.
  intros -> ->. unfold slice_list.
  replace (Z.of_nat (List.length pre) + Z.of_nat (List.length f)
           - Z.of_nat (List.length pre)) with (Z.of_nat (List.length f)) by lia.
  rewrite !Nat2Z.id.
  rewrite skipn_app, skipn_all, Nat.sub_diag. cbn [skipn app].
  rewrite firstn_app, firstn_all, Nat.sub_diag. cbn [firstn]. apply app_nil_r.
Qed.

Lemma read_byte (pre : Bytes) (b : Z) (post : Bytes) (i : Z) :
  i = Z.of_nat (List.length pre) ->
  nth_error (pre ++ b :: post) (Z.to_nat i) = Some b.
Proof.
  intros ->. rewrite Nat2Z.id, nth_error_app2 by lia.
  now rewrite Nat.sub_diag.
Qed.

(** The field walk on a buffer made of nine consecutive pieces of the
    expected sizes returns the pieces, each decoded by its own rule. *)
Lemma decodeDomainFields_pieces
      (d : Uint8Array)
      (discriminant ownerBytes nameLen nameBytes registered expires : Bytes)
      (activeByte : Z) (dataLen dataBytes : Bytes) :
  contents d = discriminant ++ ownerBytes ++ nameLen ++ nameBytes ++ registered
               ++ expires ++ [activeByte] ++ dataLen ++ dataBytes ->
  List.length discriminant = 8%nat ->
  List.length ownerBytes = 32%nat ->
  List.length nameLen = 4%nat ->
  le_value nameLen = Z.of_nat (List.length nameBytes) ->
  List.length registered = 8%nat ->
  List.length expires = 8%nat ->
  List.length dataLen = 4%nat ->
  le_value dataLen = Z.of_nat (List.length dataBytes) ->
  decodeDomainFields d =
  (owner <- PublicKey_of_bytes ownerBytes ;;
   Ok (mkDomainInfo (Some owner) (TextDecoder_decode nameBytes)
         (inject_Z (Number_of_BigInt (to_signed 64 (le_value registered))))
         (inject_Z (Number_of_BigInt (to_signed 64 (le_value expires))))
         (negb (activeByte =? 0)) (TextDecoder_decode dataBytes) true None))%result.
Proof.
  intros Hc H8 H32 HnL HnV Hr He HdL HdV.
  set (N := Z.of_nat (List.length nameBytes)) in *.
  set (M := Z.of_nat (List.length dataBytes)) in *.
  assert (Hlen : data_length d = 65 + N + M).
  { unfold data_length. rewrite Hc, !length_app. cbn [List.length]. lia. }
  assert (N0 : 0 <= N) by (subst N; lia).
  assert (M0 : 0 <= M) by (subst M; lia).
  unfold decodeDomainFields. cbn zeta. cbn [slice contents].
  assert (R1 : slice_list (contents d) 8 (8 + 32) = ownerBytes).
  { rewrite Hc. apply read_field; lia. }
  rewrite R1.
  destruct (PublicKey_of_bytes ownerBytes) as [owner|err]; cbn [rbind]; [|reflexivity].
  unfold getUint32, getBigInt64.
  assert (R2 : slice_list (contents d) (8 + 32) (8 + 32 + 4) = nameLen).
  { rewrite Hc, (app_assoc discriminant). apply read_field; rewrite ?length_app; lia. }
  rewrite DataView_inside, R2 by lia. cbn [rbind]. rewrite HnV.
  assert (R3 : slice_list (contents d) (8 + 32 + 4) (8 + 32 + 4 + N) = nameBytes).
  { rewrite Hc, (app_assoc discriminant), (app_assoc _ nameLen).
    apply read_field; rewrite ?length_app; lia. }
  rewrite R3.
  assert (R4 : slice_list (contents d) (8 + 32 + 4 + N) (8 + 32 + 4 + N + 8) = registered).
  { rewrite Hc, (app_assoc discriminant), (app_assoc _ nameLen), (app_assoc _ nameBytes).
    apply read_field; rewrite ?length_app; lia. }
  rewrite DataView_inside, R4 by lia. cbn [rbind].
  assert (R5 : slice_list (contents d) (8 + 32 + 4 + N + 8) (8 + 32 + 4 + N + 8 + 8)
               = expires).
  { rewrite Hc, (app_assoc discriminant), (app_assoc _ nameLen), (app_assoc _ nameBytes),
      (app_assoc _ registered).
    apply read_field; rewrite ?length_app; lia. }
  rewrite DataView_inside, R5 by lia. cbn [rbind].
  assert (R6 : index d (8 + 32 + 4 + N + 8 + 8) = Some activeByte).
  { unfold index. destruct (Z.leb_spec 0 (8 + 32 + 4 + N + 8 + 8)); [|lia].
    rewrite Hc, (app_assoc discriminant), (app_assoc _ nameLen), (app_assoc _ nameBytes),
      (app_assoc _ registered), (app_assoc _ expires).
    apply read_byte; rewrite ?length_app; lia. }
  rewrite R6.
  assert (R7 : slice_list (contents d) (8 + 32 + 4 + N + 8 + 8 + 1)
                          (8 + 32 + 4 + N + 8 + 8 + 1 + 4) = dataLen).
  { rewrite Hc, (app_assoc discriminant), (app_assoc _ nameLen), (app_assoc _ nameBytes),
      (app_assoc _ registered), (app_assoc _ expires), (app_assoc _ [activeByte]).
    apply read_field; rewrite ?length_app; cbn [List.length]; lia. }
  rewrite DataView_inside, R7 by lia. cbn [rbind]. rewrite HdV.
  assert (R8 : slice_list (contents d) (8 + 32 + 4 + N + 8 + 8 + 1 + 4)
                          (8 + 32 + 4 + N + 8 + 8 + 1 + 4 + M) = dataBytes).
  { rewrite Hc, (app_assoc discriminant), (app_assoc _ nameLen), (app_assoc _ nameBytes),
      (app_assoc _ registered), (app_assoc _ expires), (app_assoc _ [activeByte]),
      (app_assoc _ dataLen).
    rewrite <- (app_nil_r dataBytes) at 1.
    apply read_field; rewrite ?length_app; cbn [List.length]; lia. }
  rewrite R8. reflexivity.
Qed.

(** ** Domain accounts: the synthetic buffer *)

(** C4, as the code has it.  For name bytes of length N <= 32 and metadata
    bytes of length M <= 128, a buffer laid out as 8 discriminant bytes, 32
    owner bytes, N on four little-endian bytes, the N name bytes, registeredAt
    and expiresAt as signed little-endian 64-bit values, the active byte, M on
    four little-endian bytes and the M metadata bytes decodes without error, in
    [getDomainInfo]'s walk and in [parseDomainAccount] alike: the owner is the
    key of the 32 owner bytes, the name is the decoding of exactly the N name
    bytes, the times are the two values, active is "byte non zero", the
    metadata is the decoding of exactly the M metadata bytes.  When the name
    (metadata) bytes are the UTF-8 encoding of a string with no unpaired
    surrogate and no leading U+FEFF, the decoded string is that string, so that
    its UTF-8 length is N (M). *)
Theorem decode_synthetic_domain_account
        (address : PublicKey) (d : Uint8Array)
        (discriminant ownerBytes nameBytes : Bytes)
        (registeredAt expiresAt activeByte : Z) (metadataBytes : Bytes) :
  contents d = domainAccountBytes discriminant ownerBytes nameBytes
                                  registeredAt expiresAt activeByte metadataBytes ->
  List.length discriminant = 8%nat ->
  List.length ownerBytes = 32%nat ->
  forallb is_byte ownerBytes = true ->
  (List.length nameBytes <= 32)%nat ->
  (List.length metadataBytes <= 128)%nat ->
  - 2 ^ 63 <= registeredAt < 2 ^ 63 ->
  - 2 ^ 63 <= expiresAt < 2 ^ 63 ->
  let ownerKey := mkPublicKey (Base58.be_value_from 0 256 ownerBytes) in
  let info := mkDomainInfo (Some ownerKey) (TextDecoder_decode nameBytes)
                (inject_Z (Number_of_BigInt registeredAt))
                (inject_Z (Number_of_BigInt expiresAt))
                (negb (activeByte =? 0)) (TextDecoder_decode metadataBytes)
                true None in
  decodeDomainFields d = Ok info /\
  parseDomainAccount address d = Some info /\
  toBuffer ownerKey = ownerBytes /\
  (forall name, well_formed name = true -> starts_with_bom name = false ->
                nameBytes = utf8 name ->
                d_name info = name /\
                List.length (utf8 (d_name info)) = List.length nameBytes) /\
  (forall text, well_formed text = true -> starts_with_bom text = false ->
                metadataBytes = utf8 text ->
                d_data info = text /\
                List.length (utf8 (d_data info)) = List.length metadataBytes).
Proof.
  intros Hc H8 H32 Hob HN HM Hreg Hexp ownerKey info.
  destruct (toBuffer_of_bytes ownerBytes H32 Hob) as [Hkey Hbuf].
  assert (Hdec : decodeDomainFields d = Ok info).
  { rewrite (decodeDomainFields_pieces d discriminant ownerBytes
               (le_bytes 4 (Z.of_nat (List.length nameBytes))) nameBytes
               (le_bytes 8 (registeredAt mod 2 ^ 64))
               (le_bytes 8 (expiresAt mod 2 ^ 64)) activeByte
               (le_bytes 4 (Z.of_nat (List.length metadataBytes))) metadataBytes);
      try (apply le_bytes_length); try assumption.
    - rewrite Hkey. cbn [rbind].
      rewrite !le_value_le_bytes, !to_signed_of_mod; try lia; try reflexivity;
        change (256 ^ Z.of_nat 8) with (2 ^ 64); apply Z.mod_pos_bound; lia.
    - apply le_value_le_bytes. change (256 ^ Z.of_nat 4) with 4294967296. lia.
    - apply le_value_le_bytes. change (256 ^ Z.of_nat 4) with 4294967296. lia. }
  split; [exact Hdec|].
  split; [unfold parseDomainAccount; now rewrite Hdec|].
  split; [exact Hbuf|].
  split; intros s Hw Hb ->; cbn [d_name d_data info];
    rewrite (TextDecoder_decode_utf8 s Hw Hb); auto.
Qed.

(** *** Runs on the sample data *)

(** Three name bytes EF BB BF (a byte order mark) decode to the empty name,
    and the single metadata byte FF decodes to U+FFFD, three bytes in UTF-8:
    neither string has the byte length announced in the buffer. *)
Lemma decode_name_length_counterexample :
  exists info,
    decodeDomainFields
      (Uint8Array_of (domainAccountBytes (repeat 0 8) (toBuffer Sample.alice)
                        [239; 187; 191] 1700000000 1731536000 1 [255])) = Ok info /\
    d_name info = [] /\
    List.length (utf8 (d_name info)) <> 3%nat /\
    d_data info = [65533] /\
    List.length (utf8 (d_data info)) <> 1%nat.
Proof.
  eexists. split; [vm_compute; reflexivity|].
  cbn [d_name d_data]. repeat split; cbn; discriminate.
Qed.

Lemma decode_synthetic_domain_account_witness :
  exists info,
    decodeDomainFields (Uint8Array_of (Sample.testAccountBytes 1)) = Ok info /\
    d_owner info = Some Sample.alice /\
    d_name info = js "test" /\
    List.length (utf8 (d_name info)) = 4%nat /\
    d_data info = js "hello".
Proof.
  destruct (@decode_synthetic_domain_account Sample.alice
              (Uint8Array_of (Sample.testAccountBytes 1))
              (repeat 9 8) (toBuffer Sample.alice) (utf8 (js "test"))
              1700000000 1731536000 1 (utf8 (js "hello")))
    as (Hd & _ & _ & Hn & Hm).
  - reflexivity.
  - reflexivity.
  - reflexivity.
  - reflexivity.
  - vm_compute. lia.
  - vm_compute. lia.
  - lia.
  - lia.
  - destruct (Hn (js "test") eq_refl eq_refl eq_refl) as [Hn1 Hn2].
    destruct (Hm (js "hello") eq_refl eq_refl eq_refl) as [Hm1 _].
    eexists. split; [exact Hd|]. cbn [d_owner].
    split; [reflexivity|]. split; [exact Hn1|]. split; [exact Hn2 | exact Hm1].
Defined.

(** * Further properties *)

(** ** The field walk: bounds, padding, truncation *)

(** What a [DataView] created at [data.byteOffset + off] sees: the array's own
    bytes followed by whatever the store holds after them. *)
Lemma DataView_view (d : Uint8Array) (off len : Z) :
  0 <= off -> 0 <= len ->
  DataView_bytes (buffer d) (byteOffset d + off) len
  = if Z.of_nat (List.length (contents d ++ after d)) <? off
    then Throw (RangeError ("Start offset " ++ decimal (byteOffset d + off)
                            ++ " is outside the bounds of the buffer"))
    else if Z.of_nat (List.length (contents d ++ after d)) <? off + len
    then Throw (RangeError ("Invalid DataView length " ++ decimal len))
    else Ok (slice_list (contents d ++ after d) off (off + len)).
Proof.
  intros Hoff Hlen. unfold DataView_bytes, buffer, byteOffset.
  rewrite length_app.
  destruct (Z.ltb_spec (Z.of_nat (List.length (before d)) + off) 0); [lia|].
  cbn [orb].
  destruct (Z.ltb_spec (Z.of_nat (List.length (contents d ++ after d))) off);
    destruct (Z.ltb_spec
                (Z.of_nat (List.length (before d)
                           + List.length (contents d ++ after d)))
                (Z.of_nat (List.length (before d)) + off)); try lia;
      [reflexivity|].
  destruct (Z.ltb_spec (Z.of_nat (List.length (contents d ++ after d))) (off + len));
    destruct (Z.ltb_spec
                (Z.of_nat (List.length (before d)
                           + List.length (contents d ++ after d)))
                (Z.of_nat (List.length (before d)) + off + len)); try lia;
      [reflexivity|].
  f_equal. unfold slice_list.
  replace (Z.of_nat (List.length (before d)) + off + len
           - (Z.of_nat (List.length (before d)) + off)) with (off + len - off) by lia.
  replace (Z.to_nat (Z.of_nat (List.length (before d)) + off))
    with (List.length (before d) + Z.to_nat off)%nat by lia.
  rewrite skipn_app, skipn_all2 by lia. cbn [app].
  replace (List.length (before d) + Z.to_nat off - List.length (before d))%nat
    with (Z.to_nat off) by lia.
  reflexivity.
Qed.

Lemma forallb_firstn_skipn {A} (f : A -> bool) (l : list A) (a b : nat) :
  forallb f l = true -> forallb f (firstn a (skipn b l)) = true.
Proof.
  intros H.
  rewrite <- (firstn_skipn b l), forallb_app in H.
  apply andb_true_iff in H as [_ H].
  rewrite <- (firstn_skipn a (skipn b l)), forallb_app in H.
  now apply andb_true_iff in H as [H _].
Qed.

Lemma slice_list_bytes (bs : Bytes) (s e : Z) :
  forallb is_byte bs = true -> forallb is_byte (slice_list bs s e) = true.
Proof. intros H. unfold slice_list. now apply forallb_firstn_skipn. Qed.

Lemma slice_list_length (bs : Bytes) (s e : Z) :
  (List.length (slice_list bs s e) <= Z.to_nat (e - s))%nat.
Proof. unfold slice_list. rewrite length_firstn. lia. Qed.

(** At most 32 bytes always make a key. *)
Lemma PublicKey_of_bytes_short (bs : Bytes) :
  forallb is_byte bs = true -> (List.length bs <= 32)%nat ->
  PublicKey_of_bytes bs = Ok (mkPublicKey (Base58.be_value_from 0 256 bs)).
Proof.
  intros Hb Hlen. unfold PublicKey_of_bytes.
  rewrite be_value_from_le_value.
  assert (Hr : forallb is_byte (rev bs) = true).
  { rewrite forallb_forall in *. intros x Hx. apply Hb. now apply in_rev. }
  pose proof (le_value_bound (rev bs) Hr) as [_ Hlt]. rewrite length_rev in Hlt.
  assert (256 ^ Z.of_nat (List.length bs) <= 2 ^ 256).
  { change (2 ^ 256) with (256 ^ 32). apply Z.pow_le_mono_r; lia. }
  destruct (Z.ltb_spec (le_value (rev bs)) (2 ^ 256)); [reflexivity | lia].
Qed.

(** X1. The walk succeeds exactly when the store reaches 65 bytes beyond the
    announced name length, counted from the start of the array: the bounds
    are those of the [ArrayBuffer], not of the array, and the announced
    metadata length is never checked.  Otherwise it throws the [RangeError]
    of the first [DataView] that does not fit: "Start offset ... is outside
    the bounds of the buffer", with the offset counted from the start of the
    store, when the store ends before the view starts, and "Invalid DataView
    length 4" or "... 8" when it ends inside the view. *)
Theorem decodeDomainFields_bounds (d : Uint8Array) :
  forallb is_byte (buffer d) = true ->
  let visible := contents d ++ after d in
  let size := Z.of_nat (List.length visible) in
  let nameLen := le_value (slice_list visible 40 44) in
  let outside (off : Z) :=
      RangeError ("Start offset " ++ decimal (byteOffset d + off)
                  ++ " is outside the bounds of the buffer") in
  let invalid (len : Z) := RangeError ("Invalid DataView length " ++ decimal len) in
  (65 + nameLen <= size -> exists info, decodeDomainFields d = Ok info) /\
  (size < 65 + nameLen ->
   decodeDomainFields d
   = Throw (if size <? 40 then outside 40
            else if size <? 44 then invalid 4
            else if size <? 44 + nameLen then outside (44 + nameLen)
            else if size <? 60 + nameLen then invalid 8
            else if size <? 61 + nameLen then outside (61 + nameLen)
            else invalid 4)).
Proof.
  intros Hb visible size nameLen outside invalid.
  assert (Hc : forallb is_byte (contents d) = true /\ forallb is_byte visible = true).
  { unfold buffer in Hb. rewrite !forallb_app in Hb.
    apply andb_true_iff in Hb as [_ Hb]. apply andb_true_iff in Hb as [H1 H2].
    split; [exact H1|]. subst visible. now rewrite forallb_app, H1, H2. }
  destruct Hc as [Hc Hv].
  assert (HN : 0 <= nameLen).
  { apply le_value_bound. now apply slice_list_bytes. }
  assert (Hkey : exists k, PublicKey_of_bytes (slice_list (contents d) 8 (8 + 32)) = Ok k).
  { eexists. apply PublicKey_of_bytes_short; [now apply slice_list_bytes|].
    pose proof (slice_list_length (contents d) 8 (8 + 32)). lia. }
  destruct Hkey as [k Hk].
  unfold decodeDomainFields. cbn zeta. cbn [slice contents]. rewrite Hk. cbn [rbind].
  unfold getUint32, getBigInt64.
  rewrite (DataView_view d (8 + 32) 4) by lia. fold visible. fold size.
  change (8 + 32 + 4) with 44. change (8 + 32) with 40.
  destruct (Z.ltb_spec size 40) as [H40|H40].
  { split; [lia | reflexivity]. }
  destruct (Z.ltb_spec size 44) as [H44|H44].
  { split; [lia | reflexivity]. }
  cbn [rbind]. fold nameLen.
  rewrite (DataView_view d (44 + nameLen) 8) by lia. fold visible. fold size.
  destruct (Z.ltb_spec size (44 + nameLen)) as [Hn|Hn].
  { split; [lia | reflexivity]. }
  destruct (Z.ltb_spec size (44 + nameLen + 8)) as [Hr|Hr].
  { destruct (Z.ltb_spec size (60 + nameLen)); [|lia]. split; [lia | reflexivity]. }
  cbn [rbind].
  rewrite (DataView_view d (44 + nameLen + 8) 8) by lia. fold visible. fold size.
  destruct (Z.ltb_spec size (44 + nameLen + 8)) as [He0|He0]; [lia|].
  destruct (Z.ltb_spec size (44 + nameLen + 8 + 8)) as [He|He].
  { destruct (Z.ltb_spec size (60 + nameLen)); [|lia]. split; [lia | reflexivity]. }
  destruct (Z.ltb_spec size (60 + nameLen)); [lia|].
  cbn [rbind].
  rewrite (DataView_view d (44 + nameLen + 8 + 8 + 1) 4) by lia. fold visible. fold size.
  replace (44 + nameLen + 8 + 8 + 1) with (61 + nameLen) by lia.
  destruct (Z.ltb_spec size (61 + nameLen)) as [Hm|Hm].
  { split; [lia | reflexivity]. }
  destruct (Z.ltb_spec size (61 + nameLen + 4)) as [Hl|Hl].
  { split; [lia | reflexivity]. }
  cbn [rbind]. split; [intros _; eexists; reflexivity | lia].
Qed.

Lemma read_tail (pre tail : Bytes) (s m : Z) :
  s = Z.of_nat (List.length pre) -> 0 <= m ->
  slice_list (pre ++ tail) s (s + m) = firstn (Z.to_nat m) tail.
Proof.
  intros -> Hm. unfold slice_list. rewrite Nat2Z.id.
  replace (Z.of_nat (List.length pre) + m - Z.of_nat (List.length pre)) with m by lia.
  rewrite skipn_app, skipn_all, Nat.sub_diag. reflexivity.
Qed.

(** The walk on a buffer that starts with the eight pieces up to the metadata
    length, whatever follows: the metadata is the decoding of as many of the
    following bytes as announced, or of all of them when there are fewer. *)
Lemma decodeDomainFields_walk
      (d : Uint8Array)
      (discriminant ownerBytes nameLen nameBytes registered expires : Bytes)
      (activeByte : Z) (dataLen tail : Bytes) :
  contents d = discriminant ++ ownerBytes ++ nameLen ++ nameBytes ++ registered
               ++ expires ++ [activeByte] ++ dataLen ++ tail ->
  List.length discriminant = 8%nat ->
  List.length ownerBytes = 32%nat ->
  List.length nameLen = 4%nat ->
  le_value nameLen = Z.of_nat (List.length nameBytes) ->
  List.length registered = 8%nat ->
  List.length expires = 8%nat ->
  List.length dataLen = 4%nat ->
  0 <= le_value dataLen ->
  decodeDomainFields d =
  (owner <- PublicKey_of_bytes ownerBytes ;;
   Ok (mkDomainInfo (Some owner) (TextDecoder_decode nameBytes)
         (inject_Z (Number_of_BigInt (to_signed 64 (le_value registered))))
         (inject_Z (Number_of_BigInt (to_signed 64 (le_value expires))))
         (negb (activeByte =? 0))
         (TextDecoder_decode (firstn (Z.to_nat (le_value dataLen)) tail))
         true None))%result.
Proof.
  intros Hc H8 H32 HnL HnV Hr He HdL HdV.
  set (N := Z.of_nat (List.length nameBytes)) in *.
  assert (Hlen : data_length d = 65 + N + Z.of_nat (List.length tail)).
  { unfold data_length. rewrite Hc, !length_app. cbn [List.length]. lia. }
  assert (N0 : 0 <= N) by (subst N; lia).
  unfold decodeDomainFields. cbn zeta. cbn [slice contents].
  assert (R1 : slice_list (contents d) 8 (8 + 32) = ownerBytes).
  { rewrite Hc. apply read_field; lia. }
  rewrite R1.
  destruct (PublicKey_of_bytes ownerBytes) as [owner|err]; cbn [rbind]; [|reflexivity].
  unfold getUint32, getBigInt64.
  assert (R2 : slice_list (contents d) (8 + 32) (8 + 32 + 4) = nameLen).
  { rewrite Hc, (app_assoc discriminant). apply read_field; rewrite ?length_app; lia. }
  rewrite DataView_inside, R2 by lia. cbn [rbind]. rewrite HnV.
  assert (R3 : slice_list (contents d) (8 + 32 + 4) (8 + 32 + 4 + N) = nameBytes).
  { rewrite Hc, (app_assoc discriminant), (app_assoc _ nameLen).
    apply read_field; rewrite ?length_app; lia. }
  rewrite R3.
  assert (R4 : slice_list (contents d) (8 + 32 + 4 + N) (8 + 32 + 4 + N + 8) = registered).
  { rewrite Hc, (app_assoc discriminant), (app_assoc _ nameLen), (app_assoc _ nameBytes).
    apply read_field; rewrite ?length_app; lia. }
  rewrite DataView_inside, R4 by lia. cbn [rbind].
  assert (R5 : slice_list (contents d) (8 + 32 + 4 + N + 8) (8 + 32 + 4 + N + 8 + 8)
               = expires).
  { rewrite Hc, (app_assoc discriminant), (app_assoc _ nameLen), (app_assoc _ nameBytes),
      (app_assoc _ registered).
    apply read_field; rewrite ?length_app; lia. }
  rewrite DataView_inside, R5 by lia. cbn [rbind].
  assert (R6 : index d (8 + 32 + 4 + N + 8 + 8) = Some activeByte).
  { unfold index. destruct (Z.leb_spec 0 (8 + 32 + 4 + N + 8 + 8)); [|lia].
    rewrite Hc, (app_assoc discriminant), (app_assoc _ nameLen), (app_assoc _ nameBytes),
      (app_assoc _ registered), (app_assoc _ expires).
    apply read_byte; rewrite ?length_app; lia. }
  rewrite R6.
  assert (R7 : slice_list (contents d) (8 + 32 + 4 + N + 8 + 8 + 1)
                          (8 + 32 + 4 + N + 8 + 8 + 1 + 4) = dataLen).
  { rewrite Hc, (app_assoc discriminant), (app_assoc _ nameLen), (app_assoc _ nameBytes),
      (app_assoc _ registered), (app_assoc _ expires), (app_assoc _ [activeByte]).
    apply read_field; rewrite ?length_app; cbn [List.length]; lia. }
  rewrite DataView_inside, R7 by lia. cbn [rbind].
  assert (R8 : slice_list (contents d) (8 + 32 + 4 + N + 8 + 8 + 1 + 4)
                          (8 + 32 + 4 + N + 8 + 8 + 1 + 4 + le_value dataLen)
               = firstn (Z.to_nat (le_value dataLen)) tail).
  { rewrite Hc, (app_assoc discriminant), (app_assoc _ nameLen), (app_assoc _ nameBytes),
      (app_assoc _ registered), (app_assoc _ expires), (app_assoc _ [activeByte]),
      (app_assoc _ dataLen).
    apply read_tail; [rewrite ?length_app; cbn [List.length]; lia | exact HdV]. }
  rewrite R8. reflexivity.
Qed.

Lemma decodeDomainFields_layout
      (d : Uint8Array) (discriminant ownerBytes nameBytes : Bytes)
      (registeredAt expiresAt activeByte announced : Z) (tail : Bytes) :
  contents d = discriminant ++ ownerBytes ++
               le_bytes 4 (Z.of_nat (List.length nameBytes)) ++ nameBytes ++
               le_bytes 8 (registeredAt mod 2 ^ 64) ++
               le_bytes 8 (expiresAt mod 2 ^ 64) ++
               [activeByte] ++ le_bytes 4 announced ++ tail ->
  List.length discriminant = 8%nat ->
  List.length ownerBytes = 32%nat ->
  forallb is_byte ownerBytes = true ->
  Z.of_nat (List.length nameBytes) < 2 ^ 32 ->
  0 <= announced < 2 ^ 32 ->
  - 2 ^ 63 <= registeredAt < 2 ^ 63 ->
  - 2 ^ 63 <= expiresAt < 2 ^ 63 ->
  decodeDomainFields d
  = Ok (decodedAccount ownerBytes nameBytes registeredAt expiresAt activeByte
                       (firstn (Z.to_nat announced) tail)).
Proof.
  intros Hc H8 H32 Hob HN HM Hreg Hexp.
  destruct (toBuffer_of_bytes ownerBytes H32 Hob) as [Hkey _].
  assert (E4 : forall n, 0 <= n < 2 ^ 32 -> le_value (le_bytes 4 n) = n).
  { intros n Hn. apply le_value_le_bytes. change (256 ^ Z.of_nat 4) with (2 ^ 32). lia. }
  assert (E8 : forall v, - 2 ^ 63 <= v < 2 ^ 63 ->
                         to_signed 64 (le_value (le_bytes 8 (v mod 2 ^ 64))) = v).
  { intros v Hv. rewrite le_value_le_bytes, to_signed_of_mod; try lia.
    change (256 ^ Z.of_nat 8) with (2 ^ 64). apply Z.mod_pos_bound. lia. }
  rewrite (decodeDomainFields_walk d discriminant ownerBytes
             (le_bytes 4 (Z.of_nat (List.length nameBytes))) nameBytes
             (le_bytes 8 (registeredAt mod 2 ^ 64))
             (le_bytes 8 (expiresAt mod 2 ^ 64)) activeByte
             (le_bytes 4 announced) tail);
    try (apply le_bytes_length); try assumption.
  - rewrite Hkey. cbn [rbind]. rewrite !E8, E4 by lia. reflexivity.
  - apply E4. lia.
  - rewrite E4; lia.
Qed.

(** X2. Bytes after the metadata change nothing: an account that carries the
    laid-out fields followed by any padding (on chain, zeros up to the reserved
    size) decodes to the very record of the fields, for names and metadata of
    any length below 2^32. *)
Theorem decode_padded_account
        (d : Uint8Array) (discriminant ownerBytes nameBytes : Bytes)
        (registeredAt expiresAt activeByte : Z) (metadataBytes padding : Bytes) :
  contents d = domainAccountBytes discriminant ownerBytes nameBytes
                                  registeredAt expiresAt activeByte metadataBytes
               ++ padding ->
  List.length discriminant = 8%nat ->
  List.length ownerBytes = 32%nat ->
  forallb is_byte ownerBytes = true ->
  Z.of_nat (List.length nameBytes) < 2 ^ 32 ->
  Z.of_nat (List.length metadataBytes) < 2 ^ 32 ->
  - 2 ^ 63 <= registeredAt < 2 ^ 63 ->
  - 2 ^ 63 <= expiresAt < 2 ^ 63 ->
  decodeDomainFields d
  = Ok (decodedAccount ownerBytes nameBytes registeredAt expiresAt activeByte
                       metadataBytes).
Proof.
  intros Hc H8 H32 Hob HN HM Hreg Hexp.
  rewrite (decodeDomainFields_layout d discriminant ownerBytes nameBytes
             registeredAt expiresAt activeByte
             (Z.of_nat (List.length metadataBytes)) (metadataBytes ++ padding));
    try assumption; try lia.
  - rewrite Nat2Z.id, firstn_app, firstn_all, Nat.sub_diag. cbn [firstn].
    now rewrite app_nil_r.
  - rewrite Hc. unfold domainAccountBytes. now rewrite <- !app_assoc.
Qed.

(** X3. A buffer that ends before the announced metadata length is no error:
    the walk returns the record with the metadata cut to the bytes present. *)
Theorem decode_truncated_metadata
        (d : Uint8Array) (discriminant ownerBytes nameBytes : Bytes)
        (registeredAt expiresAt activeByte announced : Z) (present : Bytes) :
  contents d = discriminant ++ ownerBytes ++
               le_bytes 4 (Z.of_nat (List.length nameBytes)) ++ nameBytes ++
               le_bytes 8 (registeredAt mod 2 ^ 64) ++
               le_bytes 8 (expiresAt mod 2 ^ 64) ++
               [activeByte] ++ le_bytes 4 announced ++ present ->
  List.length discriminant = 8%nat ->
  List.length ownerBytes = 32%nat ->
  forallb is_byte ownerBytes = true ->
  Z.of_nat (List.length nameBytes) < 2 ^ 32 ->
  Z.of_nat (List.length present) <= announced < 2 ^ 32 ->
  - 2 ^ 63 <= registeredAt < 2 ^ 63 ->
  - 2 ^ 63 <= expiresAt < 2 ^ 63 ->
  decodeDomainFields d
  = Ok (decodedAccount ownerBytes nameBytes registeredAt expiresAt activeByte present)
  /\ parseDomainAccount (mkPublicKey 0) d
     = Some (decodedAccount ownerBytes nameBytes registeredAt expiresAt activeByte present).
Proof.
  intros Hc H8 H32 Hob HN HM Hreg Hexp.
  assert (E : decodeDomainFields d
              = Ok (decodedAccount ownerBytes nameBytes registeredAt expiresAt
                                   activeByte present)).
  { rewrite (decodeDomainFields_layout d discriminant ownerBytes nameBytes
               registeredAt expiresAt activeByte announced present);
      try assumption; try lia.
    rewrite firstn_all2 by lia. reflexivity. }
  split; [exact E|]. unfold parseDomainAccount. now rewrite E.
Qed.

(** ** Builders, suffixes, availability and resolution together *)

Lemma Qltb_seconds (seconds ms : Z) :
  Qltb (inject_Z seconds) (inject_Z ms / inject_Z 1000) = (1000 * seconds <? ms).
Proof.
  unfold Qltb, Qle_bool, Qdiv, Qmult, Qinv, inject_Z. cbn [Qnum Qden].
  destruct (Z.leb_spec (ms * 1 * 1) (seconds * Zpos (1 * 1000)));
    destruct (Z.ltb_spec (1000 * seconds) ms); cbn [negb]; try reflexivity; lia.
Qed.

Section MoreServiceFacts.

Context {env : Environment}.

(** X4. Each transaction builder is its stand-alone ("legacy") instruction
    builder followed by the blockhash fetch: it fails with the error of the
    instruction builder or of the fetch, unchanged, and otherwise returns a
    transaction paid by the owner that holds exactly that instruction; the
    world is left as it was. *)
Theorem transactions_wrap_legacy_instructions
        (name : JSString) (owner newOwner : PublicKey) (text : JSString)
        (treasuryWalletParam : option JSString) (w : World) :
  let wrap (r : Result TransactionInstruction) : Result Transaction * World :=
      match r with
      | Throw e => (Throw e, w)
      | Ok ix =>
        match getLatestBlockhash (connection w) with
        | Ok blockhash => (Ok (mkTransaction (Some owner) [ix] (Some blockhash)), w)
        | Throw e => (Throw e, w)
        end
      end in
  createRegisterTransaction name owner treasuryWalletParam w
  = wrap (createRegisterInstruction name owner treasuryWalletParam) /\
  createRenewTransaction name owner treasuryWalletParam w
  = wrap (createRenewInstruction name owner treasuryWalletParam) /\
  createTransferTransaction name owner newOwner w
  = wrap (createTransferInstruction name owner newOwner) /\
  createSetDataTransaction name owner text w
  = wrap (createSetDataInstruction name owner text).
Proof.
  intros wrap. subst wrap.
  unfold createRegisterTransaction, createRegisterInstruction,
    createRenewTransaction, createRenewInstruction,
    createTransferTransaction, createTransferInstruction,
    createSetDataTransaction, createSetDataInstruction.
  run_M.
  destruct (getDomainPDA name) as [[domainPDA bump]|e]; cbn [fst].
  2:{ repeat split. }
  destruct (getLatestBlockhash (connection w)) as [blockhash|e'].
  - repeat split;
      destruct (treasuryKey treasuryWalletParam);
      try destruct (writeUInt32LE (Z.of_nat (List.length (utf8 name))));
      try destruct (writeUInt32LE (Z.of_nat (List.length (utf8 text))));
      reflexivity.
  - repeat split;
      destruct (treasuryKey treasuryWalletParam);
      try destruct (writeUInt32LE (Z.of_nat (List.length (utf8 name))));
      try destruct (writeUInt32LE (Z.of_nat (List.length (utf8 text))));
      reflexivity.
Qed.

Lemma strip_carv_bare (name : JSString) :
  ends_with (js ".carv") name = false -> strip_carv name = name.
Proof. intros H. unfold strip_carv. now rewrite H. Qed.

(** X5. For a name that does not itself end in ".carv", writing the suffix or
    not makes no difference to [checkDomainAvailability] and [resolveDomain]:
    same answer, same effects. *)
Theorem carv_suffix_is_optional (base : JSString) (w : World) :
  ends_with (js ".carv") base = false ->
  checkDomainAvailability (base ++ js ".carv") w = checkDomainAvailability base w /\
  resolveDomain (base ++ js ".carv") w = resolveDomain base w.
Proof.
  intros H. unfold checkDomainAvailability, resolveDomain.
  rewrite strip_carv_app, (strip_carv_bare base H). split; reflexivity.
Qed.

(** X6. For a name that does not end in ".carv", the availability check
    fetches exactly the account the register transaction names first. *)
Theorem availability_matches_registration
        (name : JSString) (owner : PublicKey) (treasuryWalletParam : option JSString)
        (w : World) (domainPDA : PublicKey) (bump slot : Z)
        (treasury : PublicKey) (blockhash : JSString) :
  ends_with (js ".carv") name = false ->
  getDomainPDA name = Ok (domainPDA, bump) ->
  getSlot (connection w) = Ok slot ->
  treasuryKey treasuryWalletParam = Ok treasury ->
  getLatestBlockhash (connection w) = Ok blockhash ->
  Z.of_nat (List.length (utf8 name)) < 2 ^ 32 ->
  fetched (snd (checkDomainAvailability name w)) = fetched w ++ [domainPDA] /\
  exists tx,
    createRegisterTransaction name owner treasuryWalletParam w = (Ok tx, w) /\
    map (fun ix => map pubkey (firstn 1 (keys ix))) (instructions tx) = [[domainPDA]].
Proof.
  intros Hbare Hpda Hslot Htr Hbh Hlen. split.
  - apply (checkDomainAvailability_fetch name w domainPDA bump slot); [|exact Hslot].
    now rewrite (strip_carv_bare name Hbare).
  - eexists. split.
    + exact (createRegisterTransaction_run name owner treasuryWalletParam w
               domainPDA bump treasury blockhash Hpda Htr Hbh Hlen).
    + reflexivity.
Qed.

Lemma checkDomainAvailability_value (name : JSString) (w : World) :
  fst (checkDomainAvailability name w)
  = Ok match getDomainPDA (strip_carv name) with
       | Ok (domainPDA, _) =>
         match getSlot (connection w), getAccountInfo (connection w) domainPDA with
         | Ok _, Ok None => true
         | _, _ => false
         end
       | Throw _ => false
       end.
Proof.
  unfold checkDomainAvailability. run_M.
  destruct (getDomainPDA (strip_carv name)) as [[domainPDA bump]|e]; [|reflexivity].
  cbn [fst]. destruct (getSlot (connection w)) as [slot|e]; [|reflexivity].
  destruct (getAccountInfo (connection w) domainPDA) as [[a|]|e]; try reflexivity.
  destruct (negb (PublicKey_equals (account_owner a) CARV_DOMAIN_PROGRAM_ID));
    reflexivity.
Qed.

(** When [resolveDomain] returns an owner, the fetch at the derived address
    returned an account. *)
Lemma resolveDomain_needs_account (name : JSString) (w : World) (owner : PublicKey) :
  fst (resolveDomain name w) = Ok (Some owner) ->
  exists domainPDA bump a,
    getDomainPDA (strip_carv name) = Ok (domainPDA, bump) /\
    getAccountInfo (connection w) domainPDA = Ok (Some a).
Proof.
  unfold resolveDomain. run_M. rewrite getDomainInfo_run.
  destruct (getDomainPDA (strip_carv name)) as [[domainPDA bump]|e] eqn:Hpda;
    [|cbn; discriminate].
  destruct (getAccountInfo (connection w) domainPDA) as [[a|]|e] eqn:Hacc;
    try (cbn; discriminate).
  intros _. exists domainPDA, bump, a. auto.
Qed.

(** X7. In one and the same world, a name reported available has no record
    and does not resolve, and a name that resolves is reported taken. *)
Theorem available_names_do_not_resolve (name : JSString) (w : World) :
  (fst (checkDomainAvailability name w) = Ok true ->
   fst (getDomainInfo (strip_carv name) w) = Ok None /\
   fst (resolveDomain name w) = Ok None) /\
  (forall owner, fst (resolveDomain name w) = Ok (Some owner) ->
                 fst (checkDomainAvailability name w) = Ok false).
Proof.
  split.
  - rewrite checkDomainAvailability_value. intros H.
    unfold resolveDomain. run_M. rewrite getDomainInfo_run.
    destruct (getDomainPDA (strip_carv name)) as [[domainPDA bump]|e];
      [|discriminate].
    destruct (getSlot (connection w)) as [slot|e]; [|discriminate].
    destruct (getAccountInfo (connection w) domainPDA) as [[a|]|e];
      try discriminate.
    split; reflexivity.
  - intros owner H.
    destruct (resolveDomain_needs_account name w owner H)
      as (domainPDA & bump & a & Hpda & Hacc).
    rewrite checkDomainAvailability_value, Hpda, Hacc.
    destruct (getSlot (connection w)); reflexivity.
Qed.

End MoreServiceFacts.

Section RoundTrips.

Context {env : Environment}.

(** X8. Resolution of a stored account.  When the account at the derived
    address carries laid-out fields (then any padding), [resolveDomain] returns
    the key of the 32 owner bytes if the active byte is non zero and the clock,
    in milliseconds, has not passed 1000 times the stored expiry; otherwise it
    returns absent. *)
Theorem resolve_stored_account
        (name : JSString) (w : World) (domainPDA : PublicKey) (bump : Z)
        (a : AccountInfo) (discriminant ownerBytes nameBytes : Bytes)
        (registeredAt expiresAt activeByte : Z) (metadataBytes padding : Bytes) :
  getDomainPDA (strip_carv name) = Ok (domainPDA, bump) ->
  getAccountInfo (connection w) domainPDA = Ok (Some a) ->
  contents (account_data a)
  = domainAccountBytes discriminant ownerBytes nameBytes
                       registeredAt expiresAt activeByte metadataBytes ++ padding ->
  List.length discriminant = 8%nat ->
  List.length ownerBytes = 32%nat ->
  forallb is_byte ownerBytes = true ->
  Z.of_nat (List.length nameBytes) < 2 ^ 32 ->
  Z.of_nat (List.length metadataBytes) < 2 ^ 32 ->
  - 2 ^ 63 <= registeredAt < 2 ^ 63 ->
  - 2 ^ 63 <= expiresAt < 2 ^ 63 ->
  fst (resolveDomain name w)
  = Ok (if negb (activeByte =? 0)
           && (clock w (reads w) <=? 1000 * Number_of_BigInt expiresAt)
        then Some (mkPublicKey (Base58.be_value_from 0 256 ownerBytes))
        else None).
Proof.
  intros Hpda Hacc Hc H8 H32 Hob HN HM Hreg Hexp.
  assert (Hdec : decodeDomainFields (account_data a)
                 = Ok (decodedAccount ownerBytes nameBytes registeredAt expiresAt
                                      activeByte metadataBytes)).
  { rewrite (decodeDomainFields_layout (account_data a) discriminant ownerBytes
               nameBytes registeredAt expiresAt activeByte
               (Z.of_nat (List.length metadataBytes)) (metadataBytes ++ padding));
      try assumption; try lia.
    - rewrite Nat2Z.id, firstn_app, firstn_all, Nat.sub_diag. cbn [firstn].
      now rewrite app_nil_r.
    - rewrite Hc. unfold domainAccountBytes. now rewrite <- !app_assoc. }
  unfold resolveDomain. run_M.
  rewrite getDomainInfo_run, Hpda, Hacc, Hdec.
  unfold decodedAccount. cbn [d_exists d_active d_expires d_owner negb].
  destruct (negb (activeByte =? 0)); cbn [negb andb]; [|reflexivity].
  unfold Date_now. cbn [clock reads]. rewrite Qltb_seconds.
  destruct (Z.ltb_spec (1000 * Number_of_BigInt expiresAt) (clock w (reads w)));
    destruct (Z.leb_spec (clock w (reads w)) (1000 * Number_of_BigInt expiresAt));
    try lia; reflexivity.
Qed.

Lemma lengthPrefix_inv (n : Z) (bs : Bytes) :
  writeUInt32LE n = Ok bs -> 0 <= n < 2 ^ 32 /\ bs = le_bytes 4 n.
Proof.
  unfold writeUInt32LE.
  destruct (Z.leb_spec 0 n); destruct (Z.ltb_spec n (2 ^ 32)); cbn [andb];
    try discriminate.
  intros E. injection E as <-. split; [lia | reflexivity].
Qed.

Lemma createRegisterTransaction_data
      (name : JSString) (owner : PublicKey) (treasuryWalletParam : option JSString)
      (w w' : World) (tx : Transaction) :
  createRegisterTransaction name owner treasuryWalletParam w = (Ok tx, w') ->
  Z.of_nat (List.length (utf8 name)) < 2 ^ 32 /\
  map data (instructions tx)
  = [[211; 124; 67; 15; 211; 194; 178; 240]
       ++ le_bytes 4 (Z.of_nat (List.length (utf8 name))) ++ utf8 name].
Proof.
  unfold createRegisterTransaction. run_M.
  destruct (getDomainPDA name) as [[domainPDA bump]|e]; [|discriminate].
  destruct (treasuryKey treasuryWalletParam) as [treasury|e]; [|discriminate].
  destruct (writeUInt32LE (Z.of_nat (List.length (utf8 name)))) as [len|e] eqn:Hw;
    [|discriminate].
  destruct (getLatestBlockhash (connection w)) as [blockhash|e]; [|discriminate].
  intros H. injection H as <- _.
  destruct (lengthPrefix_inv _ _ Hw) as [Hn ->]. split; [lia | reflexivity].
Qed.

Lemma createSetDataTransaction_data
      (name : JSString) (owner : PublicKey) (text : JSString)
      (w w' : World) (tx : Transaction) :
  createSetDataTransaction name owner text w = (Ok tx, w') ->
  Z.of_nat (List.length (utf8 text)) < 2 ^ 32 /\
  map data (instructions tx)
  = [[223; 114; 91; 136; 197; 78; 153; 153]
       ++ le_bytes 4 (Z.of_nat (List.length (utf8 text))) ++ utf8 text].
Proof.
  unfold createSetDataTransaction. run_M.
  destruct (getDomainPDA name) as [[domainPDA bump]|e]; [|discriminate].
  destruct (writeUInt32LE (Z.of_nat (List.length (utf8 text)))) as [len|e] eqn:Hw;
    [|discriminate].
  destruct (getLatestBlockhash (connection w)) as [blockhash|e]; [|discriminate].
  intros H. injection H as <- _.
  destruct (lengthPrefix_inv _ _ Hw) as [Hn ->]. split; [lia | reflexivity].
Qed.

(** X9. What the builders encode, the decoder reads back.  Take the argument
    bytes of a register instruction (its data without the 8-byte
    discriminator) as the name field of an account and those of a set_data
    instruction as its metadata field: the field walk returns the name and the
    text the two transactions were built from, provided neither string has an
    unpaired surrogate or begins with U+FEFF. *)
Theorem stored_strings_round_trip
        (name text : JSString) (owner : PublicKey)
        (treasuryWalletParam : option JSString) (w w1 w2 : World)
        (registerTx setDataTx : Transaction) (registerData setData : Bytes)
        (d : Uint8Array) (discriminant ownerBytes : Bytes)
        (registeredAt expiresAt activeByte : Z) (padding : Bytes) :
  well_formed name = true -> starts_with_bom name = false ->
  well_formed text = true -> starts_with_bom text = false ->
  createRegisterTransaction name owner treasuryWalletParam w = (Ok registerTx, w1) ->
  createSetDataTransaction name owner text w = (Ok setDataTx, w2) ->
  map data (instructions registerTx) = [registerData] ->
  map data (instructions setDataTx) = [setData] ->
  contents d = discriminant ++ ownerBytes ++ skipn 8 registerData ++
               le_bytes 8 (registeredAt mod 2 ^ 64) ++
               le_bytes 8 (expiresAt mod 2 ^ 64) ++
               [activeByte] ++ skipn 8 setData ++ padding ->
  List.length discriminant = 8%nat ->
  List.length ownerBytes = 32%nat ->
  forallb is_byte ownerBytes = true ->
  - 2 ^ 63 <= registeredAt < 2 ^ 63 ->
  - 2 ^ 63 <= expiresAt < 2 ^ 63 ->
  exists info,
    decodeDomainFields d = Ok info /\
    d_name info = name /\ d_data info = text /\
    d_owner info = Some (mkPublicKey (Base58.be_value_from 0 256 ownerBytes)).
Proof.
  intros Hwn Hbn Hwt Hbt Hreg Hset Hrd Hsd Hc H8 H32 Hob Hra Hea.
  destruct (createRegisterTransaction_data _ _ _ _ _ _ Hreg) as [Hn Hrd'].
  destruct (createSetDataTransaction_data _ _ _ _ _ _ Hset) as [Ht Hsd'].
  rewrite Hrd in Hrd'. injection Hrd' as ->.
  rewrite Hsd in Hsd'. injection Hsd' as ->.
  cbn [skipn app] in Hc.
  exists (decodedAccount ownerBytes (utf8 name) registeredAt expiresAt activeByte
                         (utf8 text)).
  split.
  - rewrite (decodeDomainFields_layout d discriminant ownerBytes (utf8 name)
               registeredAt expiresAt activeByte
               (Z.of_nat (List.length (utf8 text))) (utf8 text ++ padding));
      try assumption; try lia.
    rewrite Nat2Z.id, firstn_app, firstn_all, Nat.sub_diag. cbn [firstn].
    now rewrite app_nil_r.
  - unfold decodedAccount. cbn [d_name d_data d_owner].
    rewrite (TextDecoder_decode_utf8 name Hwn Hbn),
      (TextDecoder_decode_utf8 text Hwt Hbt). auto.
Qed.

End RoundTrips.

(** ** Listing the domains of an owner *)

Lemma le_bytes_bytes (k : nat) (n : Z) : forallb is_byte (le_bytes k n) = true.
Proof.
  revert n; induction k as [|k IH]; intros n; [reflexivity|].
  cbn [le_bytes forallb]. rewrite IH, andb_true_r. unfold is_byte.
  pose proof (Z.mod_pos_bound n 256 ltac:(lia)).
  destruct (Z.leb_spec 0 (n mod 256)); destruct (Z.ltb_spec (n mod 256) 256);
    try lia; reflexivity.
Qed.

(** The 32 bytes of a key are bytes, and they carry the key's number. *)
Lemma toBuffer_value (k : PublicKey) :
  0 <= bn k < 2 ^ 256 ->
  forallb is_byte (toBuffer k) = true /\
  Base58.be_value_from 0 256 (toBuffer k) = bn k.
Proof.
  intros Hk. unfold toBuffer, be_bytes. split.
  - rewrite forallb_forall. intros x Hx. apply in_rev in Hx.
    pose proof (le_bytes_bytes 32 (bn k)) as H. rewrite forallb_forall in H. auto.
  - rewrite be_value_from_rev. apply le_value_le_bytes.
    change (256 ^ Z.of_nat 32) with (2 ^ 256). exact Hk.
Qed.

Section ListingFacts.

Context {env : Environment}.

Lemma listOne_app (owner : PublicKey) (domains : list OwnedDomain)
      (account : KeyedAccount) :
  listOne owner domains account = domains ++ listed owner account.
Proof.
  unfold listed, listOne.
  destruct (parseDomainAccount _ _) as [info|]; [|now rewrite app_nil_r].
  destruct (d_owner info) as [o|]; [|now rewrite app_nil_r].
  destruct (PublicKey_equals o owner); [reflexivity | now rewrite app_nil_r].
Qed.

Lemma fold_listOne (owner : PublicKey) (accounts : list KeyedAccount) :
  forall domains,
    fold_left (listOne owner) accounts domains
    = domains ++ flat_map (listed owner) accounts.
Proof.
  induction accounts as [|account accounts IH]; intros domains; cbn [fold_left flat_map].
  - now rewrite app_nil_r.
  - rewrite IH, listOne_app, app_assoc. reflexivity.
Qed.

Lemma listed_spec (owner : PublicKey) (account : KeyedAccount) (e : OwnedDomain) :
  In e (listed owner account) <->
  exists info o,
    decodeDomainFields (account_data (keyed_account account)) = Ok info /\
    d_owner info = Some o /\ bn o = bn owner /\
    e = mkOwned (toBase58 (keyed_pubkey account)) info.
Proof.
  unfold listed, listOne, parseDomainAccount.
  destruct (decodeDomainFields (account_data (keyed_account account))) as [info|err].
  - destruct (d_owner info) as [o|] eqn:Ho.
    + unfold PublicKey_equals. destruct (Z.eqb_spec (bn o) (bn owner)) as [E|E].
      * cbn [app In]. split.
        -- intros [<-|[]]. exists info, o. auto.
        -- intros (i & o' & Hi & _ & _ & ->). injection Hi as <-. auto.
      * cbn [In]. split; [tauto|].
        intros (i & o' & Hi & Ho' & Hbn & _). injection Hi as <-.
        rewrite Ho in Ho'. injection Ho' as <-. contradiction.
    + cbn [In]. split; [tauto|].
      intros (i & o' & Hi & Ho' & _). injection Hi as <-. congruence.
  - cbn [In]. split; [tauto|]. intros (i & o' & Hi & _). discriminate.
Qed.

Lemma listed_length (owner : PublicKey) (account : KeyedAccount) :
  (List.length (listed owner account) <= 1)%nat.
Proof.
  unfold listed, listOne.
  destruct (parseDomainAccount _ _) as [info|]; [|cbn; lia].
  destruct (d_owner info) as [o|]; [|cbn; lia].
  destruct (PublicKey_equals o owner); cbn; lia.
Qed.

(** X10. [getDomainsByOwner] asks the node for the program's accounts with the
    owner's base58 text at offset 8 and returns nothing when the call fails.
    Of what the node returns, filter honoured or not, it lists exactly the
    accounts whose field walk succeeds and whose decoded owner is the requested
    key, each with the account address in base58, at most one entry per
    account. *)
Theorem getDomainsByOwner_lists_exactly
        (getProgramAccounts : GetProgramAccounts) (owner : PublicKey) :
  let query := getProgramAccounts CARV_DOMAIN_PROGRAM_ID [mkMemcmp 8 (toBase58 owner)] in
  (forall err, query = Throw err ->
               getDomainsByOwner getProgramAccounts owner = []) /\
  (forall accounts, query = Ok accounts ->
     (List.length (getDomainsByOwner getProgramAccounts owner)
      <= List.length accounts)%nat /\
     forall e,
       In e (getDomainsByOwner getProgramAccounts owner) <->
       exists account info o,
         In account accounts /\
         decodeDomainFields (account_data (keyed_account account)) = Ok info /\
         d_owner info = Some o /\ bn o = bn owner /\
         e = mkOwned (toBase58 (keyed_pubkey account)) info).
Proof.
  intros query. subst query. unfold getDomainsByOwner. split.
  - intros err ->. reflexivity.
  - intros accounts ->. rewrite fold_listOne. cbn [app]. split.
    + induction accounts as [|account accounts IH]; cbn [flat_map List.length]; [lia|].
      rewrite length_app. pose proof (listed_length owner account). lia.
    + intros e. rewrite in_flat_map. split.
      * intros (account & Hin & He). apply listed_spec in He.
        destruct He as (info & o & H). exists account, info, o. tauto.
      * intros (account & info & o & Hin & H). exists account. split; [exact Hin|].
        apply listed_spec. exists info, o. exact H.
Qed.

(** X11. A stored account of the owner is listed.  When the node returns an
    account that carries laid-out fields (then any padding) whose owner bytes
    are those of the requested key, the list has its entry: the address in
    base58 and the decoded record. *)
Theorem stored_domain_is_listed
        (getProgramAccounts : GetProgramAccounts) (owner : PublicKey)
        (accounts : list KeyedAccount) (account : KeyedAccount)
        (discriminant nameBytes : Bytes)
        (registeredAt expiresAt activeByte : Z) (metadataBytes padding : Bytes) :
  getProgramAccounts CARV_DOMAIN_PROGRAM_ID [mkMemcmp 8 (toBase58 owner)] = Ok accounts ->
  In account accounts ->
  0 <= bn owner < 2 ^ 256 ->
  contents (account_data (keyed_account account))
  = domainAccountBytes discriminant (toBuffer owner) nameBytes
                       registeredAt expiresAt activeByte metadataBytes ++ padding ->
  List.length discriminant = 8%nat ->
  Z.of_nat (List.length nameBytes) < 2 ^ 32 ->
  Z.of_nat (List.length metadataBytes) < 2 ^ 32 ->
  - 2 ^ 63 <= registeredAt < 2 ^ 63 ->
  - 2 ^ 63 <= expiresAt < 2 ^ 63 ->
  In (mkOwned (toBase58 (keyed_pubkey account))
              (mkDomainInfo (Some owner) (TextDecoder_decode nameBytes)
                            (inject_Z (Number_of_BigInt registeredAt))
                            (inject_Z (Number_of_BigInt expiresAt))
                            (negb (activeByte =? 0))
                            (TextDecoder_decode metadataBytes) true None))
     (getDomainsByOwner getProgramAccounts owner).
Proof.
  intros Hq Hin Hk Hc H8 HN HM Hreg Hexp.
  destruct (toBuffer_value owner Hk) as [Hob Hval].
  unfold getDomainsByOwner. rewrite Hq, fold_listOne. cbn [app].
  apply in_flat_map. exists account. split; [exact Hin|].
  apply listed_spec.
  exists (decodedAccount (toBuffer owner) nameBytes registeredAt expiresAt activeByte
                         metadataBytes), owner.
  assert (Ekey : mkPublicKey (Base58.be_value_from 0 256 (toBuffer owner)) = owner).
  { rewrite Hval. now destruct owner. }
  split; [|split; [|split]].
  - rewrite (decodeDomainFields_layout (account_data (keyed_account account))
               discriminant (toBuffer owner) nameBytes registeredAt expiresAt
               activeByte (Z.of_nat (List.length metadataBytes))
               (metadataBytes ++ padding));
      try assumption; try lia; try apply toBuffer_length.
    + rewrite Nat2Z.id, firstn_app, firstn_all, Nat.sub_diag. cbn [firstn].
      now rewrite app_nil_r.
    + rewrite Hc. unfold domainAccountBytes. now rewrite <- !app_assoc.
  - unfold decodedAccount. cbn [d_owner]. now rewrite Ekey.
  - reflexivity.
  - unfold decodedAccount. now rewrite Ekey.
Qed.

End ListingFacts.

(** *** Runs on the sample data *)

(** Closes a closed goal (an equation, an order between numbers, a
    conjunction of such) by evaluation. *)
Ltac by_evaluation :=
  vm_compute; repeat split;
  first [reflexivity | discriminate | intro; discriminate].

Lemma decodeDomainFields_bounds_witness :
  decodeDomainFields (Uint8Array_of (firstn 60 (Sample.testAccountBytes 1)))
  = Throw (RangeError "Invalid DataView length 8") /\
  decodeDomainFields (mkView [0; 0; 0; 0; 0] [1; 2; 3] [])
  = Throw (RangeError "Start offset 45 is outside the bounds of the buffer") /\
  exists info,
    decodeDomainFields (mkView [] (firstn 60 (Sample.testAccountBytes 1))
                               (skipn 60 (Sample.testAccountBytes 1))) = Ok info.
Proof.
  split; [|split].
  - pose proof (decodeDomainFields_bounds
                  (Uint8Array_of (firstn 60 (Sample.testAccountBytes 1)))
                  ltac:(vm_compute; reflexivity)) as P.
    cbv zeta in P. destruct P as [_ P].
    rewrite P by (vm_compute; reflexivity). vm_compute. reflexivity.
  - pose proof (decodeDomainFields_bounds (mkView [0; 0; 0; 0; 0] [1; 2; 3] [])
                  ltac:(vm_compute; reflexivity)) as P.
    cbv zeta in P. destruct P as [_ P].
    rewrite P by (vm_compute; reflexivity). vm_compute. reflexivity.
  - pose proof (decodeDomainFields_bounds
                  (mkView [] (firstn 60 (Sample.testAccountBytes 1))
                          (skipn 60 (Sample.testAccountBytes 1)))
                  ltac:(vm_compute; reflexivity)) as P.
    cbv zeta in P. destruct P as [P _].
    apply P. vm_compute. discriminate.
Defined.

Lemma decode_padded_account_witness :
  List.length MoreSamples.paddedAccountBytes = 225%nat /\
  decodeDomainFields (Uint8Array_of MoreSamples.paddedAccountBytes)
  = decodeDomainFields (Uint8Array_of (Sample.testAccountBytes 1)).
Proof.
  split; [reflexivity|].
  rewrite (decode_padded_account (Uint8Array_of MoreSamples.paddedAccountBytes)
             (repeat 9 8) (toBuffer Sample.alice) (utf8 (js "test"))
             1700000000 1731536000 1 (utf8 (js "hello")) (repeat 0 151));
    by_evaluation.
Defined.

Lemma decode_truncated_metadata_witness :
  exists info,
    decodeDomainFields
      (Uint8Array_of (repeat 9 8 ++ toBuffer Sample.alice ++ le_bytes 4 4
                        ++ utf8 (js "test") ++ le_bytes 8 1700000000
                        ++ le_bytes 8 1731536000 ++ [1] ++ le_bytes 4 128
                        ++ utf8 (js "hello"))) = Ok info /\
    d_data info = js "hello".
Proof.
  eexists. split.
  - apply (decode_truncated_metadata
             (Uint8Array_of (repeat 9 8 ++ toBuffer Sample.alice ++ le_bytes 4 4
                        ++ utf8 (js "test") ++ le_bytes 8 1700000000
                        ++ le_bytes 8 1731536000 ++ [1] ++ le_bytes 4 128
                        ++ utf8 (js "hello")))
             (repeat 9 8) (toBuffer Sample.alice) (utf8 (js "test"))
             1700000000 1731536000 1 128 (utf8 (js "hello")));
      by_evaluation.
  - reflexivity.
Defined.

Lemma carv_suffix_is_optional_witness :
  @resolveDomain Sample.env (js "test.carv")
    (Sample.world (Sample.node (Some (Sample.account_of (Sample.testAccountBytes 1)))) 0)
  = @resolveDomain Sample.env (js "test")
      (Sample.world (Sample.node (Some (Sample.account_of (Sample.testAccountBytes 1)))) 0).
Proof.
  apply (@carv_suffix_is_optional Sample.env (js "test")). reflexivity.
Defined.

Lemma availability_matches_registration_witness :
  fetched (snd (@checkDomainAvailability Sample.env (js "test")
                  (Sample.world (Sample.node None) 0)))
  = [] ++ [Sample.pda (js "test")] /\
  exists tx,
    @createRegisterTransaction Sample.env (js "test") Sample.alice None
      (Sample.world (Sample.node None) 0) = (Ok tx, Sample.world (Sample.node None) 0) /\
    map (fun ix => map pubkey (firstn 1 (keys ix))) (instructions tx)
    = [[Sample.pda (js "test")]].
Proof.
  apply (@availability_matches_registration Sample.env (js "test") Sample.alice None
           (Sample.world (Sample.node None) 0) (Sample.pda (js "test")) 255 1
           (mkPublicKey 1) (js "blockhash")); by_evaluation.
Defined.

Lemma available_names_do_not_resolve_witness :
  fst (@resolveDomain Sample.env (js "test.carv") (Sample.world (Sample.node None) 0))
  = Ok None /\
  fst (@checkDomainAvailability Sample.env (js "test.carv")
         (Sample.world (Sample.node (Some (Sample.account_of (Sample.testAccountBytes 1))))
                       1700000000000)) = Ok false.
Proof.
  split.
  - apply (proj1 (@available_names_do_not_resolve Sample.env (js "test.carv")
                    (Sample.world (Sample.node None) 0))). reflexivity.
  - apply (proj2 (@available_names_do_not_resolve Sample.env (js "test.carv")
                    (Sample.world
                       (Sample.node (Some (Sample.account_of (Sample.testAccountBytes 1))))
                       1700000000000)) Sample.alice).
    vm_compute. reflexivity.
Defined.

Lemma resolve_stored_account_witness :
  fst (@resolveDomain Sample.env (js "test.carv")
         (Sample.world
            (Sample.node (Some (Sample.account_of MoreSamples.paddedAccountBytes)))
            1731536000000)) = Ok (Some Sample.alice) /\
  fst (@resolveDomain Sample.env (js "test.carv")
         (Sample.world
            (Sample.node (Some (Sample.account_of MoreSamples.paddedAccountBytes)))
            1731536000001)) = Ok None.
Proof.
  split.
  - rewrite (@resolve_stored_account Sample.env (js "test.carv") _
               (Sample.pda (js "test")) 255
               (Sample.account_of MoreSamples.paddedAccountBytes)
               (repeat 9 8) (toBuffer Sample.alice) (utf8 (js "test"))
               1700000000 1731536000 1 (utf8 (js "hello")) (repeat 0 151));
      by_evaluation.
  - rewrite (@resolve_stored_account Sample.env (js "test.carv") _
               (Sample.pda (js "test")) 255
               (Sample.account_of MoreSamples.paddedAccountBytes)
               (repeat 9 8) (toBuffer Sample.alice) (utf8 (js "test"))
               1700000000 1731536000 1 (utf8 (js "hello")) (repeat 0 151));
      by_evaluation.
Defined.

Lemma stored_strings_round_trip_witness :
  exists info,
    decodeDomainFields (Uint8Array_of MoreSamples.paddedAccountBytes) = Ok info /\
    d_name info = js "test" /\ d_data info = js "hello" /\
    d_owner info = Some Sample.alice.
Proof.
  destruct (@stored_strings_round_trip Sample.env (js "test") (js "hello")
              Sample.alice None
              (Sample.world (Sample.node None) 0)
              (Sample.world (Sample.node None) 0)
              (Sample.world (Sample.node None) 0)
              (mkTransaction (Some Sample.alice)
                 [mkInstruction
                    [ mkMeta (Sample.pda (js "test")) false true;
                      mkMeta Sample.alice true true;
                      mkMeta (mkPublicKey 1) false true;
                      mkMeta SystemProgram_programId false false ]
                    Sample.program
                    ([211; 124; 67; 15; 211; 194; 178; 240] ++ le_bytes 4 4
                       ++ utf8 (js "test"))]
                 (Some (js "blockhash")))
              (mkTransaction (Some Sample.alice)
                 [mkInstruction
                    [ mkMeta (Sample.pda (js "test")) false true;
                      mkMeta Sample.alice true false ]
                    Sample.program
                    ([223; 114; 91; 136; 197; 78; 153; 153] ++ le_bytes 4 5
                       ++ utf8 (js "hello"))]
                 (Some (js "blockhash")))
              ([211; 124; 67; 15; 211; 194; 178; 240] ++ le_bytes 4 4 ++ utf8 (js "test"))
              ([223; 114; 91; 136; 197; 78; 153; 153] ++ le_bytes 4 5 ++ utf8 (js "hello"))
              (Uint8Array_of MoreSamples.paddedAccountBytes)
              (repeat 9 8) (toBuffer Sample.alice) 1700000000 1731536000 1
              (repeat 0 151))
    as (info & Hd & Hn & Ht & Ho); try by_evaluation.
  exists info. repeat split; assumption.
Defined.

Lemma getDomainsByOwner_lists_exactly_witness :
  @getDomainsByOwner Sample.env MoreSamples.permissiveNode Sample.alice
  = [mkOwned (toBase58 (mkPublicKey 11))
             (decodedAccount (toBuffer Sample.alice) (utf8 (js "test"))
                             1700000000 1731536000 1 (utf8 (js "hello")))] /\
  forall e,
    In e (@getDomainsByOwner Sample.env MoreSamples.permissiveNode Sample.alice) ->
    exists o, d_owner (domain e) = Some o /\ bn o = bn Sample.alice.
Proof.
  split; [vm_compute; reflexivity|].
  intros e He.
  destruct (@getDomainsByOwner_lists_exactly Sample.env MoreSamples.permissiveNode
              Sample.alice) as [_ H].
  destruct (H _ eq_refl) as [_ Hiff].
  apply Hiff in He. destruct He as (account & info & o & _ & _ & Ho & Hbn & ->).
  exists o. split; assumption.
Defined.

Lemma stored_domain_is_listed_witness :
  In (mkOwned (toBase58 (mkPublicKey 13))
              (mkDomainInfo (Some Sample.bob) (js "shop")
                            (inject_Z 1700000000) (inject_Z 1731536000)
                            true [] true None))
     (@getDomainsByOwner Sample.env MoreSamples.permissiveNode Sample.bob).
Proof.
  apply (@stored_domain_is_listed Sample.env MoreSamples.permissiveNode Sample.bob
           [ mkKeyed (mkPublicKey 11) (Sample.account_of MoreSamples.paddedAccountBytes);
             mkKeyed (mkPublicKey 12) (Sample.account_of [1; 2; 3]);
             mkKeyed (mkPublicKey 13) (Sample.account_of MoreSamples.bobAccountBytes) ]
           (mkKeyed (mkPublicKey 13) (Sample.account_of MoreSamples.bobAccountBytes))
           (repeat 9 8) (utf8 (js "shop")) 1700000000 1731536000 1 [] []).
  - reflexivity.
  - cbn [In]. auto.
  - by_evaluation.
  - reflexivity.
  - reflexivity.
  - by_evaluation.
  - by_evaluation.
  - by_evaluation.
  - by_evaluation.
Defined.

(** ** Base58 text of keys *)

Lemma digits_acc (fuel : nat) (base n : Z) (acc : list Z) :
  Base58.digits fuel base n acc = Base58.digits fuel base n [] ++ acc.
Proof.
  revert n acc; induction fuel as [|fuel IH]; intros n acc; [reflexivity|].
  cbn [Base58.digits]. destruct (n <=? 0); [reflexivity|].
  rewrite IH, (IH _ [_]), <- app_assoc. reflexivity.
Qed.

Lemma be_value_from_acc (base acc : Z) (ds : list Z) :
  Base58.be_value_from acc base ds
  = acc * base ^ Z.of_nat (List.length ds) + Base58.be_value_from 0 base ds.
Proof.
  revert acc; induction ds as [|d ds IH]; intros acc.
  - cbn. lia.
  - cbn [Base58.be_value_from List.length]. rewrite IH, (IH (0 * base + d)).
    rewrite Nat2Z.inj_succ, Z.pow_succ_r by lia. ring.
Qed.

Lemma be_value_from_range (base : Z) (ds : list Z) :
  1 <= base -> Forall (fun d => 0 <= d < base) ds ->
  0 <= Base58.be_value_from 0 base ds < base ^ Z.of_nat (List.length ds).
Proof.
  intros Hb H. induction H as [|d ds Hd _ IH].
  - cbn. lia.
  - cbn [Base58.be_value_from List.length]. rewrite be_value_from_acc.
    rewrite Nat2Z.inj_succ, Z.pow_succ_r by lia.
    assert (0 < base ^ Z.of_nat (List.length ds)) by (apply Z.pow_pos_nonneg; lia).
    nia.
Qed.

Lemma be_value_from_lower (base d : Z) (ds : list Z) :
  1 <= base -> Forall (fun d => 0 <= d < base) ds -> 1 <= d ->
  base ^ Z.of_nat (List.length ds) <= Base58.be_value_from 0 base (d :: ds).
Proof.
  intros Hb H Hd. cbn [Base58.be_value_from]. rewrite be_value_from_acc.
  pose proof (be_value_from_range base ds Hb H).
  assert (0 < base ^ Z.of_nat (List.length ds)) by (apply Z.pow_pos_nonneg; lia).
  nia.
Qed.

(** The digits computed are those of the number, in range, without a
    leading zero. *)
Lemma digits_spec (fuel : nat) (base n : Z) :
  2 <= base -> 0 <= n < base ^ Z.of_nat fuel ->
  Base58.be_value_from 0 base (Base58.digits fuel base n []) = n /\
  Forall (fun d => 0 <= d < base) (Base58.digits fuel base n []) /\
  hd 1 (Base58.digits fuel base n []) <> 0.
Proof.
  intros Hb. revert n; induction fuel as [|fuel IH]; intros n Hn.
  - cbn in *. repeat split; [lia | constructor | lia].
  - cbn [Base58.digits]. destruct (Z.leb_spec n 0) as [H0|Hpos].
    + cbn. repeat split; [lia | constructor | lia].
    + rewrite digits_acc.
      rewrite Nat2Z.inj_succ, Z.pow_succ_r in Hn by lia.
      assert (Hq : 0 <= n / base < base ^ Z.of_nat fuel).
      { split; [apply Z.div_pos; lia | apply Z.div_lt_upper_bound; lia]. }
      destruct (IH _ Hq) as (Hv & Hr & Hh).
      pose proof (Z.mod_pos_bound n base ltac:(lia)) as Hm.
      pose proof (Z.div_mod n base ltac:(lia)) as Hdm.
      split; [|split].
      * rewrite be_value_from_app, Hv. cbn [Base58.be_value_from]. lia.
      * apply Forall_app. split; [exact Hr|]. constructor; [exact Hm | constructor].
      * destruct (Base58.digits fuel base (n / base) []) as [|d ds] eqn:E.
        -- cbn in Hv |- *. lia.
        -- exact Hh.
Qed.

(** A list of digits without a leading zero is what [digits] computes from
    its value. *)
Lemma digits_unique (base : Z) (ds : list Z) :
  2 <= base -> Forall (fun d => 0 <= d < base) ds -> hd 1 ds <> 0 ->
  forall fuel, (List.length ds <= fuel)%nat ->
  Base58.digits fuel base (Base58.be_value_from 0 base ds) [] = ds.
Proof.
  intros Hb. induction ds as [|d ds IH] using rev_ind; intros Hr Hh fuel Hf.
  - destruct fuel; reflexivity.
  - apply Forall_app in Hr as [Hr Hd]. inversion Hd as [|? ? Hd' _]; subst.
    rewrite length_app in Hf. cbn [List.length] in Hf.
    destruct fuel as [|fuel]; [lia|].
    rewrite be_value_from_app. cbn [Base58.be_value_from Base58.digits].
    pose proof (be_value_from_range base ds ltac:(lia) Hr) as [Hv0 _].
    assert (Hh' : hd 1 ds <> 0) by (destruct ds; [cbn; lia | exact Hh]).
    assert (Hpos : 0 < Base58.be_value_from 0 base ds * base + d).
    { destruct ds as [|d0 ds'].
      - cbn in Hh |- *. lia.
      - apply Forall_cons_iff in Hr as [Hd0 Hr'].
        pose proof (be_value_from_lower base d0 ds' ltac:(lia) Hr'
                      ltac:(cbn in Hh; lia)) as Hl.
        assert (0 < base ^ Z.of_nat (List.length ds')) by (apply Z.pow_pos_nonneg; lia).
        nia. }
    destruct (Z.leb_spec (Base58.be_value_from 0 base ds * base + d) 0); [lia|].
    rewrite digits_acc.
    replace ((Base58.be_value_from 0 base ds * base + d) / base)
      with (Base58.be_value_from 0 base ds)
      by (apply Z.div_unique with d; lia).
    replace ((Base58.be_value_from 0 base ds * base + d) mod base) with d
      by (apply Z.mod_unique with (Base58.be_value_from 0 base ds); lia).
    rewrite IH by (auto; lia). reflexivity.
Qed.

Lemma leading_zeros_app (k : nat) (xs : list Z) :
  hd 1 xs <> 0 -> Base58.leading 0 (repeat 0 k ++ xs) = k.
Proof.
  intros Hh. induction k as [|k IH].
  - destruct xs as [|x xs]; [reflexivity|]. cbn in Hh |- *.
    destruct (Z.eqb_spec x 0); [contradiction | reflexivity].
  - cbn. now rewrite IH.
Qed.

Lemma be_value_from_zeros (base : Z) (k : nat) (xs : list Z) :
  Base58.be_value_from 0 base (repeat 0 k ++ xs) = Base58.be_value_from 0 base xs.
Proof. induction k as [|k IH]; [reflexivity|]. cbn. exact IH. Qed.

Lemma leading_split (bs : list Z) :
  bs = repeat 0 (Base58.leading 0 bs) ++ skipn (Base58.leading 0 bs) bs /\
  hd 1 (skipn (Base58.leading 0 bs) bs) <> 0.
Proof.
  induction bs as [|b bs [IH1 IH2]]; [cbn; split; [reflexivity | lia]|].
  cbn [Base58.leading]. destruct (Z.eqb_spec b 0) as [->|Hb].
  - cbn [repeat app skipn]. split; [now rewrite <- IH1 | exact IH2].
  - cbn. split; [reflexivity | exact Hb].
Qed.

Lemma char_values_app (a b : JSString) :
  Base58.char_values (a ++ b)
  = match Base58.char_values a, Base58.char_values b with
    | Some x, Some y => Some (x ++ y)
    | _, _ => None
    end.
Proof.
  induction a as [|c a IH]; cbn [app Base58.char_values].
  - destruct (Base58.char_values b); reflexivity.
  - rewrite IH. destruct (Base58.find_index c Base58.alphabet 0);
      destruct (Base58.char_values a); destruct (Base58.char_values b); reflexivity.
Qed.

Lemma char_values_ones (k : nat) :
  Base58.char_values (repeat 49 k) = Some (repeat 0 k).
Proof.
  induction k as [|k IH]; [reflexivity|].
  cbn [repeat Base58.char_values]. rewrite IH. reflexivity.
Qed.

Lemma alphabet_digit (d : Z) :
  0 <= d < 58 ->
  Base58.find_index (nth (Z.to_nat d) Base58.alphabet 0) Base58.alphabet 0 = Some d /\
  base58_class (nth (Z.to_nat d) Base58.alphabet 0) = true.
Proof.
  intros Hd.
  assert (H : forallb (fun i =>
                match Base58.find_index (nth i Base58.alphabet 0) Base58.alphabet 0 with
                | Some j => (j =? Z.of_nat i) && base58_class (nth i Base58.alphabet 0)
                | None => false
                end) (seq 0 58) = true) by (vm_compute; reflexivity).
  rewrite forallb_forall in H.
  specialize (H (Z.to_nat d) ltac:(apply in_seq; lia)).
  destruct (Base58.find_index _ _ _) as [j|]; [|discriminate].
  apply andb_true_iff in H as [Hj Hc]. apply Z.eqb_eq in Hj.
  split; [f_equal; lia | exact Hc].
Qed.

Lemma char_values_digits (ds : list Z) :
  Forall (fun d => 0 <= d < 58) ds ->
  Base58.char_values (map (fun d => nth (Z.to_nat d) Base58.alphabet 0) ds) = Some ds /\
  forallb base58_class (map (fun d => nth (Z.to_nat d) Base58.alphabet 0) ds) = true.
Proof.
  intros H. induction H as [|d ds Hd _ [IH1 IH2]]; [split; reflexivity|].
  cbn [map Base58.char_values forallb].
  destruct (alphabet_digit d Hd) as [-> ->]. rewrite IH1, IH2. split; reflexivity.
Qed.

Lemma is_byte_range (bs : Bytes) :
  forallb is_byte bs = true -> Forall (fun d => 0 <= d < 256) bs.
Proof.
  intros H. apply Forall_forall. intros x Hx.
  rewrite forallb_forall in H. specialize (H x Hx). unfold is_byte in H.
  apply andb_true_iff in H as [H1 H2]. apply Z.leb_le in H1. apply Z.ltb_lt in H2. lia.
Qed.

Lemma forallb_repeat {A} (f : A -> bool) (x : A) (k : nat) :
  f x = true -> forallb f (repeat x k) = true.
Proof. intros H. induction k as [|k IH]; [reflexivity|]. cbn. now rewrite H, IH. Qed.

(** Zero bytes in front, then the bytes of a number: the text decodes to the
    same bytes. *)
Lemma base58_round_trip_split (z : nat) (rest : list Z) :
  Forall (fun d => 0 <= d < 256) rest -> hd 1 rest <> 0 ->
  Base58.decode (Base58.encode (repeat 0 z ++ rest)) = Ok (repeat 0 z ++ rest) /\
  forallb base58_class (Base58.encode (repeat 0 z ++ rest)) = true.
Proof.
  intros Hr Hh. unfold Base58.encode.
  rewrite leading_zeros_app by exact Hh. rewrite be_value_from_zeros.
  pose proof (be_value_from_range 256 rest ltac:(lia) Hr) as Hn.
  set (n := Base58.be_value_from 0 256 rest) in *.
  set (r := List.length rest) in *.
  assert (Hfuel : 0 <= n < 58 ^ Z.of_nat (2 * List.length (repeat 0 z ++ rest))).
  { rewrite length_app, repeat_length. fold r. split; [lia|].
    apply Z.lt_le_trans with (256 ^ Z.of_nat r); [lia|].
    apply Z.le_trans with ((58 ^ 2) ^ Z.of_nat r).
    - apply Z.pow_le_mono_l. lia.
    - rewrite <- Z.pow_mul_r by lia. apply Z.pow_le_mono_r; lia. }
  destruct (digits_spec _ 58 n ltac:(lia) Hfuel) as (Hv & Hd & Hhd).
  set (d58 := Base58.digits (2 * List.length (repeat 0 z ++ rest)) 58 n []) in *.
  destruct (char_values_digits d58 Hd) as [Hcv Hclass].
  split.
  - unfold Base58.decode.
    rewrite char_values_app, char_values_ones, Hcv.
    rewrite leading_zeros_app by exact Hhd.
    rewrite be_value_from_zeros, Hv.
    f_equal. f_equal. unfold n. apply digits_unique; [lia | exact Hr | exact Hh |].
    rewrite length_app, repeat_length. fold r.
    destruct rest as [|d0 rest']; [cbn in r; lia|].
    apply Forall_cons_iff in Hr as [Hd0 Hr'].
    pose proof (be_value_from_lower 256 d0 rest' ltac:(lia) Hr'
                  ltac:(cbn in Hh; lia)) as Hlow.
    fold n in Hlow.
    pose proof (be_value_from_range 58 d58 ltac:(lia) Hd) as Hup. rewrite Hv in Hup.
    cbn [List.length] in r.
    destruct (Nat.le_gt_cases (List.length d58) (List.length rest')) as [Hle|Hgt];
      [|unfold r; lia].
    exfalso.
    assert (58 ^ Z.of_nat (List.length d58) <= 58 ^ Z.of_nat (List.length rest'))
      by (apply Z.pow_le_mono_r; lia).
    assert (58 ^ Z.of_nat (List.length rest') <= 256 ^ Z.of_nat (List.length rest'))
      by (apply Z.pow_le_mono_l; lia).
    lia.
  - rewrite forallb_app, Hclass, forallb_repeat by reflexivity. reflexivity.
Qed.

(** [bs58.decode] undoes [bs58.encode], and the text stays in the character
    class that [isValidPublicKey] tests. *)
Lemma base58_round_trip (bs : Bytes) :
  forallb is_byte bs = true ->
  Base58.decode (Base58.encode bs) = Ok bs /\
  forallb base58_class (Base58.encode bs) = true.
Proof.
  intros Hb. apply is_byte_range in Hb.
  destruct (leading_split bs) as [Hsplit Hhd].
  rewrite Hsplit in Hb. apply Forall_app in Hb as [_ Hrest].
  rewrite Hsplit. apply base58_round_trip_split; assumption.
Qed.

Lemma PublicKey_round_trip (k : PublicKey) :
  0 <= bn k < 2 ^ 256 ->
  PublicKey_of_string (toBase58 k) = Ok k /\
  forallb base58_class (toBase58 k) = true.
Proof.
  intros Hk. destruct (toBuffer_value k Hk) as [Hb Hv].
  destruct (base58_round_trip (toBuffer k) Hb) as [Hd Hc].
  split; [|exact Hc].
  unfold PublicKey_of_string, toBase58. rewrite Hd. cbn [rbind].
  rewrite toBuffer_length, Hv. cbn. now destruct k.
Qed.

(** On the text of 32 bytes only two of the tests of [isValidPublicKey]
    decide: the character class and the key constructor always pass. *)
Lemma isValidPublicKey_text (bs : Bytes) :
  forallb is_byte bs = true -> List.length bs = 32%nat ->
  isValidPublicKey (Base58.encode bs)
  = (Z.of_nat (List.length (Base58.encode bs)) =? 44) &&
    negb (Z.of_nat (List.length (nodup Z.eq_dec (Base58.encode bs))) <=? 1).
Proof.
  intros Hb Hlen. destruct (base58_round_trip bs Hb) as [Hd Hc].
  unfold isValidPublicKey.
  destruct (Base58.encode bs) as [|c text] eqn:E; [reflexivity|].
  destruct (Z.of_nat (List.length (c :: text)) =? 44); [|reflexivity].
  cbn [negb andb]. rewrite Hc. cbn [negb orb].
  destruct (Z.of_nat (List.length (nodup Z.eq_dec (c :: text))) <=? 1); [reflexivity|].
  unfold PublicKey_of_string. rewrite Hd. cbn [rbind]. rewrite Hlen. reflexivity.
Qed.

Lemma readKeyField_value (d : Uint8Array) (s e : Z) :
  forallb is_byte (contents d) = true ->
  List.length (slice_list (contents d) s e) = 32%nat ->
  readKeyField d s e
  = if forallb (fun byte => byte =? 0) (slice_list (contents d) s e) then Ok None
    else if isValidPublicKey (Base58.encode (slice_list (contents d) s e))
         then Ok (Some (Base58.encode (slice_list (contents d) s e)))
         else Ok None.
Proof.
  intros Hb Hlen. unfold readKeyField. cbn [slice contents].
  destruct (forallb (fun byte => byte =? 0) (slice_list (contents d) s e));
    [reflexivity|].
  destruct (toBuffer_of_bytes _ Hlen (slice_list_bytes _ s e Hb)) as [-> Hbuf].
  cbn [rbind]. unfold toBase58. rewrite Hbuf.
  destruct (isValidPublicKey _); reflexivity.
Qed.

(** X12. [isValidPublicKey] on the base58 text of a key.  The text of a key
    always reads back as the same key and stays inside the tested character
    class, so the answer depends on two things only: the text has exactly 44
    characters, and it shows at least two different characters.  A key whose
    text is shorter (it has 43 characters or fewer when the number is small)
    is refused although it is a key. *)
Theorem isValidPublicKey_of_key (k : PublicKey) :
  0 <= bn k < 2 ^ 256 ->
  PublicKey_of_string (toBase58 k) = Ok k /\
  (isValidPublicKey (toBase58 k) = true <->
   List.length (toBase58 k) = 44%nat /\
   (2 <= List.length (nodup Z.eq_dec (toBase58 k)))%nat).
Proof.
  intros Hk. split; [apply PublicKey_round_trip, Hk|].
  destruct (toBuffer_value k Hk) as [Hb _].
  unfold toBase58. rewrite isValidPublicKey_text by (auto using toBuffer_length).
  rewrite andb_true_iff, negb_true_iff, Z.eqb_eq, Z.leb_gt. lia.
Qed.

Section TokenAccountFacts.

Context {engine : Engine}.

(** X13. Which token accounts [parseTokenAccount] keeps.  For a buffer of
    bytes, a record comes back exactly when the buffer has at least 80 bytes
    and each of the two key fields (bytes 0-32 and 32-64) is not all zero and
    has a base58 text of exactly 44 characters with two different characters
    among them; reading the amount never fails then.  The mint and owner of
    a record read back, as keys, to the very bytes of the two fields. *)
Theorem parseTokenAccount_accepts (d : Uint8Array) :
  forallb is_byte (contents d) = true ->
  let accepted (field : Bytes) :=
      forallb (fun byte => byte =? 0) field = false /\
      List.length (Base58.encode field) = 44%nat /\
      (2 <= List.length (nodup Z.eq_dec (Base58.encode field)))%nat in
  ((exists r, parseTokenAccount d = Ok (Some r)) <->
   80 <= data_length d /\
   accepted (slice_list (contents d) 0 32) /\
   accepted (slice_list (contents d) 32 64)) /\
  (forall r, parseTokenAccount d = Ok (Some r) ->
     exists mintKey ownerKey,
       PublicKey_of_string (mint r) = Ok mintKey /\
       PublicKey_of_string (owner r) = Ok ownerKey /\
       toBuffer mintKey = slice_list (contents d) 0 32 /\
       toBuffer ownerKey = slice_list (contents d) 32 64).
Proof.
  intros Hb accepted. unfold parseTokenAccount.
  destruct (Z.ltb_spec (data_length d) 80) as [Hshort|Hlong].
  { cbn [rcatch]. split; [|discriminate].
    split; [intros [r H]; discriminate | intros [H _]; lia]. }
  unfold data_length in Hlong.
  assert (Hm : List.length (slice_list (contents d) 0 32) = 32%nat).
  { unfold slice_list. rewrite length_firstn, length_skipn. lia. }
  assert (Ho : List.length (slice_list (contents d) 32 64) = 32%nat).
  { unfold slice_list. rewrite length_firstn, length_skipn. lia. }
  pose proof (slice_list_bytes _ 0 32 Hb) as Hmb.
  pose proof (slice_list_bytes _ 32 64 Hb) as Hob.
  rewrite (readKeyField_value d 0 32 Hb Hm), (readKeyField_value d 32 64 Hb Ho).
  rewrite amount_read by (unfold data_length; lia).
  rewrite !isValidPublicKey_text by assumption.
  assert (Hacc : forall field,
             accepted field <->
             forallb (fun byte => byte =? 0) field = false /\
             (Z.of_nat (List.length (Base58.encode field)) =? 44) &&
             negb (Z.of_nat (List.length (nodup Z.eq_dec (Base58.encode field))) <=? 1)
             = true).
  { intros field. unfold accepted.
    rewrite andb_true_iff, negb_true_iff, Z.eqb_eq, Z.leb_gt.
    split; intros (H1 & H2 & H3); repeat split; (assumption || lia). }
  rewrite !Hacc.
  destruct (forallb (fun byte => byte =? 0) (slice_list (contents d) 0 32)).
  { cbn [rbind rcatch]. split; [|discriminate].
    split; [intros [r H]; discriminate | intros (_ & [H _] & _); discriminate]. }
  destruct (_ && _) eqn:Evm in |- *.
  2:{ cbn [rbind rcatch]. split; [|discriminate].
      split; [intros [r H]; discriminate | intros (_ & [_ H] & _); discriminate]. }
  cbn [rbind].
  destruct (forallb (fun byte => byte =? 0) (slice_list (contents d) 32 64)).
  { cbn [rbind rcatch]. split; [|discriminate].
    split; [intros [r H]; discriminate | intros (_ & _ & [H _]); discriminate]. }
  destruct (_ && _) eqn:Evo in |- *.
  2:{ cbn [rbind rcatch]. split; [|discriminate].
      split; [intros [r H]; discriminate | intros (_ & _ & [_ H]); discriminate]. }
  cbn [rbind rcatch].
  split.
  - split; [intros _; unfold data_length; repeat split; (lia || reflexivity)
           | intros _; eexists; reflexivity].
  - intros r H. injection H as <-. cbn [mint owner].
    destruct (toBuffer_of_bytes _ Hm Hmb) as [_ Hbm].
    destruct (toBuffer_of_bytes _ Ho Hob) as [_ Hbo].
    exists (mkPublicKey (Base58.be_value_from 0 256 (slice_list (contents d) 0 32))),
           (mkPublicKey (Base58.be_value_from 0 256 (slice_list (contents d) 32 64))).
    destruct (base58_round_trip _ Hmb) as [Hdm _].
    destruct (base58_round_trip _ Hob) as [Hdo _].
    unfold PublicKey_of_string. rewrite Hdm, Hdo. cbn [rbind]. rewrite Hm, Ho.
    repeat split; assumption.
Qed.

(** The record in closed form, for a buffer of bytes. *)
Lemma parseTokenAccount_value (d : Uint8Array) :
  forallb is_byte (contents d) = true ->
  let accepted (field : Bytes) :=
      negb (forallb (fun byte => byte =? 0) field) &&
      (Z.of_nat (List.length (Base58.encode field)) =? 44) &&
      (2 <=? Z.of_nat (List.length (nodup Z.eq_dec (Base58.encode field)))) in
  let value := to_signed 64 (le_value (slice_list (contents d) 64 72)) in
  let byte72 := nth 72 (contents d) 0 in
  parseTokenAccount d
  = Ok (if (80 <=? data_length d) &&
           accepted (slice_list (contents d) 0 32) &&
           accepted (slice_list (contents d) 32 64)
        then Some (mkTokenAccountInfo
                     (Base58.encode (slice_list (contents d) 0 32))
                     (Base58.encode (slice_list (contents d) 32 64))
                     (BigInt_toString value) byte72
                     (round_to_double
                        (inject_Z (Number_of_BigInt value) / Math_pow10 byte72)))
        else None).
Proof.
  intros Hb accepted value byte72. unfold parseTokenAccount.
  destruct (Z.ltb_spec (data_length d) 80) as [Hshort|Hlong].
  { destruct (Z.leb_spec 80 (data_length d)); [lia | reflexivity]. }
  destruct (Z.leb_spec 80 (data_length d)); [|lia]. cbn [andb].
  unfold data_length in Hlong.
  assert (Hm : List.length (slice_list (contents d) 0 32) = 32%nat).
  { unfold slice_list. rewrite length_firstn, length_skipn. lia. }
  assert (Ho : List.length (slice_list (contents d) 32 64) = 32%nat).
  { unfold slice_list. rewrite length_firstn, length_skipn. lia. }
  pose proof (slice_list_bytes _ 0 32 Hb) as Hmb.
  pose proof (slice_list_bytes _ 32 64 Hb) as Hob.
  rewrite (readKeyField_value d 0 32 Hb Hm), (readKeyField_value d 32 64 Hb Ho).
  rewrite amount_read by (unfold data_length; lia).
  rewrite !isValidPublicKey_text by assumption.
  assert (Hacc : forall field,
             accepted field
             = negb (forallb (fun byte => byte =? 0) field) &&
               ((Z.of_nat (List.length (Base58.encode field)) =? 44) &&
                negb (Z.of_nat (List.length (nodup Z.eq_dec (Base58.encode field)))
                      <=? 1))).
  { intros field. unfold accepted. rewrite <- andb_assoc. f_equal. f_equal.
    destruct (Z.leb_spec 2 (Z.of_nat (List.length (nodup Z.eq_dec (Base58.encode field)))));
      destruct (Z.leb_spec (Z.of_nat (List.length (nodup Z.eq_dec (Base58.encode field)))) 1);
      try lia; reflexivity. }
  rewrite !Hacc.
  assert (H72 : index d 72 = Some byte72).
  { unfold index. cbn [Z.leb Z.compare]. apply nth_error_nth'. lia. }
  rewrite H72.
  destruct (forallb (fun byte => byte =? 0) (slice_list (contents d) 0 32));
    [reflexivity|].
  cbn [negb andb].
  destruct (_ && _) eqn:Evm in |- *; [|reflexivity].
  cbn [rbind].
  destruct (forallb (fun byte => byte =? 0) (slice_list (contents d) 32 64));
    [reflexivity|].
  cbn [negb andb].
  destruct (_ && _) eqn:Evo in |- *; reflexivity.
Qed.

(** C7, as the code has it.  [parseTokenAccount] never throws; it returns no
    record for a buffer shorter than 80 bytes and for a buffer whose bytes
    0-32 or 32-64 are all zero.  For a buffer of bytes it returns a record
    exactly when the buffer has 80 bytes and each key field is not all zero
    and has a base58 text of 44 characters with two different characters
    among them; the record then has the base58 text of bytes 0-32 as mint
    and of bytes 32-64 as owner, the signed little-endian 64-bit value of
    bytes 64-72 as amount, byte 72 as decimals, and as uiAmount the double
    nearest to Number(amount) / Math.pow(10, decimals).  This is the double
    nearest to amount / 10^decimals when the amount is below 2^53 in
    magnitude and the decimals are at most 22; it is not the quotient
    itself. *)
Theorem parseTokenAccount_outcomes (d : Uint8Array) :
  let accepted (field : Bytes) :=
      negb (forallb (fun byte => byte =? 0) field) &&
      (Z.of_nat (List.length (Base58.encode field)) =? 44) &&
      (2 <=? Z.of_nat (List.length (nodup Z.eq_dec (Base58.encode field)))) in
  let value := to_signed 64 (le_value (slice_list (contents d) 64 72)) in
  let byte72 := nth 72 (contents d) 0 in
  (exists r, parseTokenAccount d = Ok r) /\
  (data_length d < 80 -> parseTokenAccount d = Ok None) /\
  (forallb (fun byte => byte =? 0) (slice_list (contents d) 0 32) = true ->
   parseTokenAccount d = Ok None) /\
  (forallb (fun byte => byte =? 0) (slice_list (contents d) 32 64) = true ->
   parseTokenAccount d = Ok None) /\
  (forallb is_byte (contents d) = true ->
   parseTokenAccount d
   = Ok (if (80 <=? data_length d) &&
            accepted (slice_list (contents d) 0 32) &&
            accepted (slice_list (contents d) 32 64)
         then Some (mkTokenAccountInfo
                      (Base58.encode (slice_list (contents d) 0 32))
                      (Base58.encode (slice_list (contents d) 32 64))
                      (BigInt_toString value) byte72
                      (round_to_double
                         (inject_Z (Number_of_BigInt value) / Math_pow10 byte72)))
         else None)) /\
  (forall r, parseTokenAccount d = Ok (Some r) ->
     amount r = BigInt_toString value /\
     nth_error (contents d) 72 = Some (decimals r) /\
     uiAmount r
     = round_to_double (inject_Z (Number_of_BigInt value) / Math_pow10 (decimals r)) /\
     (Z.abs value < 2 ^ 53 -> 0 <= decimals r <= 22 ->
      uiAmount r = round_to_double (inject_Z value / inject_Z (10 ^ decimals r)))).
Proof.
  intros accepted value byte72.
  destruct (parseTokenAccount_fields d) as (Htotal & Hshort & Hmint & Howner & Hrecord).
  split; [exact Htotal|]. split; [exact Hshort|].
  split; [exact Hmint|]. split; [exact Howner|].
  split; [exact (parseTokenAccount_value d)|].
  intros r Hr. destruct (Hrecord r Hr) as (_ & _ & Ha & Hd & Hu).
  split; [exact Ha|]. split; [exact Hd|]. split; [exact Hu|].
  intros Habs Hdec. rewrite Hu. fold value. f_equal.
  unfold Number_of_BigInt, Math_pow10.
  destruct (Z.ltb_spec (Z.abs value) (2 ^ 53)); [|lia].
  destruct (Z.leb_spec 0 (decimals r)); [|lia].
  destruct (Z.leb_spec (decimals r) 22); [|lia].
  reflexivity.
Qed.

End TokenAccountFacts.

(** ** Names made up from the mint address *)

Lemma slice_from_end_app (front back : JSString) :
  slice_from_end (front ++ back) (List.length back) = back.
Proof.
  unfold slice_from_end. rewrite length_app, Nat.add_sub.
  rewrite skipn_app, skipn_all, Nat.sub_diag. reflexivity.
Qed.

Lemma hex_value_range (c v : Z) : hex_value c = Some v -> 0 <= v <= 15.
Proof.
  unfold hex_value. intros H.
  destruct ((48 <=? c) && (c <=? 57)) eqn:E1; [injection H as <-; lia|].
  destruct ((97 <=? c) && (c <=? 102)) eqn:E2; [injection H as <-; lia|].
  destruct ((65 <=? c) && (c <=? 70)) eqn:E3; [injection H as <-; lia|].
  discriminate.
Qed.

(** A base58 character is no white space, no sign and no "0". *)
Lemma base58_class_plain (c : Z) :
  base58_class c = true ->
  is_white_space c = false /\ (c =? 45) = false /\ (c =? 43) = false /\
  (c =? 48) = false.
Proof. unfold base58_class, is_white_space. lia. Qed.

Lemma fallback_name_of_value {A} (options : list A) (v : Z) :
  0 <= v -> List.length options = 5%nat ->
  exists name,
    (if 0 <=? Z.rem v 5 then nth_error options (Z.to_nat (Z.rem v 5)) else None)
    = Some name.
Proof.
  intros Hv Hlen. pose proof (Z.rem_bound_pos v 5 Hv ltac:(lia)) as Hr.
  destruct (Z.leb_spec 0 (Z.rem v 5)); [|lia].
  destruct (nth_error options (Z.to_nat (Z.rem v 5))) as [name|] eqn:E;
    [now exists name|].
  apply nth_error_None in E. lia.
Qed.

(** X14. The made-up name of a mint.  For an address that ends in two
    characters of which the first is a base58 character,
    [generateFallbackName] gives a name exactly when that character is a
    hexadecimal digit; otherwise [parseInt] yields [NaN] and the result is
    [undefined], whatever the declared return type.  A name that is given is
    one of the five fixed beginnings followed by the last eight characters
    of the address. *)
Theorem generateFallbackName_needs_hex_digit
        (mintAddress front : JSString) (c1 c2 : Z) :
  mintAddress = front ++ [c1; c2] -> base58_class c1 = true ->
  (generateFallbackName mintAddress = None <-> hex_value c1 = None) /\
  (forall name, generateFallbackName mintAddress = Some name ->
     exists beginning,
       In beginning [js "CARV NFT #"; js "SVM Token "; js "CARV Collectible ";
                     js "Digital Asset "; js "CARV Item "] /\
       name = beginning ++ slice_from_end mintAddress 8).
Proof.
  intros -> Hc. split.
  - unfold generateFallbackName.
    replace (slice_from_end (front ++ [c1; c2]) 2) with [c1; c2]
      by (symmetry; apply (slice_from_end_app front [c1; c2])).
    destruct (base58_class_plain c1 Hc) as (Hw & Hm & Hp & H0).
    unfold parseInt16. cbn [skip_white_space]. rewrite Hw. cbv beta iota zeta.
    rewrite Hm, Hp. cbv beta iota zeta. cbn [orb]. cbv beta iota zeta.
    rewrite H0. cbn [andb hex_prefix].
    destruct (hex_value c1) as [v1|] eqn:E1; [|split; reflexivity].
    apply hex_value_range in E1.
    unfold JSString. set (options := [_; _; _; _; _]).
    destruct (hex_value c2) as [v2|] eqn:E2.
    + apply hex_value_range in E2.
      destruct (fallback_name_of_value options (1 * (16 * v1 + v2)) ltac:(lia) eq_refl)
        as [name Hname].
      change (Z.of_nat (List.length options)) with 5. rewrite Hname.
      split; discriminate.
    + destruct (fallback_name_of_value options (1 * v1) ltac:(lia) eq_refl)
        as [name Hname].
      change (Z.of_nat (List.length options)) with 5. rewrite Hname.
      split; discriminate.
  - intros name. unfold generateFallbackName.
    destruct (parseInt16 _) as [hashValue|]; [|discriminate].
    destruct (0 <=? _); [|discriminate].
    intros H. apply nth_error_In in H. cbn [In] in H.
    destruct H as [<-|[<-|[<-|[<-|[<-|[]]]]]]; eexists; (split; [|reflexivity]);
      cbn [In]; auto 6.
Qed.

(** ** Metadata addresses and transfers of [NFTService] *)

Lemma toBuffer_bytes (k : PublicKey) : forallb is_byte (toBuffer k) = true.
Proof.
  unfold toBuffer, be_bytes. rewrite forallb_forall. intros x Hx.
  apply in_rev in Hx.
  pose proof (le_bytes_bytes 32 (bn k)) as H. rewrite forallb_forall in H. auto.
Qed.

(** The "last resort" of [getMetadataAddress] is no key: 40 bytes that start
    with the letter m. *)
Lemma metadata_last_resort (mint : PublicKey) :
  PublicKey_of_bytes (slice_list (utf8 (js "metadata") ++ toBuffer mint) 0 44)
  = Throw (GenericError "Invalid public key input").
Proof.
  assert (Hl : List.length (utf8 (js "metadata")) = 8%nat) by (vm_compute; reflexivity).
  unfold slice_list.
  change (Z.to_nat (44 - 0)) with 44%nat. change (Z.to_nat 0) with 0%nat.
  cbn [skipn].
  rewrite firstn_all2 by (rewrite length_app, toBuffer_length, Hl; lia).
  unfold PublicKey_of_bytes. rewrite be_value_from_app, be_value_from_acc.
  rewrite toBuffer_length.
  pose proof (be_value_from_range 256 (toBuffer mint) ltac:(lia)
                (is_byte_range _ (toBuffer_bytes mint))) as [H0 _].
  set (v := Base58.be_value_from 0 256 (toBuffer mint)) in *.
  set (head := Base58.be_value_from 0 256 (utf8 (js "metadata"))).
  assert (Hhead : 2 ^ 256 <= head * 256 ^ Z.of_nat 32) by (vm_compute; discriminate).
  destruct (Z.ltb_spec (head * 256 ^ Z.of_nat 32 + v) (2 ^ 256)); [lia | reflexivity].
Qed.

Section NFTFacts.

Context {env : Environment}.

Lemma getMetadataAddress_run (mint second : PublicKey) :
  PublicKey_of_string (js "mSoLzYCxSopKhhBmkYxDScN2U3iYj4qP2T4N8M3oL4c") = Ok second ->
  getMetadataAddress mint
  = match findProgramAddressSync
            [utf8 (js "metadata"); toBuffer second; toBuffer mint] second with
    | Ok pda => Ok (fst pda)
    | Throw _ => Throw (GenericError "Invalid public key input")
    end.
Proof.
  intros E.
  assert (Hmeta : PublicKey_of_string (js "metaqbxxUerdq28cj1RbAWkYQm3ybzjb6a8btJMxPzVi")
                  = Throw (GenericError "Invalid public key input"))
    by (vm_compute; reflexivity).
  unfold getMetadataAddress. cbn [firstMetadataAddress]. unfold metadataAddressUnder.
  rewrite Hmeta, E. cbn [rbind rcatch].
  destruct (findProgramAddressSync _ second) as [pda|e]; cbn [rbind rcatch];
    [reflexivity|].
  apply metadata_last_resort.
Qed.

(** X15. Where [getMetadataAddress] looks.  The first identifier of its list,
    the Metaplex one as it is spelled in the source, is no key: its base58
    text decodes to 33 bytes, so the constructor throws, in the loop and
    again in the fallback.  Whatever the mint, the address returned is
    therefore the one derived under the second identifier from the seeds
    "metadata", that identifier and the mint; and when this derivation
    fails, the fallback and the last resort fail too, and the function
    throws. *)
Theorem getMetadataAddress_program (mint : PublicKey) :
  exists second,
    PublicKey_of_string (js "mSoLzYCxSopKhhBmkYxDScN2U3iYj4qP2T4N8M3oL4c") = Ok second /\
    PublicKey_of_string (js "metaqbxxUerdq28cj1RbAWkYQm3ybzjb6a8btJMxPzVi")
    = Throw (GenericError "Invalid public key input") /\
    getMetadataAddress mint
    = match findProgramAddressSync
              [utf8 (js "metadata"); toBuffer second; toBuffer mint] second with
      | Ok pda => Ok (fst pda)
      | Throw _ => Throw (GenericError "Invalid public key input")
      end.
Proof.
  destruct (PublicKey_of_string (js "mSoLzYCxSopKhhBmkYxDScN2U3iYj4qP2T4N8M3oL4c"))
    as [second|e] eqn:E; [|vm_compute in E; discriminate].
  exists second. split; [reflexivity|]. split; [vm_compute; reflexivity|].
  now apply getMetadataAddress_run.
Qed.

(** X16. What [verifyNFT] takes for an NFT.  For a mint address that
    [isValidPublicKey] accepts and whose metadata address derives, the answer
    is whether the node has any account at the address derived under the
    second identifier of [getMetadataAddress]: an absent account is a plain
    "no".  The token accounts are asked for only when the account lookup
    itself fails, and a failure there is a "no" as well. *)
Theorem verifyNFT_outcomes (node : NftNode) (mintAddress : JSString)
        (mintKey second address : PublicKey) (bump : Z) :
  isValidPublicKey mintAddress = true ->
  PublicKey_of_string mintAddress = Ok mintKey ->
  PublicKey_of_string (js "mSoLzYCxSopKhhBmkYxDScN2U3iYj4qP2T4N8M3oL4c") = Ok second ->
  findProgramAddressSync [utf8 (js "metadata"); toBuffer second; toBuffer mintKey] second
  = Ok (address, bump) ->
  verifyNFT node mintAddress
  = match nft_getAccountInfo node address with
    | Ok (Some _) => true
    | Ok None => false
    | Throw _ =>
      match PublicKey_of_string (js "TokenkegQfeZyiNwAJbNbGKPFXCWuBvf9Ss623VQ5DA") with
      | Ok tokenProgram =>
        match nft_getTokenAccountsByOwner node mintKey
                (mkTokenFilter (Some mintKey) (Some tokenProgram)) with
        | Ok (_ :: _) => true
        | _ => false
        end
      | Throw _ => false
      end
    end.
Proof.
  intros Hvalid Hkey Hsecond Hpda. unfold verifyNFT.
  rewrite Hvalid, Hkey. cbn [negb rbind].
  rewrite (getMetadataAddress_run mintKey second Hsecond), Hpda. cbn [fst rbind].
  destruct (nft_getAccountInfo node address) as [[info|]|e]; cbn [rbind rcatch];
    try reflexivity.
  destruct (PublicKey_of_string (js "TokenkegQfeZyiNwAJbNbGKPFXCWuBvf9Ss623VQ5DA"))
    as [tokenProgram|e']; cbn [rbind rcatch]; [|reflexivity].
  destruct (nft_getTokenAccountsByOwner node mintKey _) as [[|holder others]|e''];
    reflexivity.
Qed.

End NFTFacts.

(** ** Transfers *)

Lemma Qltb_hundredth (lamports : Z) :
  Qltb (inject_Z lamports / inject_Z 1000000000) (1 # 100) = (lamports <? 10000000).
Proof.
  unfold Qltb, Qle_bool, Qdiv, Qmult, Qinv, inject_Z. cbn [Qnum Qden].
  destruct (Z.leb_spec (1 * Zpos (1 * 1000000000)) (lamports * 1 * 100));
    destruct (Z.ltb_spec lamports 10000000); cbn [negb]; try reflexivity; lia.
Qed.

Lemma Qltb_whole (units scale : Z) :
  0 <= scale ->
  Qltb (inject_Z units / inject_Z scale) 1 = false -> 0 < scale <= units.
Proof.
  intros Hs. unfold Qltb, Qle_bool, Qdiv, Qmult, Qinv, inject_Z. cbn [Qnum Qden].
  destruct scale as [|q|q]; [| | lia];
    cbn [Qnum Qden]; intros H; apply negb_false_iff, Z.leb_le in H; lia.
Qed.

Section TransferFacts.

Context {env : Environment}.

(** X17. No transfer without 0.01 SOL.  When the balance of the sender
    cannot be fetched, or is below 10,000,000 lamports, [transferNFT] throws
    its "Insufficient balance" error, whatever the mint address, the
    recipient and the wallet are: a failed balance request counts as a
    balance of 0. *)
Theorem transferNFT_needs_balance
        (node : NftNode) (walletProvider : WalletProvider)
        (mintAddress : JSString) (fromOwner toOwner : PublicKey) :
  (forall lamports, nft_getBalance node fromOwner = Ok lamports -> lamports < 10000000) ->
  transferNFT node walletProvider mintAddress fromOwner toOwner
  = Throw (GenericError "Insufficient balance").
Proof.
  intros Hlow. unfold transferNFT, getWalletBalance.
  destruct (nft_getBalance node fromOwner) as [lamports|e].
  - rewrite Qltb_hundredth.
    specialize (Hlow lamports eq_refl).
    destruct (Z.ltb_spec lamports 10000000); [reflexivity | lia].
  - reflexivity.
Qed.

(** X18. What a successful [transferNFT] has done.  The sender had at least
    10,000,000 lamports; the amount could be read from bytes 64-72 of the
    first token account the node lists for sender and mint, and, when the
    account data has a byte 72, that amount as a [Number] is at least 10 to
    the power of this byte (one whole token); data without a byte 72 passes
    this test whatever the amount, since [uiAmount] is then [NaN] and
    [NaN < 1] is false.  The wallet
    signed a transaction paid by the sender that ends in one token-program
    instruction with the data 03 01 00 00 00 00 00 00 00 (transfer of one
    base unit) from that first token account to the recipient's associated
    address, the one [getAssociatedTokenAccountAddress] gives, with the
    sender as signer; this instruction is preceded by the creation of the
    recipient's associated account exactly when the node has no account
    there; and the signature returned is the node's answer to the bytes of
    the signed transaction. *)
Theorem transferNFT_success
        (node : NftNode) (walletProvider : WalletProvider)
        (mintAddress : JSString) (fromOwner toOwner : PublicKey)
        (signature : JSString) :
  transferNFT node walletProvider mintAddress fromOwner toOwner = Ok signature ->
  exists lamports mint tokenProgram associatedProgram recipientATA
         holder others units info blockhash signed raw,
    nft_getBalance node fromOwner = Ok lamports /\ 10000000 <= lamports /\
    PublicKey_of_string mintAddress = Ok mint /\
    PublicKey_of_string (js "TokenkegQfeZyiNwAJbNbGKPFXCWuBvf9Ss623VQ5DA")
    = Ok tokenProgram /\
    PublicKey_of_string (js "ATokenGPvbdGVxr1b2hvZbsiqW5xWH25efTNsLJA8knL")
    = Ok associatedProgram /\
    getAssociatedTokenAccountAddress toOwner mint = Ok recipientATA /\
    nft_getTokenAccountsByOwner node fromOwner (mkTokenFilter (Some mint) None)
    = Ok (holder :: others) /\
    (let accountData := account_data (keyed_account holder) in
     getBigInt64 (buffer accountData) (byteOffset accountData + 64) = Ok units /\
     match index accountData 72 with
     | Some dec => 10 ^ dec <= Number_of_BigInt units
     | None => True
     end) /\
    nft_getAccountInfo node recipientATA = Ok info /\
    nft_getLatestBlockhash node = Ok blockhash /\
    walletProvider
      (mkTransaction
         (Some fromOwner)
         (match info with
          | Some _ => []
          | None =>
            [mkInstruction
               [ mkMeta fromOwner true true;
                 mkMeta recipientATA false true;
                 mkMeta toOwner false false;
                 mkMeta mint false false;
                 mkMeta SystemProgram_programId false false;
                 mkMeta tokenProgram false false ]
               associatedProgram []]
          end ++
          [mkInstruction
             [ mkMeta (keyed_pubkey holder) false true;
               mkMeta recipientATA false true;
               mkMeta fromOwner true false ]
             tokenProgram [3; 1; 0; 0; 0; 0; 0; 0; 0]])
         (Some blockhash))
    = Ok signed /\
    serialize signed = Ok raw /\
    nft_sendRawTransaction node raw = Ok signature.
Proof.
  unfold transferNFT, getWalletBalance, getAssociatedTokenAccountAddress.
  destruct (nft_getBalance node fromOwner) as [lamports|e] eqn:Ebal;
    [|intros H; discriminate H].
  rewrite Qltb_hundredth.
  destruct (Z.ltb_spec lamports 10000000) as [Hlow|Hbal]; [intros H; discriminate H|].
  destruct (PublicKey_of_string mintAddress) as [mint|e] eqn:Emint;
    cbn [rbind]; [|intros H; discriminate H].
  destruct (PublicKey_of_string (js "TokenkegQfeZyiNwAJbNbGKPFXCWuBvf9Ss623VQ5DA"))
    as [tokenProgram|e] eqn:Etoken; cbn [rbind]; [|intros H; discriminate H].
  destruct (PublicKey_of_string (js "ATokenGPvbdGVxr1b2hvZbsiqW5xWH25efTNsLJA8knL"))
    as [associatedProgram|e] eqn:Eassoc; cbn [rbind]; [|intros H; discriminate H].
  cbv zeta.
  destruct (findProgramAddressSync
              [toBuffer fromOwner; toBuffer tokenProgram; toBuffer mint]
              associatedProgram) as [senderPda|e];
    cbn [rbind]; [|intros H; discriminate H].
  destruct (findProgramAddressSync
              [toBuffer toOwner; toBuffer tokenProgram; toBuffer mint]
              associatedProgram) as [recipientPda|e] eqn:Erecipient;
    cbn [rbind]; [|intros H; discriminate H].
  destruct (nft_getTokenAccountsByOwner node fromOwner (mkTokenFilter (Some mint) None))
    as [[|holder others]|e] eqn:Eholder; cbn [rbind]; try (intros H; discriminate H).
  destruct (getBigInt64 _ _) as [units|e] eqn:Eunits; cbn [rbind];
    [|intros H; discriminate H].
  destruct (match index _ 72 with Some _ => _ | None => false end) eqn:Ewhole;
    [intros H; discriminate H|].
  destruct (nft_getAccountInfo node (fst recipientPda)) as [info|e] eqn:Einfo;
    cbn [rbind]; [|intros H; discriminate H].
  destruct (nft_getLatestBlockhash node) as [blockhash|e] eqn:Ehash;
    cbn [rbind]; [|intros H; discriminate H].
  destruct (walletProvider _) as [signed|e] eqn:Esigned;
    cbn [rbind]; [|intros H; discriminate H].
  destruct (serialize signed) as [raw|e] eqn:Eraw;
    cbn [rbind]; [|intros H; discriminate H].
  destruct (nft_sendRawTransaction node raw) as [sent|e] eqn:Esent;
    cbn [rbind]; [|intros H; discriminate H].
  destruct (nft_confirmTransaction node sent) as [[]|e];
    cbn [rbind]; [|intros H; discriminate H].
  intros H. injection H as <-.
  exists lamports, mint, tokenProgram, associatedProgram, (fst recipientPda),
         holder, others, units, info, blockhash, signed, raw.
  rewrite Erecipient. cbn [rbind].
  repeat (split; [first [reflexivity | assumption | lia]|]).
  split.
  { split; [exact Eunits|].
    destruct (index (account_data (keyed_account holder)) 72) as [dec|]; [|exact I].
    apply Qltb_whole in Ewhole; [lia | apply Z.pow_nonneg; lia]. }
  repeat (split; [first [reflexivity | assumption]|]).
  split; [|split; assumption].
  rewrite <- Esigned. f_equal. destruct info; reflexivity.
Qed.

End TransferFacts.

(** ** The further properties at work: keys, names and transfers *)

Lemma isValidPublicKey_of_key_witness :
  PublicKey_of_string (toBase58 Sample.carol) = Ok Sample.carol /\
  isValidPublicKey (toBase58 Sample.carol) = true.
Proof.
  destruct (isValidPublicKey_of_key Sample.carol) as [H1 [_ H2]]; [by_evaluation|].
  split; [exact H1|]. apply H2. split; [vm_compute; reflexivity | vm_compute; lia].
Defined.

(** 250 units with two decimals are the double 2.5; one unit with one
    decimal is the double 0.1. *)
Lemma parseTokenAccount_outcomes_witness :
  @parseTokenAccount Sample.engine (Uint8Array_of Sample.tokenAccountBytes)
  = Ok (Some (mkTokenAccountInfo (toBase58 Sample.carol) (toBase58 Sample.carol)
                                 (js "250") 2 (5 # 2))) /\
  @parseTokenAccount Sample.engine (Uint8Array_of (MoreSamples.tokenAccountWith 1 1))
  = Ok (Some (mkTokenAccountInfo (toBase58 Sample.carol) (toBase58 Sample.carol)
                                 (js "1") 1
                                 (3602879701896397 # 36028797018963968))).
Proof.
  split.
  - pose proof (@parseTokenAccount_outcomes Sample.engine
                  (Uint8Array_of Sample.tokenAccountBytes)) as P.
    cbv zeta in P. destruct P as (_ & _ & _ & _ & P & _).
    rewrite P by (vm_compute; reflexivity). vm_compute. reflexivity.
  - pose proof (@parseTokenAccount_outcomes Sample.engine
                  (Uint8Array_of (MoreSamples.tokenAccountWith 1 1))) as P.
    cbv zeta in P. destruct P as (_ & _ & _ & _ & P & _).
    rewrite P by (vm_compute; reflexivity). vm_compute. reflexivity.
Defined.

(** An amount of 2^53 + 1 without decimals: the record says 2^53.  One unit
    with one decimal: the record holds the double 0.1, which is not 1/10. *)
Lemma parseTokenAccount_uiAmount_counterexample :
  (exists r,
      @parseTokenAccount Sample.engine
         (Uint8Array_of (MoreSamples.tokenAccountWith (2 ^ 53 + 1) 0)) = Ok (Some r) /\
      amount r = js "9007199254740993" /\ decimals r = 0 /\
      uiAmount r = inject_Z 9007199254740992 /\
      ~ (uiAmount r == inject_Z 9007199254740993 / inject_Z (10 ^ 0))%Q) /\
  (exists r,
      @parseTokenAccount Sample.engine
         (Uint8Array_of (MoreSamples.tokenAccountWith 1 1)) = Ok (Some r) /\
      amount r = js "1" /\ decimals r = 1 /\
      ~ (uiAmount r == inject_Z 1 / inject_Z (10 ^ 1))%Q).
Proof.
  split.
  - eexists. split; [vm_compute; reflexivity|].
    repeat split; try (vm_compute; reflexivity).
    vm_compute. discriminate.
  - eexists. split; [vm_compute; reflexivity|].
    repeat split; try (vm_compute; reflexivity).
    vm_compute. discriminate.
Qed.

Lemma parseTokenAccount_accepts_witness :
  exists r mintKey,
    @parseTokenAccount Sample.engine (Uint8Array_of Sample.tokenAccountBytes)
    = Ok (Some r) /\
    PublicKey_of_string (mint r) = Ok mintKey /\
    toBuffer mintKey = toBuffer Sample.carol.
Proof.
  pose proof (@parseTokenAccount_accepts Sample.engine
                (Uint8Array_of Sample.tokenAccountBytes)
                ltac:(vm_compute; reflexivity)) as P.
  cbv zeta in P. destruct P as [[_ Hacc] Hkeys].
  destruct Hacc as [r Hr].
  { split; [by_evaluation|].
    split; (split; [vm_compute; reflexivity|]);
      (split; [vm_compute; reflexivity | vm_compute; lia]). }
  destruct (Hkeys r Hr) as (mintKey & ownerKey & Hm & _ & Hbm & _).
  exists r, mintKey. split; [exact Hr|]. split; [exact Hm|].
  rewrite Hbm. vm_compute. reflexivity.
Defined.

(** The last two characters of this mint are "YB": no name. *)
Lemma generateFallbackName_needs_hex_digit_witness :
  generateFallbackName (js "Es9vMFrzaCERmJfrF4H2FYD4KCoNkY11McCe8BenwNYB") = None.
Proof.
  destruct (generateFallbackName_needs_hex_digit
              (js "Es9vMFrzaCERmJfrF4H2FYD4KCoNkY11McCe8BenwNYB")
              (js "Es9vMFrzaCERmJfrF4H2FYD4KCoNkY11McCe8BenwN") 89 66)
    as [[_ H] _]; [vm_compute; reflexivity | vm_compute; reflexivity |].
  apply H. vm_compute. reflexivity.
Defined.

(** No account exists on the sample node, so the mint is no NFT. *)
Lemma verifyNFT_outcomes_witness :
  @verifyNFT Sample.env (MoreSamples.nftNode 0) (toBase58 Sample.carol) = false.
Proof.
  eapply eq_trans.
  - eapply (@verifyNFT_outcomes Sample.env (MoreSamples.nftNode 0)
              (toBase58 Sample.carol) Sample.carol).
    + vm_compute. reflexivity.
    + vm_compute. reflexivity.
    + lazy. reflexivity.
    + lazy. reflexivity.
  - reflexivity.
Defined.

(** Half of the required balance. *)
Lemma transferNFT_needs_balance_witness :
  @transferNFT Sample.env (MoreSamples.nftNode 5000000) MoreSamples.wallet
               (toBase58 Sample.carol) Sample.alice Sample.bob
  = Throw (GenericError "Insufficient balance").
Proof.
  apply (@transferNFT_needs_balance Sample.env (MoreSamples.nftNode 5000000)).
  intros lamports H. injection H as <-. lia.
Defined.

(** Twice the required balance: the transfer goes through, and the recipient's
    associated account is created first.  So does the transfer from a token
    account of 72 bytes that holds no unit at all. *)
Lemma transferNFT_success_witness :
  @transferNFT Sample.env (MoreSamples.nftNode 20000000) MoreSamples.wallet
               (toBase58 Sample.carol) Sample.alice Sample.bob
  = Ok (js "signature") /\
  (exists lamports holder,
      nft_getBalance (MoreSamples.nftNode 20000000) Sample.alice = Ok lamports /\
      10000000 <= lamports /\
      keyed_pubkey holder = mkPublicKey 77) /\
  @transferNFT Sample.env
     (MoreSamples.holderNode 20000000
        (Uint8Array_of (firstn 72 (MoreSamples.tokenAccountWith 0 0))))
     MoreSamples.wallet (toBase58 Sample.carol) Sample.alice Sample.bob
  = Ok (js "signature").
Proof.
  assert (H : @transferNFT Sample.env (MoreSamples.nftNode 20000000) MoreSamples.wallet
                           (toBase58 Sample.carol) Sample.alice Sample.bob
              = Ok (js "signature")) by (vm_compute; reflexivity).
  split; [exact H|]. split; [|vm_compute; reflexivity].
  destruct (@transferNFT_success Sample.env _ _ _ _ _ _ H)
    as (lamports & mint & tokenProgram & associatedProgram & recipientATA &
        holder & others & units & info & blockhash & signed & raw &
        Hb & Hl & _ & _ & _ & _ & Hh & _).
  exists lamports, holder. split; [exact Hb|]. split; [exact Hl|].
  injection Hh as <- _. reflexivity.
Defined.

(** ** The list of NFTs *)

Lemma parseTokenAccount_short {engine : Engine} (d : Uint8Array) :
  data_length d < 80 -> parseTokenAccount d = Ok None.
Proof.
  intros H. unfold parseTokenAccount.
  destruct (Z.ltb_spec (data_length d) 80); [reflexivity | lia].
Qed.

(** The mint of a record has passed [isValidPublicKey] already. *)
Lemma parseTokenAccount_mint_valid {engine : Engine}
      (d : Uint8Array) (r : TokenAccountInfo) :
  parseTokenAccount d = Ok (Some r) -> isValidPublicKey (mint r) = true.
Proof.
  unfold parseTokenAccount.
  destruct (Z.ltb_spec (data_length d) 80) as [Hshort|Hlong]; [discriminate|].
  destruct (readKeyField_outcomes d 0 32) as ([m Hm] & _ & Hmk).
  destruct (readKeyField_outcomes d 32 64) as ([o Ho] & _ & _).
  rewrite Hm. cbn [rbind]. destruct m as [mintText|]; [|discriminate].
  rewrite Ho. cbn [rbind]. destruct o as [ownerText|]; [|discriminate].
  rewrite amount_read by exact Hlong. cbn [rbind rcatch].
  intros H. injection H as <-. cbn [mint].
  destruct (Hmk mintText Hm) as (key & _ & _ & Hvalid). exact Hvalid.
Qed.

Lemma existsb_list_eqb (x : JSString) (l : list JSString) :
  existsb (list_eqb x) l = true <-> In x l.
Proof.
  rewrite existsb_exists. split.
  - intros (y & Hy & E). apply list_eqb_eq in E. now subst.
  - intros H. exists x. split; [exact H | now apply list_eqb_eq].
Qed.

Lemma app_snoc_split {A} (l before after : list A) (x a : A) :
  l ++ [x] = before ++ a :: after ->
  (after = [] /\ before = l /\ a = x) \/
  (exists after', after = after' ++ [x] /\ l = before ++ a :: after').
Proof.
  destruct after as [|y after' _] using rev_ind; intros H.
  - left. change (before ++ [a]) with (before ++ [a]) in H.
    apply app_inj_tail in H as [-> ->]. auto.
  - right. exists after'.
    change (before ++ a :: after' ++ [y]) with (before ++ (a :: after') ++ [y]) in H.
    rewrite app_assoc in H. apply app_inj_tail in H as [-> ->]. auto.
Qed.

Section UserNFTFacts.

Context {env : Environment} {engine : Engine}.

Variable Details : Type.
Variable describe : JSString -> Result Details.
Variable node : NftNode.
Variable includeUnverified : bool.

Lemma nftCandidate_spec (tokenInfo : TokenAccountInfo) (nft : NFTData Details) :
  nftCandidate Details describe node includeUnverified tokenInfo = Some nft <->
  Qeq_bool (uiAmount tokenInfo) 1 = true /\
  decimals tokenInfo = 0 /\
  isCommonToken (mint tokenInfo) = false /\
  (verifyNFT node (mint tokenInfo) = true \/ includeUnverified = true) /\
  exists details,
    describe (mint tokenInfo) = Ok details /\
    nft = mkNFT (mint tokenInfo) details (verifyNFT node (mint tokenInfo)).
Proof.
  unfold nftCandidate.
  destruct (Qeq_bool (uiAmount tokenInfo) 1);
    [|split; [discriminate | intros [H _]; discriminate]].
  destruct (Z.eqb_spec (decimals tokenInfo) 0) as [Hd|Hd];
    [|split; [discriminate | intros (_ & H & _); contradiction]].
  cbn [andb].
  destruct (isCommonToken (mint tokenInfo));
    [split; [discriminate | intros (_ & _ & H & _); discriminate]|].
  destruct (verifyNFT node (mint tokenInfo)), includeUnverified; cbn [negb andb];
    try (destruct (describe (mint tokenInfo)) as [details|e];
         [split;
          [intros H; injection H as <-; repeat split; auto; eexists; split; reflexivity
          |intros (_ & _ & _ & _ & d & Hdet & ->); now injection Hdet as ->]
         |split; [discriminate | intros (_ & _ & _ & _ & d & Hdet & _); discriminate]]).
  split; [discriminate | intros (_ & _ & _ & [H|H] & _); discriminate].
Qed.

Lemma nftCandidate_mint (tokenInfo : TokenAccountInfo) (nft : NFTData Details) :
  nftCandidate Details describe node includeUnverified tokenInfo = Some nft ->
  nft_mint nft = mint tokenInfo.
Proof.
  intros H. apply nftCandidate_spec in H as (_ & _ & _ & _ & d & _ & ->). reflexivity.
Qed.

(** The loop body in one piece. *)
Lemma processTokenAccount_step (st : Listing Details) (account : KeyedAccount) :
  processTokenAccount Details describe node includeUnverified st account
  = match parseTokenAccount (account_data (keyed_account account)) with
    | Ok (Some tokenInfo) =>
      if existsb (list_eqb (mint tokenInfo)) (processedMints st) then st
      else mkListing
             (nfts st ++
              match nftCandidate Details describe node includeUnverified tokenInfo with
              | Some nft => [nft]
              | None => []
              end)
             (mint tokenInfo :: processedMints st)
    | _ => st
    end.
Proof.
  unfold processTokenAccount.
  destruct (Z.ltb_spec (data_length (account_data (keyed_account account))) 80)
    as [Hshort|Hlong].
  { now rewrite parseTokenAccount_short. }
  destruct (parseTokenAccount _) as [[tokenInfo|]|e] eqn:E; try reflexivity.
  cbv zeta. destruct (existsb _ _); [reflexivity|].
  rewrite (parseTokenAccount_mint_valid _ _ E). cbn [negb].
  destruct (nftCandidate _ _ _ _ _); [reflexivity | now rewrite app_nil_r].
Qed.

(** What the loop has done after a list of token accounts: the set holds the
    mints of the accounts that parse; the list holds, in no mint twice, what
    the first account of each mint gives. *)
Lemma loop_spec (accounts : list KeyedAccount) :
  let st := fold_left (processTokenAccount Details describe node includeUnverified)
                      accounts (mkListing [] []) in
  (forall M, In M (processedMints st) <->
             exists a info, In a accounts /\
                            parseTokenAccount (account_data (keyed_account a))
                            = Ok (Some info) /\
                            mint info = M) /\
  (forall nft, In nft (nfts st) <->
               exists before a after info,
                 accounts = before ++ a :: after /\
                 parseTokenAccount (account_data (keyed_account a)) = Ok (Some info) /\
                 (forall earlier info',
                     In earlier before ->
                     parseTokenAccount (account_data (keyed_account earlier))
                     = Ok (Some info') ->
                     mint info' <> mint info) /\
                 nftCandidate Details describe node includeUnverified info = Some nft) /\
  NoDup (map nft_mint (nfts st)).
Proof.
  induction accounts as [|x l IH] using rev_ind.
  - cbn. split; [|split].
    + intros M. split; [contradiction | intros (a & info & [] & _)].
    + intros nft. split; [contradiction|].
      intros (before & a & after & info & H & _). now destruct before.
    + constructor.
  - rewrite fold_left_app. cbn [fold_left].
    set (st := fold_left _ l _) in *. cbv zeta in IH. destruct IH as (IHA & IHB & IHC).
    rewrite processTokenAccount_step.
    assert (Hold : forall nft,
               In nft (nfts st) ->
               exists before a after info,
                 l ++ [x] = before ++ a :: after /\
                 parseTokenAccount (account_data (keyed_account a)) = Ok (Some info) /\
                 (forall earlier info',
                     In earlier before ->
                     parseTokenAccount (account_data (keyed_account earlier))
                     = Ok (Some info') ->
                     mint info' <> mint info) /\
                 nftCandidate Details describe node includeUnverified info = Some nft).
    { intros nft H. apply IHB in H as (before & a & after & info & -> & Hp & Hf & Hc).
      exists before, a, (after ++ [x]), info. rewrite <- app_assoc. auto. }
    destruct (parseTokenAccount (account_data (keyed_account x)))
      as [[info|]|e] eqn:Ex.
    + destruct (existsb (list_eqb (mint info)) (processedMints st)) eqn:Eseen.
      * (* the mint has been seen *)
        apply existsb_list_eqb in Eseen.
        cbv zeta. split; [|split; [|exact IHC]].
        -- intros M. rewrite IHA. split.
           ++ intros (a & i & Ha & Hp & Hm). exists a, i.
              split; [apply in_or_app; now left | auto].
           ++ intros (a & i & Ha & Hp & Hm). apply in_app_or in Ha as [Ha|[<-|[]]].
              ** exists a, i. auto.
              ** rewrite Ex in Hp. injection Hp as <-. subst M.
                 now apply IHA.
        -- intros nft. split; [apply Hold|].
           intros (before & a & after & i & Hsplit & Hp & Hf & Hc).
           apply app_snoc_split in Hsplit as [(-> & -> & ->)|(after' & -> & ->)].
           ++ rewrite Ex in Hp. injection Hp as <-.
              apply IHA in Eseen as (a0 & i0 & Ha0 & Hp0 & Hm0).
              exfalso. exact (Hf a0 i0 Ha0 Hp0 Hm0).
           ++ apply IHB. exists before, a, after', i. auto.
      * (* a new mint *)
        assert (Hnew : ~ In (mint info) (processedMints st)).
        { intros H. apply existsb_list_eqb in H. congruence. }
        cbv zeta. cbn [nfts processedMints]. split; [|split].
        -- intros M. cbn [In]. rewrite IHA. split.
           ++ intros [<-|(a & i & Ha & Hp & Hm)].
              ** exists x, info. split; [apply in_or_app; right; now left | auto].
              ** exists a, i. split; [apply in_or_app; now left | auto].
           ++ intros (a & i & Ha & Hp & Hm). apply in_app_or in Ha as [Ha|[<-|[]]].
              ** right. exists a, i. auto.
              ** rewrite Ex in Hp. injection Hp as <-. now left.
        -- intros nft. rewrite in_app_iff. split.
           ++ intros [H|H]; [now apply Hold|].
              exists l, x, [], info. split; [reflexivity|]. split; [exact Ex|].
              split.
              ** intros earlier i' He Hp Hm. apply Hnew, IHA. exists earlier, i'. auto.
              ** destruct (nftCandidate _ _ _ _ info) as [n|]; [|contradiction].
                 destruct H as [<-|[]]. reflexivity.
           ++ intros (before & a & after & i & Hsplit & Hp & Hf & Hc).
              apply app_snoc_split in Hsplit as [(-> & -> & ->)|(after' & -> & ->)].
              ** right. rewrite Ex in Hp. injection Hp as <-. rewrite Hc. now left.
              ** left. apply IHB. exists before, a, after', i. auto.
        -- destruct (nftCandidate _ _ _ _ info) as [n|] eqn:Ec;
             [|now rewrite app_nil_r].
           rewrite map_app. cbn [map].
           apply NoDup_app; [exact IHC | repeat constructor; intros [] |].
           intros m Hin [<-|[]].
           apply in_map_iff in Hin as (nft & Hm & Hnft).
           apply IHB in Hnft as (before & a & after & i & -> & Hp & _ & Hc).
           apply nftCandidate_mint in Hc. apply nftCandidate_mint in Ec.
           apply Hnew, IHA. exists a, i.
           split; [apply in_or_app; right; now left|]. split; [exact Hp|]. congruence.
    + (* no record *)
      split; [|split; [|exact IHC]].
      * intros M. rewrite IHA. split.
        -- intros (a & i & Ha & Hp & Hm). exists a, i.
           split; [apply in_or_app; now left | auto].
        -- intros (a & i & Ha & Hp & Hm). apply in_app_or in Ha as [Ha|[<-|[]]].
           ++ exists a, i. auto.
           ++ rewrite Ex in Hp. discriminate.
      * intros nft. split; [apply Hold|].
        intros (before & a & after & i & Hsplit & Hp & Hf & Hc).
        apply app_snoc_split in Hsplit as [(-> & -> & ->)|(after' & -> & ->)].
        -- rewrite Ex in Hp. discriminate.
        -- apply IHB. exists before, a, after', i. auto.
    + split; [|split; [|exact IHC]].
      * intros M. rewrite IHA. split.
        -- intros (a & i & Ha & Hp & Hm). exists a, i.
           split; [apply in_or_app; now left | auto].
        -- intros (a & i & Ha & Hp & Hm). apply in_app_or in Ha as [Ha|[<-|[]]].
           ++ exists a, i. auto.
           ++ rewrite Ex in Hp. discriminate.
      * intros nft. split; [apply Hold|].
        intros (before & a & after & i & Hsplit & Hp & Hf & Hc).
        apply app_snoc_split in Hsplit as [(-> & -> & ->)|(after' & -> & ->)].
        -- rewrite Ex in Hp. discriminate.
        -- apply IHB. exists before, a, after', i. auto.
Qed.

Lemma two_splits {A} (before after before' after' : list A) (x a : A) :
  before ++ x :: after = before' ++ a :: after' ->
  In a before \/ (before = before' /\ x = a /\ after = after') \/ In x before'.
Proof.
  revert before'. induction before as [|z before IH]; intros [|y before'] H;
    cbn [app] in H; injection H as H1 H2.
  - right. left. auto.
  - right. right. left. auto.
  - left. left. auto.
  - destruct (IH _ H2) as [Hl|[(-> & -> & ->)|Hr]].
    + left. now right.
    + right. left. subst. auto.
    + right. right. now right.
Qed.

(** X19. What [getUserNFTs] lists.  A failed request for the token accounts
    gives the empty list.  Otherwise no mint is listed twice, and an entry is
    listed exactly when it comes from an account that [parseTokenAccount]
    accepts, before which the node's answer has no other accepted account of
    the same mint, that holds exactly one unit with no decimals, whose mint
    is no common token and is verified (or the unverified ones are asked
    for), and whose descriptive fields could be made; the entry then carries
    this mint, these fields and the answer of [verifyNFT].  Accounts that
    [parseTokenAccount] refuses are skipped before their mint is marked, so
    they hide nothing. *)
Theorem getUserNFTs_lists_first_accounts (ownerAddress tokenProgram : PublicKey) :
  PublicKey_of_string (js "TokenkegQfeZyiNwAJbNbGKPFXCWuBvf9Ss623VQ5DA")
  = Ok tokenProgram ->
  let result := getUserNFTs Details describe node ownerAddress includeUnverified in
  (forall e,
      nft_getTokenAccountsByOwner node ownerAddress
                                  (mkTokenFilter None (Some tokenProgram)) = Throw e ->
      result = []) /\
  (forall accounts,
      nft_getTokenAccountsByOwner node ownerAddress
                                  (mkTokenFilter None (Some tokenProgram)) = Ok accounts ->
      NoDup (map nft_mint result) /\
      forall nft,
        In nft result <->
        exists before account after tokenInfo,
          accounts = before ++ account :: after /\
          parseTokenAccount (account_data (keyed_account account)) = Ok (Some tokenInfo) /\
          (forall earlier info',
              In earlier before ->
              parseTokenAccount (account_data (keyed_account earlier)) = Ok (Some info') ->
              mint info' <> mint tokenInfo) /\
          Qeq_bool (uiAmount tokenInfo) 1 = true /\
          decimals tokenInfo = 0 /\
          isCommonToken (mint tokenInfo) = false /\
          (verifyNFT node (mint tokenInfo) = true \/ includeUnverified = true) /\
          exists details,
            describe (mint tokenInfo) = Ok details /\
            nft = mkNFT (mint tokenInfo) details (verifyNFT node (mint tokenInfo))).
Proof.
  intros Hprogram result. unfold result, getUserNFTs. rewrite Hprogram. cbn [rbind].
  split.
  - intros e ->. reflexivity.
  - intros accounts ->.
    destruct (loop_spec accounts) as (_ & HB & HC). cbv zeta in HB, HC.
    split; [exact HC|].
    intros nft. rewrite HB. split.
    + intros (before & a & after & info & H1 & H2 & H3 & H4).
      exists before, a, after, info. apply nftCandidate_spec in H4. auto.
    + intros (before & a & after & info & H1 & H2 & H3 & H4).
      exists before, a, after, info. apply nftCandidate_spec in H4. auto.
Qed.

(** X20. The first accepted account of a mint decides alone.  Take an
    account that [parseTokenAccount] accepts and before which the node's
    answer has no accepted account of the same mint.  When it does not hold
    exactly one unit with no decimals, the mint is not listed, whatever the
    later accounts of the same mint hold: the mint is marked as processed
    before the amount is looked at.  (Accounts that [parseTokenAccount]
    refuses do not count: they are skipped before the mint is marked.) *)
Theorem first_account_hides_mint
        (ownerAddress tokenProgram : PublicKey)
        (before after : list KeyedAccount) (first : KeyedAccount)
        (tokenInfo : TokenAccountInfo) :
  PublicKey_of_string (js "TokenkegQfeZyiNwAJbNbGKPFXCWuBvf9Ss623VQ5DA")
  = Ok tokenProgram ->
  nft_getTokenAccountsByOwner node ownerAddress (mkTokenFilter None (Some tokenProgram))
  = Ok (before ++ first :: after) ->
  parseTokenAccount (account_data (keyed_account first)) = Ok (Some tokenInfo) ->
  (forall earlier info',
      In earlier before ->
      parseTokenAccount (account_data (keyed_account earlier)) = Ok (Some info') ->
      mint info' <> mint tokenInfo) ->
  Qeq_bool (uiAmount tokenInfo) 1 = false \/ decimals tokenInfo <> 0 ->
  forall nft,
    In nft (getUserNFTs Details describe node ownerAddress includeUnverified) ->
    nft_mint nft <> mint tokenInfo.
Proof.
  intros Hprogram Haccounts Hfirst Hearlier Hamount nft.
  unfold getUserNFTs. rewrite Hprogram. cbn [rbind]. rewrite Haccounts.
  destruct (loop_spec (before ++ first :: after)) as (_ & HB & _). cbv zeta in HB.
  rewrite HB. intros (before' & a & after' & info & Hsplit & Hp & Hf & Hc) Hm.
  pose proof (nftCandidate_mint _ _ Hc) as Hmint.
  destruct (two_splits _ _ _ _ _ _ Hsplit) as [Ha|[(-> & -> & ->)|Hx]].
  - apply (Hearlier a info Ha Hp). congruence.
  - rewrite Hfirst in Hp. injection Hp as <-.
    apply nftCandidate_spec in Hc as (H1 & H2 & _).
    destruct Hamount as [H|H]; [congruence | contradiction].
  - apply (Hf first tokenInfo Hx Hfirst). congruence.
Qed.

End UserNFTFacts.

(** An account of the mint that is refused (and holds nothing), then the
    account that holds the NFT: the NFT is listed. *)
Lemma getUserNFTs_lists_first_accounts_witness :
  In (mkNFT (toBase58 Sample.carol) (js "CARV NFT") false)
     (@getAllUserNFTs Sample.env Sample.engine JSString (fun _ => Ok (js "CARV NFT"))
        (MoreSamples.collectorNode
           [mkKeyed (mkPublicKey 20) (Sample.account_of MoreSamples.refusedAccountBytes);
            mkKeyed (mkPublicKey 21) (Sample.account_of (MoreSamples.nftAccountBytes 1))])
        Sample.alice).
Proof.
  assert (E : exists tokenProgram,
             PublicKey_of_string (js "TokenkegQfeZyiNwAJbNbGKPFXCWuBvf9Ss623VQ5DA")
             = Ok tokenProgram) by (eexists; vm_compute; reflexivity).
  destruct E as [tokenProgram E].
  pose proof (@getUserNFTs_lists_first_accounts
                Sample.env Sample.engine JSString (fun _ => Ok (js "CARV NFT"))
                (MoreSamples.collectorNode
                   [mkKeyed (mkPublicKey 20)
                            (Sample.account_of MoreSamples.refusedAccountBytes);
                    mkKeyed (mkPublicKey 21)
                            (Sample.account_of (MoreSamples.nftAccountBytes 1))])
                true Sample.alice tokenProgram E) as P.
  cbv zeta in P. destruct P as [_ P].
  destruct (P _ eq_refl) as [_ Hin].
  unfold getAllUserNFTs. apply (proj2 (Hin _)).
  assert (Hp : @parseTokenAccount Sample.engine (Uint8Array_of (MoreSamples.nftAccountBytes 1))
               = Ok (Some (mkTokenAccountInfo (toBase58 Sample.carol)
                                              (toBase58 Sample.carol) (js "1") 0 (1 # 1))))
    by (vm_compute; reflexivity).
  assert (Hrefused : @parseTokenAccount Sample.engine
                        (Uint8Array_of MoreSamples.refusedAccountBytes) = Ok None)
    by (vm_compute; reflexivity).
  exists [mkKeyed (mkPublicKey 20) (Sample.account_of MoreSamples.refusedAccountBytes)],
         (mkKeyed (mkPublicKey 21) (Sample.account_of (MoreSamples.nftAccountBytes 1))),
         [], (mkTokenAccountInfo (toBase58 Sample.carol)
                                 (toBase58 Sample.carol) (js "1") 0 (1 # 1)).
  cbn [mint uiAmount decimals].
  split; [reflexivity|]. split; [exact Hp|].
  split.
  { intros earlier info' [<-|[]] Hparse.
    change (account_data (keyed_account
              (mkKeyed (mkPublicKey 20)
                       (Sample.account_of MoreSamples.refusedAccountBytes))))
      with (Uint8Array_of MoreSamples.refusedAccountBytes) in Hparse.
    rewrite Hrefused in Hparse. discriminate Hparse. }
  split; [reflexivity|]. split; [reflexivity|].
  split; [vm_compute; reflexivity|]. split; [now right|].
  exists (js "CARV NFT"). split; [reflexivity|].
  vm_compute. reflexivity.
Defined.

(** An empty account of the mint in front of the one that holds the NFT: the
    NFT is not listed. *)
Lemma first_account_hides_mint_witness :
  forallb (fun nft => negb (list_eqb (nft_mint nft) (toBase58 Sample.carol)))
          (@getAllUserNFTs Sample.env Sample.engine JSString (fun _ => Ok (js "CARV NFT"))
             (MoreSamples.collectorNode
                [mkKeyed (mkPublicKey 20) (Sample.account_of (MoreSamples.nftAccountBytes 0));
                 mkKeyed (mkPublicKey 21) (Sample.account_of (MoreSamples.nftAccountBytes 1))])
             Sample.alice)
  = true.
Proof.
  apply forallb_forall. intros nft Hin.
  destruct (list_eqb (nft_mint nft) (toBase58 Sample.carol)) eqn:Heq; [|reflexivity].
  exfalso. apply list_eqb_eq in Heq. revert nft Hin Heq.
  assert (E : exists tokenProgram,
             PublicKey_of_string (js "TokenkegQfeZyiNwAJbNbGKPFXCWuBvf9Ss623VQ5DA")
             = Ok tokenProgram) by (eexists; vm_compute; reflexivity).
  destruct E as [tokenProgram E].
  assert (Hp : @parseTokenAccount Sample.engine (Uint8Array_of (MoreSamples.nftAccountBytes 0))
               = Ok (Some (mkTokenAccountInfo (toBase58 Sample.carol)
                                              (toBase58 Sample.carol) (js "0") 0 (0 # 1))))
    by (vm_compute; reflexivity).
  unfold getAllUserNFTs.
  apply (@first_account_hides_mint
           Sample.env Sample.engine JSString (fun _ => Ok (js "CARV NFT"))
           (MoreSamples.collectorNode
              [mkKeyed (mkPublicKey 20) (Sample.account_of (MoreSamples.nftAccountBytes 0));
               mkKeyed (mkPublicKey 21) (Sample.account_of (MoreSamples.nftAccountBytes 1))])
           true Sample.alice tokenProgram []
           [mkKeyed (mkPublicKey 21) (Sample.account_of (MoreSamples.nftAccountBytes 1))]
           (mkKeyed (mkPublicKey 20) (Sample.account_of (MoreSamples.nftAccountBytes 0)))
           (mkTokenAccountInfo (toBase58 Sample.carol)
                               (toBase58 Sample.carol) (js "0") 0 (0 # 1))
           E eq_refl Hp).
  - intros ? ? [].
  - now left.
Defined.
